(** * DC-DC converter CAN tooling: catalog expansion and converter control

    A shallow embedding of four pieces of the repository:

    - [expand_dbc.py]: the line-by-line rewriting of a single-unit DBC
      catalog into a catalog for several DC-DC units;
    - [dcdc_controller.py]: the operations of [DCDCController] that build
      outgoing frames and file incoming frames into the caches;
    - [can_handler.py]: [CANBusHandler.receive_message], [send_message]
      and [encode_message];
    - [dcdc_monitor.py]: what the monitor does with a received message, and
      its send dialog.

    Python strings are [string]s whose characters are code points below 256,
    Python integers are [Z], Python floats are IEEE binary64 numbers
    ([PrimFloat.float]).  Exceptions are values of [exn]; a call that can
    raise returns a [result].  What the code prints, and the pauses it
    makes, are left out.  The bus is the list of the frames the transport
    has taken: the controller is run on a transport that takes every
    frame, the handler and the send dialog on any transport. *)

From Stdlib Require Import ZArith Ascii String List Lia Bool.
From Stdlib Require Import Strings.Byte.
From Stdlib Require Import PrimFloat FloatOps SpecFloat Hexadecimal.
From Stdlib Require HexadecimalPos.
From stdpp Require Import gmap strings pretty list.

Open Scope Z_scope.

(** ** Exceptions and results *)

Inductive exn :=
| KeyError | IndexError | ValueError | OverflowError
| DecodeError | EncodeError | ConnectionError | CanOperationError.

Inductive result (A : Type) :=
| Ok (a : A)
| Raise (e : exn).
Arguments Ok {A} a.
Arguments Raise {A} e.

Definition rbind {A B} (m : result A) (k : A -> result B) : result B :=
  match m with
  | Ok a => k a
  | Raise e => Raise e
  end.

Notation "'let*' x ':=' m 'in' k" := (rbind m (fun x => k))
  (at level 10, x pattern, m at level 100, k at level 200, only parsing).

(** ** Python string primitives *)

Module Py.

(** [str.isspace] on one character, for code points below 256. *)
Definition isspace (c : ascii) : bool :=
  match c with
  | "009" | "010" | "011" | "012" | "013"
  | "028" | "029" | "030" | "031" | " "
  | "133" | "160" => true
  | _ => false
  end%char.

(** [s.startswith(p)]. *)
Definition startswith (s p : string) : bool := String.prefix p s.

(** [sub in s]. *)
Fixpoint contains (sub s : string) : bool :=
  String.prefix sub s ||
  match s with
  | EmptyString => false
  | String _ s' => contains sub s'
  end.

(** [s.replace(old, new)]: occurrences are found left to right and do not
    overlap.  After a match the scan resumes behind the matched text, which
    [skip] counts down. *)
Fixpoint replace_go (old new : string) (skip : nat) (s : string) : string :=
  match s with
  | EmptyString => EmptyString
  | String c r =>
      match skip with
      | S k => replace_go old new k r
      | O =>
          if String.prefix old s
          then new +:+ replace_go old new (String.length old - 1) r
          else String c (replace_go old new 0 r)
      end
  end.

(** With an empty [old], Python puts [new] before every character and at
    the end. *)
Fixpoint interleave (new s : string) : string :=
  match s with
  | EmptyString => new
  | String c r => new +:+ String c (interleave new r)
  end.

Definition replace (s old new : string) : string :=
  match old with
  | EmptyString => interleave new s
  | String _ _ => replace_go old new 0 s
  end.
Arguments replace : simpl never.

(** [s.split(None, maxsplit)]: runs of whitespace separate the pieces; once
    [maxsplit] splits are done the remainder, leading whitespace removed, is
    the last piece.  [maxsplit = None] is the unbounded [s.split()].
    [tok] holds the characters of the piece being read, last one first. *)
Fixpoint split_go (maxsplit : option nat) (tok : option string) (s : string)
  : list string :=
  match s with
  | EmptyString =>
      match tok with
      | Some t => [String.rev t]
      | None => []
      end
  | String c r =>
      match tok with
      | Some t =>
          if isspace c
          then String.rev t :: split_go (Nat.pred <$> maxsplit) None r
          else split_go maxsplit (Some (String c t)) r
      | None =>
          if isspace c then split_go maxsplit None r
          else match maxsplit with
               | Some O => [s]
               | _ => split_go maxsplit (Some (String c EmptyString)) r
               end
      end
  end.

Definition split (maxsplit : option nat) (s : string) : list string :=
  split_go maxsplit None s.

(** [s.lstrip()], [s.rstrip()], [s.strip()] and [s.rstrip(chars)] for a
    single character. *)
Fixpoint lstrip (s : string) : string :=
  match s with
  | EmptyString => EmptyString
  | String c r => if isspace c then lstrip r else s
  end.

Fixpoint rstrip_by (p : ascii -> bool) (s : string) : string :=
  match s with
  | EmptyString => EmptyString
  | String c r =>
      match rstrip_by p r with
      | EmptyString => if p c then EmptyString else String c EmptyString
      | r' => String c r'
      end
  end.

Definition strip (s : string) : string := rstrip_by isspace (lstrip s).

Definition rstrip_char (ch : ascii) (s : string) : string :=
  rstrip_by (Ascii.eqb ch) s.

(** [int(s)] for a string: surrounding whitespace, an optional sign, then
    decimal digits in which single underscores may separate digits.  Any
    other text raises [ValueError].  (The interpreter's cap on the number
    of digits of a conversion is not modelled: integers are unbounded.) *)
Definition digit_of (c : ascii) : option Z :=
  let code := Z.of_N (N_of_ascii c) in
  if (48 <=? code) && (code <=? 57) then Some (code - 48) else None.

(** [digits_go acc prev_digit s]: [prev_digit] tells whether the previous
    character was a digit, so that an underscore is legal here. *)
Fixpoint digits_go (acc : Z) (prev_digit : bool) (s : string) : option Z :=
  match s with
  | EmptyString => if prev_digit then Some acc else None
  | String c r =>
      match digit_of c with
      | Some d => digits_go (10 * acc + d) true r
      | None =>
          if Ascii.eqb c "_" && prev_digit
          then match r with
               | EmptyString => None
               | String c' _ =>
                   match digit_of c' with
                   | Some _ => digits_go acc false r
                   | None => None
                   end
               end
          else None
      end
  end.

Definition int_of_str (s : string) : result Z :=
  let body := strip s in
  let signed :=
    match body with
    | String "-" r => (true, r)
    | String "+" r => (false, r)
    | _ => (false, body)
    end in
  match digits_go 0 false (snd signed) with
  | Some n => Ok (if fst signed then - n else n)
  | None => Raise ValueError
  end.

(** [s.find(sub)]: the position of the first occurrence, [None] for the
    source's [-1]. *)
Fixpoint find (sub s : string) : option nat :=
  if String.prefix sub s then Some O
  else match s with
       | EmptyString => None
       | String _ r => S <$> find sub r
       end.

(** [str(n)] and [f'{n}'] for an integer. *)
Definition str_of_int (n : Z) : string := pretty n.

(** [range(n)]. *)
Definition range (n : Z) : list Z := Z.of_nat <$> seq 0 (Z.to_nat n).

(** [parts[i]], raising [IndexError] out of range (non-negative [i]). *)
Definition index {A} (l : list A) (i : nat) : result A :=
  match l !! i with
  | Some x => Ok x
  | None => Raise IndexError
  end.

End Py.

(** ** Python's hexadecimal primitives *)

Module Py16.

(** The value of a hexadecimal digit, of either case. *)
Definition hex_digit_of (c : ascii) : option Z :=
  let code := Z.of_N (N_of_ascii c) in
  if (48 <=? code) && (code <=? 57) then Some (code - 48)
  else if (97 <=? code) && (code <=? 102) then Some (code - 87)
  else if (65 <=? code) && (code <=? 70) then Some (code - 55)
  else None.

(** The digits of [int(s, 16)]: single underscores may separate digits.
    [prev_digit] tells whether the previous character was a digit. *)
Fixpoint hex_digits_go (acc : Z) (prev_digit : bool) (s : string) : option Z :=
  match s with
  | EmptyString => if prev_digit then Some acc else None
  | String c r =>
      match hex_digit_of c with
      | Some d => hex_digits_go (16 * acc + d) true r
      | None =>
          if Ascii.eqb c "_" && prev_digit
          then match r with
               | EmptyString => None
               | String c' _ =>
                   match hex_digit_of c' with
                   | Some _ => hex_digits_go acc false r
                   | None => None
                   end
               end
          else None
      end
  end.

(** The whitespace [int] skips around a numeral, for code points below
    256: that of ASCII and the two of Latin-1.  The four separators 28 to
    31, which [str.split] and [str.strip] take for whitespace, are not
    among them. *)
Definition isspace_int (c : ascii) : bool :=
  match c with
  | "009" | "010" | "011" | "012" | "013" | " " | "133" | "160" => true
  | _ => false
  end%char.

Fixpoint lstrip_int (s : string) : string :=
  match s with
  | EmptyString => EmptyString
  | String c r => if isspace_int c then lstrip_int r else s
  end.

Definition strip_int (s : string) : string :=
  Py.rstrip_by isspace_int (lstrip_int s).

(** [int(s)] with exactly this whitespace.  The decimal conversions of the
    expansion are all applied to pieces of [split], which hold no
    whitespace of either kind. *)
Definition int_decimal (s : string) : result Z :=
  let body := strip_int s in
  let signed :=
    match body with
    | String "-" r => (true, r)
    | String "+" r => (false, r)
    | _ => (false, body)
    end in
  match Py.digits_go 0 false (snd signed) with
  | Some n => Ok (if fst signed then - n else n)
  | None => Raise ValueError
  end.

(** [int(s, 16)]: surrounding whitespace, an optional sign, an optional
    [0x] or [0X], behind which one underscore may stand, then the digits.
    Any other text raises [ValueError]. *)
Definition int_base16 (s : string) : result Z :=
  let body := strip_int s in
  let signed :=
    match body with
    | String "-" r => (true, r)
    | String "+" r => (false, r)
    | _ => (false, body)
    end in
  let unprefixed :=
    match snd signed with
    | String "0" (String "x" r) | String "0" (String "X" r) =>
        match r with
        | String "_" r' => r'
        | _ => r
        end
    | r => r
    end in
  match hex_digits_go 0 false unprefixed with
  | Some n => Ok (if fst signed then - n else n)
  | None => Raise ValueError
  end.

(** The whitespace [bytes.fromhex] skips: that of ASCII. *)
Definition isspace_ascii (c : ascii) : bool :=
  match c with
  | "009" | "010" | "011" | "012" | "013" | " " => true
  | _ => false
  end%char.

Definition byte_of_digits (top bot : Z) : byte :=
  default "000"%byte (Byte.of_N (Z.to_N (16 * top + bot))).

(** [bytes.fromhex(s)]: two digits for each byte, whitespace skipped in
    front of a byte; anything else raises [ValueError]. *)
Fixpoint bytes_fromhex (s : string) : result (list byte) :=
  match s with
  | EmptyString => Ok []
  | String c r =>
      if isspace_ascii c then bytes_fromhex r
      else
        match hex_digit_of c, r with
        | Some top, String c' r' =>
            match hex_digit_of c' with
            | Some bot =>
                let* more := bytes_fromhex r' in
                Ok (byte_of_digits top bot :: more)
            | None => Raise ValueError
            end
        | _, _ => Raise ValueError
        end
  end.

(** The lower-case form of a hexadecimal digit of [f'{n:X}']. *)
Definition lower (c : ascii) : ascii :=
  let code := N_of_ascii c in
  if ((65 <=? code) && (code <=? 70))%N then ascii_of_N (code + 32) else c.

Fixpoint lowercase (s : string) : string :=
  match s with
  | EmptyString => EmptyString
  | String c r => String (lower c) (lowercase r)
  end.

End Py16.
(** ** The multi-unit expansion of a catalog ([expand_dbc.py]) *)

Module ExpandDbc.

Import Py.

Definition LF : string := String "010"%char EmptyString.
Definition DQ : string := String "034"%char EmptyString.

(** One entry of the list built by [parse_messages]. *)
Record message := {
  can_id : Z;
  name : string;
  dlc : string;
  sender : string;
  signals : list string;
  line : string
}.

(** The fields read off a [BO_] line; [parse_messages] and the main loop
    both start with these five statements. *)
Definition bo_fields (ln : string) : result (Z * string * string * string) :=
  let parts := split None ln in
  let* id_text := index parts 1 in
  let* cid := int_of_str id_text in
  let* name_text := index parts 2 in
  let msg_name := rstrip_char ":" name_text in
  let* d := index parts 3 in
  let* sender_text := index parts 4 in
  Ok (cid, msg_name, d, strip sender_text).

Definition is_signal_line (ln : string) : bool := startswith ln " SG_".

(** The lines [lines[i]], [lines[i+1]], ... that the inner [while] loops
    walk over: the longest run of signal lines at the front of [ls]. *)
Fixpoint signal_run (ls : list string) : list string :=
  match ls with
  | l :: r => if is_signal_line l then l :: signal_run r else []
  | [] => []
  end.

(** Both [while i < len(lines)] loops of the file have one shape: the pass
    at line [i] appends some items and moves [i] behind the line and behind
    the lines its inner loop walked over.  The index [i] of the source is
    the position in the list; [skip] counts the lines already walked over. *)
Fixpoint walk {B} (body : string -> list string -> result (list B * nat))
    (skip : nat) (lines : list string) : result (list B) :=
  match lines with
  | [] => Ok []
  | ln :: rest =>
      match skip with
      | S k => walk body k rest
      | O =>
          let* (out, walked) := body ln rest in
          let* more := walk body walked rest in
          Ok (out ++ more)
      end
  end.

(** One pass of the loop of [parse_messages]. *)
Definition parse_line (ln : string) (rest : list string)
  : result (list message * nat) :=
  if startswith ln "BO_ " then
    let* (cid, msg_name, d, snd) := bo_fields ln in
    let sigs := signal_run rest in
    Ok ([{| can_id := cid; name := msg_name; dlc := d; sender := snd;
            signals := sigs; line := ln |}], length sigs)
  else Ok ([], 0%nat).

Definition parse_messages (lines : list string) : result (list message) :=
  walk parse_line 0 lines.

(** The first parsed message with this identifier ([msg_data]). *)
Definition find_message (messages : list message) (cid : Z) : option message :=
  List.find (fun m => can_id m =? cid) messages.

(** Range of DCDC messages: 2148532224 .. 2305818624. *)
Definition in_dcdc_range (cid : Z) : bool :=
  (2148532224 <=? cid) && (cid <=? 2305818624).

Definition unit_suffix (unit_id : Z) : string :=
  if 0 <? unit_id then "_" +:+ str_of_int unit_id else EmptyString.

Definition bu_line : string :=
  "BU_: SUPERVISER DCDC_Primary DCDC_Primary_1 DCDC_Primary_2" +:+ LF.

Definition new_sender (snd : string) (unit_id : Z) : string :=
  replace snd "DCDC_Primary"
    (if 0 <? unit_id then "DCDC_Primary" +:+ unit_suffix unit_id
     else "DCDC_Primary").

Definition new_sig_line (sig_line : string) (unit_id : Z) : string :=
  if contains "DCDC_Primary" sig_line && (0 <? unit_id)
  then replace sig_line "DCDC_Primary" ("DCDC_Primary_" +:+ str_of_int unit_id)
  else sig_line.

Definition bo_header (cid : Z) (msg_name d snd : string) (unit_id : Z) : string :=
  "BO_ " +:+ str_of_int (cid + unit_id) +:+ " " +:+ (msg_name +:+ unit_suffix unit_id)
    +:+ ": " +:+ d +:+ " " +:+ new_sender snd unit_id +:+ LF.

(** What one pass of [for unit_id in range(num_units)] appends for a
    message. *)
Definition unit_block (msg_data : option message) (cid : Z)
    (msg_name d snd : string) (unit_id : Z) : list string :=
  [bo_header cid msg_name d snd unit_id]
  ++ match msg_data with
     | Some m =>
         match signals m with
         | [] => []
         | sigs => (fun sig_line => new_sig_line sig_line unit_id) <$> sigs
         end
     | None => []
     end
  ++ [LF].

Definition involves_dcdc (snd msg_name : string) : bool :=
  contains "DCDC_Primary" snd || contains "DCDC" msg_name.

(** The [BO_] branch.  The result is the lines appended and the number of
    following lines the branch walks over. *)
Definition on_message (messages : list message) (num_units : Z)
    (ln : string) (rest : list string) : result (list string * nat) :=
  let* (cid, msg_name, d, snd) := bo_fields ln in
  let msg_data := find_message messages cid in
  if involves_dcdc snd msg_name then
    Ok (concat (unit_block msg_data cid msg_name d snd <$> range num_units),
        length (signal_run rest))
  else
    Ok (ln :: signal_run rest, length (signal_run rest)).

(** The branches below either handle the line ([Some] of the lines
    appended) or leave it to the checks that follow ([None]). *)

Definition on_message_comment (num_units : Z) (ln : string)
  : result (option (list string)) :=
  if startswith ln "CM_ BO_ " then
    let parts := split (Some 3%nat) ln in
    let* id_text := index parts 2 in
    let* cid := int_of_str id_text in
    let comment := match parts !! 3%nat with
                   | Some c => c
                   | None => DQ +:+ DQ
                   end in
    if in_dcdc_range cid then
      Ok (Some ((fun unit_id =>
                   "CM_ BO_ " +:+ str_of_int (cid + unit_id) +:+ " " +:+ comment)
                <$> range num_units))
    else Ok None
  else Ok None.

Definition on_signal_comment (num_units : Z) (ln : string)
  : result (option (list string)) :=
  if startswith ln "CM_ SG_ " then
    let parts := split (Some 4%nat) ln in
    let* id_text := index parts 2 in
    let* cid := int_of_str id_text in
    let* sig_name := index parts 3 in
    let comment := match parts !! 4%nat with
                   | Some c => c
                   | None => DQ +:+ DQ
                   end in
    if in_dcdc_range cid then
      Ok (Some ((fun unit_id =>
                   "CM_ SG_ " +:+ str_of_int (cid + unit_id) +:+ " " +:+ sig_name
                     +:+ " " +:+ comment)
                <$> range num_units))
    else Ok None
  else Ok None.

Definition on_node_comment (ln : string) : result (option (list string)) :=
  if startswith ln "CM_ BU_ DCDC_Primary " then
    let* _ := index (split (Some 3%nat) ln) 3 in
    Ok (Some [ln;
              "CM_ BU_ DCDC_Primary_1 " +:+ DQ +:+ "DCDC_Converter Primary_1 CAN interface"
                +:+ DQ +:+ ";" +:+ LF;
              "CM_ BU_ DCDC_Primary_2 " +:+ DQ +:+ "DCDC_Converter Primary_2 CAN interface"
                +:+ DQ +:+ ";" +:+ LF])
  else Ok None.

Definition nm_station_prefix : string :=
  "BA_ " +:+ DQ +:+ "NmStationAddress" +:+ DQ +:+ " BU_ DCDC_Primary".

Definition on_station_address (ln : string) : option (list string) :=
  if startswith ln nm_station_prefix then
    Some [ln;
          "BA_ " +:+ DQ +:+ "NmStationAddress" +:+ DQ +:+ " BU_ DCDC_Primary_1 1;" +:+ LF;
          "BA_ " +:+ DQ +:+ "NmStationAddress" +:+ DQ +:+ " BU_ DCDC_Primary_2 2;" +:+ LF]
  else None.

(** The [for idx, part in enumerate(parts)] loop of the attribute branch,
    over the parts from [idx] on.  [Some out]: the loop was left by [break]
    after appending [out]; [None]: it ran to its end, and the [else] of the
    loop keeps the line. *)
Fixpoint attribute_scan (num_units : Z) (ln : string) (all_parts : list string)
    (parts : list string) : result (option (list string)) :=
  match parts with
  | [] => Ok None
  | part :: later =>
      match String.eqb part "BO_", later with
      | true, next :: _ =>
          match int_of_str next with
          | Ok cid =>
              if in_dcdc_range cid then
                let* _ := index all_parts 1 in
                Ok (Some ((fun unit_id =>
                             replace ln ("BO_ " +:+ str_of_int cid)
                               ("BO_ " +:+ str_of_int (cid + unit_id)))
                          <$> range num_units))
              else attribute_scan num_units ln all_parts later
          | Raise _ => attribute_scan num_units ln all_parts later
          end
      | _, _ => attribute_scan num_units ln all_parts later
      end
  end.

Definition on_message_attribute (num_units : Z) (ln : string)
  : result (option (list string)) :=
  if startswith ln "BA_ " && contains "BO_ " ln then
    let parts := split None ln in
    let* found := attribute_scan num_units ln parts parts in
    match found with
    | Some out => Ok (Some out)
    | None => Ok (Some [ln])
    end
  else Ok None.

Definition on_value_table (num_units : Z) (ln : string)
  : result (option (list string)) :=
  if startswith ln "VAL_ " then
    let parts := split (Some 2%nat) ln in
    if (2 <=? length parts)%nat then
      match rbind (index parts 1) int_of_str with
      | Ok cid =>
          if in_dcdc_range cid then
            let* rest_text := index parts 2 in
            Ok (Some ((fun unit_id =>
                         "VAL_ " +:+ str_of_int (cid + unit_id) +:+ " " +:+ rest_text)
                      <$> range num_units))
          else Ok None
      | Raise _ => Ok None
      end
    else Ok None
  else Ok None.

(** The checks between the [BO_] branch and the default, in the order of
    the source; the first one that handles the line ends the pass. *)
Definition on_metadata (num_units : Z) (ln : string) : result (list string) :=
  let* r := on_message_comment num_units ln in
  match r with Some out => Ok out | None =>
  let* r := on_signal_comment num_units ln in
  match r with Some out => Ok out | None =>
  let* r := on_node_comment ln in
  match r with Some out => Ok out | None =>
  match on_station_address ln with Some out => Ok out | None =>
  let* r := on_message_attribute num_units ln in
  match r with Some out => Ok out | None =>
  let* r := on_value_table num_units ln in
  match r with Some out => Ok out | None =>
  Ok [ln]
  end end end end end end.

(** One pass of the main [while] loop at line [ln], [rest] being the lines
    behind it: the lines appended to [new_lines] and how many lines of
    [rest] the pass walks over. *)
Definition expand_line (messages : list message) (num_units : Z)
    (ln : string) (rest : list string) : result (list string * nat) :=
  if startswith ln "VERSION" || startswith ln "NS_" || startswith ln "BS_:"
  then Ok ([ln], 0%nat)
  else if startswith ln "BU_:" then Ok ([bu_line], 0%nat)
  else if startswith ln "BO_ " then on_message messages num_units ln rest
  else let* out := on_metadata num_units ln in Ok (out, 0%nat).

Definition expand_loop (messages : list message) (num_units : Z)
  : nat -> list string -> result (list string) :=
  walk (expand_line messages num_units).

(** [expand_dbc_for_multiple_units], from the lines read to the lines
    written. *)
Definition expand_dbc_for_multiple_units (lines : list string) (num_units : Z)
  : result (list string) :=
  let* messages := parse_messages lines in
  expand_loop messages num_units 0 lines.

End ExpandDbc.

(** ** The converter controller ([dcdc_controller.py]) *)

(** Python numbers: the values of signals and the arguments of the
    operations are integers or floats. *)
Inductive num :=
| Int (z : Z)
| Float (f : float).

Module Num.

(** [int(x)] for a float: truncation towards zero; infinities and NaN
    raise. *)
Definition int_of_float (f : float) : result Z :=
  match Prim2SF f with
  | S754_zero _ => Ok 0
  | S754_infinity _ => Raise OverflowError
  | S754_nan => Raise ValueError
  | S754_finite s m e =>
      let magnitude :=
        if 0 <=? e then Z.shiftl (Z.pos m) e else Z.shiftr (Z.pos m) (- e) in
      Ok (if s then - magnitude else magnitude)
  end.

(** [int(x)]. *)
Definition int (x : num) : result Z :=
  match x with
  | Int z => Ok z
  | Float f => int_of_float f
  end.

(** [x * 10]: exact on integers, one rounded binary64 product on floats. *)
Definition times_ten (x : num) : num :=
  match x with
  | Int z => Int (z * 10)
  | Float f => Float (PrimFloat.mul f 10%float)
  end.

End Num.

(** A signal dictionary, as passed to [encode] and returned by [decode]. *)
Abbreviation signal_values := (gmap string num).

(** [can.Message]. *)
Module Can.
Record frame := {
  arbitration_id : Z;
  data : list byte;
  is_extended_id : bool;
  timestamp : float
}.
End Can.

(** The catalog comes from the cantools library, which is outside the
    repository: a database and its messages are objects with the
    attributes and methods the code calls.  A lookup that finds nothing
    raises [KeyError]. *)
Module Cantools.
Record Message := {
  frame_id : Z;
  name : string;
  encode : signal_values -> result (list byte);
  decode : list byte -> result signal_values
}.

Record database := {
  get_message_by_name : string -> option Message;
  get_message_by_frame_id : Z -> option Message
}.
End Cantools.

Module ConverterMode.
Inductive mode := NOT_SET | BUS1_TO_BUS2 | BUS2_TO_BUS1 | BIDIRECTIONAL.
Definition mode_value (m : mode) : Z :=
  match m with
  | NOT_SET => 0 | BUS1_TO_BUS2 => 1 | BUS2_TO_BUS1 => 2 | BIDIRECTIONAL => 3
  end.
End ConverterMode.

Module ControlType.
Inductive control :=
| NOT_SET | V_BUS2 | V_BUS1 | I_BUS2 | I_BUS1 | P_BUS2 | P_BUS1
| V_BUS2_ILIM | V_BUS1_ILIM.
Definition control_value (c : control) : Z :=
  match c with
  | NOT_SET => 0 | V_BUS2 => 1 | V_BUS1 => 2 | I_BUS2 => 3 | I_BUS1 => 4
  | P_BUS2 => 5 | P_BUS1 => 6 | V_BUS2_ILIM => 7 | V_BUS1_ILIM => 8
  end.
#[global] Instance control_eq_dec : EqDecision control.
Proof. solve_decision. Defined.
End ControlType.

Module Controller.

(** The state of a [DCDCController]: its attributes, the bus being the
    list of the frames handed to [bus.send], oldest first. *)
Record controller := {
  dcdc_id : Z;
  dcdc_suffix : string;
  db : Cantools.database;
  sent : list Can.frame;
  measurements : gmap string signal_values;
  errors : signal_values;
  warnings : num;
  regulation_info : signal_values;
  control_info : signal_values
}.

(** [__init__], given the catalog loaded from the DBC file. *)
Definition init (catalog : Cantools.database) (id : Z) : controller := {|
  dcdc_id := id;
  dcdc_suffix := if 0 <? id then "_" +:+ Py.str_of_int id else EmptyString;
  db := catalog;
  sent := [];
  measurements := ∅;
  errors := list_to_map [("critical", Int 0); ("functional", Int 0)];
  warnings := Int 0;
  regulation_info := ∅;
  control_info := ∅
|}.

(** A method runs on a controller state and ends normally or by raising;
    either way the state it leaves is the state so far. *)
Definition M (A : Type) : Type := controller -> result A * controller.

Definition ret {A} (a : A) : M A := fun st => (Ok a, st).

Definition bind {A B} (m : M A) (k : A -> M B) : M B :=
  fun st =>
    match m st with
    | (Ok a, st') => k a st'
    | (Raise e, st') => (Raise e, st')
    end.

Definition lift {A} (r : result A) : M A := fun st => (r, st).

Notation "'let!' x ':=' m 'in' k" := (bind m (fun x => k))
  (at level 10, x pattern, m at level 100, k at level 200, only parsing).

(** [self.bus.send(msg)], on a transport that takes every frame. *)
Definition bus_send (msg : Can.frame) : M unit :=
  fun st =>
    (Ok tt,
     {| dcdc_id := dcdc_id st; dcdc_suffix := dcdc_suffix st; db := db st;
        sent := sent st ++ [msg];
        measurements := measurements st; errors := errors st;
        warnings := warnings st; regulation_info := regulation_info st;
        control_info := control_info st |}).

(** [self.db.get_message_by_name(self._get_message_name(base_name))]. *)
Definition get_message (base_name : string) : M Cantools.Message :=
  fun st =>
    match Cantools.get_message_by_name (db st) (base_name +:+ dcdc_suffix st) with
    | Some message => (Ok message, st)
    | None => (Raise KeyError, st)
    end.

(** [can.Message(arbitration_id=message.frame_id, data=data,
    is_extended_id=True)]. *)
Definition frame_of (message : Cantools.Message) (payload : list byte) : Can.frame :=
  {| Can.arbitration_id := Cantools.frame_id message; Can.data := payload;
     Can.is_extended_id := true; Can.timestamp := 0%float |}.

Definition set_mode (converter_mode : ConverterMode.mode)
    (control_type : ControlType.control) : M unit :=
  let! message := get_message "DCDC_ModeRequest" in
  let! payload := lift (Cantools.encode message (list_to_map
    [("converterModeReq", Int (ConverterMode.mode_value converter_mode));
     ("controlTypeReq", Int (ControlType.control_value control_type))])) in
  bus_send (frame_of message payload).

(** The conversion of the setpoint in [start_converter]. *)
Definition setpoint_raw (control_type : ControlType.control) (setpoint : num)
  : result Z :=
  if bool_decide (control_type ∈ [ControlType.V_BUS1; ControlType.V_BUS2;
                                  ControlType.V_BUS1_ILIM; ControlType.V_BUS2_ILIM])
  then Num.int (Num.times_ten setpoint)
  else if bool_decide (control_type ∈ [ControlType.I_BUS1; ControlType.I_BUS2])
  then Num.int (Num.times_ten setpoint)
  else Num.int setpoint.

Definition start_converter (setpoint : num) (control_type : ControlType.control)
    (converter_mode : ConverterMode.mode) (current_limit : num) : M unit :=
  let! _ := set_mode converter_mode control_type in
  let! message := get_message "DCDC_ControlRequest" in
  let! raw := lift (setpoint_raw control_type setpoint) in
  let! payload := lift (Cantools.encode message (list_to_map
    [("startCommand", Int 1);
     ("setpointReq", Int raw);
     ("currentLimitReq", current_limit)])) in
  bus_send (frame_of message payload).

Definition stop_converter : M unit :=
  let! message := get_message "DCDC_ControlRequest" in
  let! payload := lift (Cantools.encode message (list_to_map
    [("startCommand", Int 0);
     ("setpointReq", Int 0);
     ("currentLimitReq", Int 0)])) in
  bus_send (frame_of message payload).

Definition set_setpoint (setpoint : num) (current_limit : num) : M unit :=
  let! message := get_message "DCDC_ControlRequest" in
  let! raw := lift (Num.int setpoint) in
  let! payload := lift (Cantools.encode message (list_to_map
    [("startCommand", Int 1);
     ("setpointReq", Int raw);
     ("currentLimitReq", current_limit)])) in
  bus_send (frame_of message payload).

(** The [if]/[elif] chain of [receive_messages] that files a decoded
    message into the caches. *)
Definition store (msg_name : string) (decoded : signal_values)
    (st : controller) : controller :=
  let with_measurement key :=
    {| dcdc_id := dcdc_id st; dcdc_suffix := dcdc_suffix st; db := db st;
       sent := sent st;
       measurements := <[key := decoded]> (measurements st);
       errors := errors st; warnings := warnings st;
       regulation_info := regulation_info st;
       control_info := control_info st |} in
  if Py.contains "CurrentMeasures" msg_name then with_measurement "current"
  else if Py.contains "VoltageMeasures" msg_name then with_measurement "voltage"
  else if Py.contains "PowerMeasures" msg_name then with_measurement "power"
  else if Py.contains "TemperatureMeasures" msg_name
  then with_measurement "temperature"
  else if Py.contains "Errors" msg_name then
    {| dcdc_id := dcdc_id st; dcdc_suffix := dcdc_suffix st; db := db st;
       sent := sent st; measurements := measurements st;
       errors := decoded; warnings := warnings st;
       regulation_info := regulation_info st;
       control_info := control_info st |}
  else if Py.contains "Warnings" msg_name then
    {| dcdc_id := dcdc_id st; dcdc_suffix := dcdc_suffix st; db := db st;
       sent := sent st; measurements := measurements st;
       errors := errors st;
       warnings := default (Int 0) (decoded !! "warnings");
       regulation_info := regulation_info st;
       control_info := control_info st |}
  else if Py.contains "RegulationInformation" msg_name then
    {| dcdc_id := dcdc_id st; dcdc_suffix := dcdc_suffix st; db := db st;
       sent := sent st; measurements := measurements st;
       errors := errors st; warnings := warnings st;
       regulation_info := decoded;
       control_info := control_info st |}
  else if Py.contains "ControlInformation" msg_name then
    {| dcdc_id := dcdc_id st; dcdc_suffix := dcdc_suffix st; db := db st;
       sent := sent st; measurements := measurements st;
       errors := errors st; warnings := warnings st;
       regulation_info := regulation_info st;
       control_info := decoded |}
  else st.

(** An entry of the list [receive_messages] returns. *)
Record decoded_message := {
  entry_name : string;
  entry_data : signal_values
}.

(** The exceptions the [except] clause of [receive_messages] swallows. *)
Definition swallowed (e : exn) : bool :=
  match e with
  | KeyError | DecodeError => true
  | _ => false
  end.

(** The [try] statement for one received frame; [decoded_messages] is the
    list so far. *)
Definition receive_one (msg : Can.frame)
    (decoded_messages : list decoded_message) : M (list decoded_message) :=
  fun st =>
    match Cantools.get_message_by_frame_id (db st) (Can.arbitration_id msg) with
    | None => (Ok decoded_messages, st)
    | Some db_msg =>
        match Cantools.decode db_msg (Can.data msg) with
        | Ok decoded =>
            (Ok (decoded_messages
                 ++ [{| entry_name := Cantools.name db_msg; entry_data := decoded |}]),
             store (Cantools.name db_msg) decoded st)
        | Raise e =>
            if swallowed e then (Ok decoded_messages, st) else (Raise e, st)
        end
    end.

(** The loop of [receive_messages].  It runs while the time budget lasts;
    [polls] are the results of [self.bus.recv] in the passes that take
    place, [None] for a pass in which no frame arrived. *)
Fixpoint receive_loop (polls : list (option Can.frame))
    (decoded_messages : list decoded_message) : M (list decoded_message) :=
  match polls with
  | [] => ret decoded_messages
  | None :: later => receive_loop later decoded_messages
  | Some msg :: later =>
      let! decoded_messages' := receive_one msg decoded_messages in
      receive_loop later decoded_messages'
  end.

Definition receive_messages (polls : list (option Can.frame))
  : M (list decoded_message) :=
  receive_loop polls [].

End Controller.
(** ** The other operations of the controller ([dcdc_controller.py]) *)

Module RequestedInfo.
Inductive info :=
| ERRORS | WARNINGS | CURRENT_MEASURES | POWER_MEASURES | VOLTAGE_MEASURES
| TEMPERATURE_MEASURES | REGULATION_INFORMATION | CONTROL_INFORMATION.
Definition info_value (i : info) : Z :=
  match i with
  | ERRORS => 1 | WARNINGS => 2 | CURRENT_MEASURES => 3 | POWER_MEASURES => 4
  | VOLTAGE_MEASURES => 5 | TEMPERATURE_MEASURES => 6
  | REGULATION_INFORMATION => 8 | CONTROL_INFORMATION => 9
  end.
End RequestedInfo.

Module ControllerOps.

Import Controller.

Definition reset_errors : M unit :=
  let! message := get_message "DCDC_ErrorResetRequest" in
  let! payload := lift (Cantools.encode message ∅) in
  bus_send (frame_of message payload).

Definition request_information (info_type : RequestedInfo.info) : M unit :=
  let! message := get_message "DCDC_InformationRequest" in
  let! payload := lift (Cantools.encode message (list_to_map
    [("requestdInfo", Int (RequestedInfo.info_value info_type))])) in
  bus_send (frame_of message payload).

Definition enter_settings_mode : M unit :=
  let! message := get_message "DCDC_SettingsModeRequest" in
  let! payload := lift (Cantools.encode message (list_to_map
    [("request", Int 1)])) in
  bus_send (frame_of message payload).

Definition exit_settings_mode : M unit :=
  let! message := get_message "DCDC_SettingsModeRequest" in
  let! payload := lift (Cantools.encode message (list_to_map
    [("request", Int 0)])) in
  bus_send (frame_of message payload).

(** [get_measurements]: a fresh dictionary with four keys, each the cached
    record or an empty one. *)
Definition get_measurements (st : controller) : gmap string signal_values :=
  list_to_map
    [("voltage", default ∅ (measurements st !! "voltage"));
     ("current", default ∅ (measurements st !! "current"));
     ("power", default ∅ (measurements st !! "power"));
     ("temperature", default ∅ (measurements st !! "temperature"))].

(** The dictionary [get_status] returns: four keys, of three types. *)
Record status := {
  status_control_info : signal_values;
  status_regulation_info : signal_values;
  status_errors : signal_values;
  status_warnings : num
}.

Definition get_status (st : controller) : status := {|
  status_control_info := control_info st;
  status_regulation_info := regulation_info st;
  status_errors := errors st;
  status_warnings := warnings st
|}.

End ControllerOps.
(** ** The bus handler ([can_handler.py]) *)

Module CanHandler.

(** [CANMessage]. *)
Record CANMessage := {
  can_id : Z;
  name : string;
  data : signal_values;
  data_hex : string;
  timestamp : float
}.

(** The digits of [f'{n:X}']. *)
Fixpoint upper_hex_digits (d : Hexadecimal.uint) : string :=
  match d with
  | Hexadecimal.Nil => EmptyString
  | Hexadecimal.D0 r => String "0" (upper_hex_digits r)
  | Hexadecimal.D1 r => String "1" (upper_hex_digits r)
  | Hexadecimal.D2 r => String "2" (upper_hex_digits r)
  | Hexadecimal.D3 r => String "3" (upper_hex_digits r)
  | Hexadecimal.D4 r => String "4" (upper_hex_digits r)
  | Hexadecimal.D5 r => String "5" (upper_hex_digits r)
  | Hexadecimal.D6 r => String "6" (upper_hex_digits r)
  | Hexadecimal.D7 r => String "7" (upper_hex_digits r)
  | Hexadecimal.D8 r => String "8" (upper_hex_digits r)
  | Hexadecimal.D9 r => String "9" (upper_hex_digits r)
  | Hexadecimal.Da r => String "A" (upper_hex_digits r)
  | Hexadecimal.Db r => String "B" (upper_hex_digits r)
  | Hexadecimal.Dc r => String "C" (upper_hex_digits r)
  | Hexadecimal.Dd r => String "D" (upper_hex_digits r)
  | Hexadecimal.De r => String "E" (upper_hex_digits r)
  | Hexadecimal.Df r => String "F" (upper_hex_digits r)
  end.

(** [f'{n:X}']. *)
Definition format_X (n : Z) : string :=
  match Z.to_hex_int n with
  | Hexadecimal.Pos d => upper_hex_digits d
  | Hexadecimal.Neg d => "-" +:+ upper_hex_digits d
  end.

Definition lower_hex_digit (n : N) : ascii :=
  match n with
  | 0 => "0" | 1 => "1" | 2 => "2" | 3 => "3" | 4 => "4" | 5 => "5"
  | 6 => "6" | 7 => "7" | 8 => "8" | 9 => "9" | 10 => "a" | 11 => "b"
  | 12 => "c" | 13 => "d" | 14 => "e" | _ => "f"
  end%N%char.

(** [data.hex()]. *)
Fixpoint bytes_hex (bs : list byte) : string :=
  match bs with
  | [] => EmptyString
  | b :: r =>
      String (lower_hex_digit (Byte.to_N b / 16))
        (String (lower_hex_digit (Byte.to_N b mod 16)) (bytes_hex r))
  end.

(** The state of a [CANBusHandler] that [receive_message] reads: whether
    [self.bus] is set, and [self.db]. *)
Record handler := {
  connected : bool;
  db : option Cantools.database
}.

(** [receive_message]; [polled] is what [self.bus.recv] returns, [None]
    when the timeout passes with no frame.  A [can.Message] is true
    whatever its length (the class defines its truth value so), hence
    [if not message] holds for [None] only.  The [except] clause swallows
    every exception. *)
Definition receive_message (h : handler) (polled : option Can.frame)
  : result (option CANMessage) :=
  if negb (connected h) then Raise ConnectionError
  else
    match polled with
    | None => Ok None
    | Some message =>
        let hex_name := "0x" +:+ format_X (Can.arbitration_id message) in
        let named :=
          match db h with
          | Some catalog =>
              match Cantools.get_message_by_frame_id catalog (Can.arbitration_id message) with
              | Some db_message =>
                  match Cantools.decode db_message (Can.data message) with
                  | Ok decoded => (Cantools.name db_message, decoded)
                  | Raise _ => (Cantools.name db_message, ∅)
                  end
              | None => (hex_name, ∅)
              end
          | None => (hex_name, ∅)
          end in
        Ok (Some {| can_id := Can.arbitration_id message;
                    name := fst named;
                    data := snd named;
                    data_hex := bytes_hex (Can.data message);
                    timestamp := Can.timestamp message |})
    end.

End CanHandler.
(** ** The other operations of the bus handler ([can_handler.py]) *)

Module HandlerOps.

Import CanHandler.

(** What [self.bus.send(message)] comes to: the transport of the python-can
    library, which is outside the repository, takes the frame or raises
    (on a failed transmission, or for a frame it cannot send). *)
Definition transport : Type := Can.frame -> result unit.

(** A transport that takes every frame. *)
Definition accepting : transport := fun _ => Ok tt.

(** [send_message] over a transport; [bus] is the list of the frames the
    transport has taken so far, oldest first.  The method has no [except]
    clause: what [self.bus.send] raises goes to the caller. *)
Definition send_message_over (transmit : transport) (h : handler)
    (bus : list Can.frame) (can_id : Z) (payload : list byte)
  : result unit * list Can.frame :=
  if negb (connected h) then (Raise ConnectionError, bus)
  else
    let message :=
      {| Can.arbitration_id := can_id; Can.data := payload;
         Can.is_extended_id := 2047 <? can_id;
         Can.timestamp := 0%float |} in
    match transmit message with
    | Ok _ => (Ok tt, bus ++ [message])
    | Raise e => (Raise e, bus)
    end.

(** [send_message] on a transport that takes every frame; [bus] is then
    the list of the frames handed to [self.bus.send] so far. *)
Definition send_message (h : handler) (bus : list Can.frame) (can_id : Z)
    (payload : list byte) : result unit * list Can.frame :=
  send_message_over accepting h bus can_id payload.

(** [encode_message]: the two [except] clauses turn a failed lookup and
    every exception of the encoder into [ValueError]. *)
Definition encode_message (h : handler) (message_name : string)
    (values : signal_values) : result (list byte) :=
  match db h with
  | None => Raise ValueError
  | Some catalog =>
      match Cantools.get_message_by_name catalog message_name with
      | None => Raise ValueError
      | Some message =>
          match Cantools.encode message values with
          | Ok payload => Ok payload
          | Raise _ => Raise ValueError
          end
      end
  end.

End HandlerOps.

(** ** The monitor ([dcdc_monitor.py]) *)

Module Monitor.

Definition base_ids : list Z := [2148532224; 2148532480; 2148532736].

(** The [for base_id in base_ids] loop of [identify_converter]. *)
Fixpoint identify_loop (can_id : Z) (bases : list Z) : option string :=
  match bases with
  | [] => None
  | base_id :: later =>
      if can_id =? base_id then Some "DCDC_Primary"
      else if can_id =? base_id + 1 then Some "DCDC_Primary_1"
      else if can_id =? base_id + 2 then Some "DCDC_Primary_2"
      else identify_loop can_id later
  end.

Definition identify_converter (can_id : Z) : option string :=
  identify_loop can_id base_ids.

(** [self.converter_data] as [__init__] sets it. *)
Definition initial_converter_data : gmap string signal_values :=
  list_to_map [("DCDC_Primary", ∅); ("DCDC_Primary_1", ∅);
               ("DCDC_Primary_2", ∅)].

(** What [process_message] does to [self.converter_data] (the message log
    and the parameter labels are widgets, not modelled).  [if message.data]
    holds for a record with at least one signal, [if converter] for a name
    that is there and not empty; [d.update(e)] puts the entries of [e] over
    those of [d]. *)
Definition process_message (message : CanHandler.CANMessage)
    (converter_data : gmap string signal_values)
  : result (gmap string signal_values) :=
  if (size (CanHandler.data message) =? 0)%nat then Ok converter_data
  else
    match identify_converter (CanHandler.can_id message) with
    | None | Some EmptyString => Ok converter_data
    | Some converter =>
        match converter_data !! converter with
        | Some record =>
            Ok (<[converter := CanHandler.data message ∪ record]> converter_data)
        | None => Raise KeyError
        end
    end.

(** One pass of the receiver thread followed by the processing of what it
    queued: the thread prints and drops every exception of
    [receive_message], and queues a record whenever there is one. *)
Definition receive_and_process (h : CanHandler.handler)
    (polled : option Can.frame) (converter_data : gmap string signal_values)
  : result (gmap string signal_values) :=
  match CanHandler.receive_message h polled with
  | Ok (Some message) => process_message message converter_data
  | Ok None | Raise _ => Ok converter_data
  end.

End Monitor.
(** ** The message log and the send dialog of the monitor
    ([dcdc_monitor.py]) *)

Module Dialog.

Import CanHandler HandlerOps.

(** [hex(n)]. *)
Definition hex (n : Z) : string :=
  match Z.to_hex_int n with
  | Hexadecimal.Pos d => "0x" +:+ Py16.lowercase (upper_hex_digits d)
  | Hexadecimal.Neg d => "-0x" +:+ Py16.lowercase (upper_hex_digits d)
  end.

(** The columns [add_message_to_log] shows for a message, behind the time
    of the clock: identifier, name, payload. *)
Definition log_row (message : CANMessage) : string * string * string :=
  (hex (can_id message), name message, data_hex message).

(** The function [send] of the send dialog, on the texts of its two
    entries, over a transport.  It catches every exception and shows it in
    a message box; here the exception is the result. *)
Definition send_over (transmit : transport) (h : handler)
    (bus : list Can.frame) (id_text data_text : string)
  : result unit * list Can.frame :=
  match Py16.int_base16 id_text with
  | Raise e => (Raise e, bus)
  | Ok can_id =>
      match Py16.bytes_fromhex data_text with
      | Raise e => (Raise e, bus)
      | Ok payload => send_message_over transmit h bus can_id payload
      end
  end.

(** [send] on a transport that takes every frame. *)
Definition send (h : handler) (bus : list Can.frame)
    (id_text data_text : string) : result unit * list Can.frame :=
  send_over accepting h bus id_text data_text.

End Dialog.
(** ** Sample data *)

(** A single-unit catalog text in four pieces: the lines before a message
    of the converter, the message line, its signal lines, the lines behind
    them. *)
Module SampleText.

Import ExpandDbc.

Definition before : list string :=
  [ "VERSION " +:+ DQ +:+ DQ +:+ LF;
    LF;
    "BU_: SUPERVISER DCDC_Primary" +:+ LF;
    LF;
    "BO_ 2148532224 DCDC_ControlRequest: 8 SUPERVISER" +:+ LF;
    " SG_ startCommand : 0|1@1+ (1,0) [0|1] " +:+ DQ +:+ DQ +:+ " DCDC_Primary" +:+ LF;
    LF ].

Definition errors_line : string :=
  "BO_ 2164260865 DCDC_Errors: 8 DCDC_Primary" +:+ LF.

Definition errors_signals : list string :=
  [ " SG_ criticalErrors : 0|32@1+ (1,0) [0|0] " +:+ DQ +:+ DQ +:+ " SUPERVISER" +:+ LF;
    " SG_ functionalErrors : 32|32@1+ (1,0) [0|0] " +:+ DQ +:+ DQ +:+ " SUPERVISER" +:+ LF ].

Definition message_comment : string :=
  "CM_ BO_ 2148532224 " +:+ DQ +:+ "Control request" +:+ DQ +:+ ";" +:+ LF.

Definition after : list string :=
  [ LF;
    "BO_ 1792 Heartbeat: 1 SUPERVISER" +:+ LF;
    " SG_ alive : 0|8@1+ (1,0) [0|255] " +:+ DQ +:+ DQ +:+ " DCDC_Primary" +:+ LF;
    LF;
    message_comment;
    "CM_ SG_ 2148532224 startCommand " +:+ DQ +:+ "start" +:+ DQ +:+ ";" +:+ LF;
    "CM_ BO_ 1792 " +:+ DQ +:+ "Heartbeat" +:+ DQ +:+ ";" +:+ LF;
    "BA_ " +:+ DQ +:+ "GenMsgCycleTime" +:+ DQ +:+ " BO_ 2148532224 100;" +:+ LF;
    "BA_ " +:+ DQ +:+ "GenMsgCycleTime" +:+ DQ +:+ " BO_ 1792 1000;" +:+ LF;
    "VAL_ 2148532224 startCommand 1 " +:+ DQ +:+ "Start" +:+ DQ +:+ " 0 "
      +:+ DQ +:+ "Stop" +:+ DQ +:+ " ;" +:+ LF;
    "VAL_ 1792 alive 1 " +:+ DQ +:+ "yes" +:+ DQ +:+ " ;" +:+ LF ].

Definition catalog : list string :=
  before ++ errors_line :: errors_signals ++ after.

(** A message of the converter that the supervisor sends. *)
Definition request_catalog : list string :=
  [ "BU_: SUPERVISER DCDC_Primary" +:+ LF;
    "BO_ 2148532224 DCDC_ControlRequest: 8 SUPERVISER" +:+ LF;
    " SG_ startCommand : 0|1@1+ (1,0) [0|1] " +:+ DQ +:+ DQ +:+ " DCDC_Primary" +:+ LF ].

End SampleText.

(** A small catalog for a unit, with a toy payload layout: each listed
    signal takes two bytes, low byte first. *)
Module Sample.

Definition byte_of_Z (z : Z) : byte :=
  default "000"%byte (Byte.of_N (Z.to_N (z mod 256))).

Definition raw_of (v : option num) : Z :=
  match v with
  | Some (Int z) => z
  | Some (Float f) =>
      match Num.int_of_float f with Ok z => z | Raise _ => 0 end
  | None => 0
  end.

Definition encode_fields (fields : list string) (values : signal_values)
  : result (list byte) :=
  Ok (flat_map (fun f => let z := raw_of (values !! f) in
                         [byte_of_Z z; byte_of_Z (z / 256)]) fields).

Fixpoint decode_fields (fields : list string) (payload : list byte)
  : result signal_values :=
  match fields, payload with
  | [], _ => Ok ∅
  | f :: fs, lo :: hi :: more =>
      let* values := decode_fields fs more in
      Ok (<[f := Int (Z.of_N (Byte.to_N lo) + 256 * Z.of_N (Byte.to_N hi))]> values)
  | _ :: _, _ => Raise DecodeError
  end.

Definition catalog_message (id : Z) (nm : string) (fields : list string)
  : Cantools.Message :=
  {| Cantools.frame_id := id; Cantools.name := nm;
     Cantools.encode := encode_fields fields;
     Cantools.decode := decode_fields fields |}.

Definition messages : list Cantools.Message :=
  [ catalog_message 2148532224 "DCDC_ControlRequest"
      ["startCommand"; "setpointReq"; "currentLimitReq"];
    catalog_message 2149580800 "DCDC_ModeRequest"
      ["converterModeReq"; "controlTypeReq"];
    catalog_message 2164260864 "DCDC_VoltageMeasures" ["vBus1"; "vBus2"];
    catalog_message 2165309440 "DCDC_Errors" ["criticalErrors"; "functionalErrors"];
    catalog_message 2166358016 "DCDC_Warnings" ["warnings"] ].

Definition unit_catalog : Cantools.database :=
  {| Cantools.get_message_by_name := fun nm =>
       List.find (fun m => String.eqb (Cantools.name m) nm) messages;
     Cantools.get_message_by_frame_id := fun id =>
       List.find (fun m => Cantools.frame_id m =? id) messages |}.

Definition received (id : Z) (payload : list byte) : Can.frame :=
  {| Can.arbitration_id := id; Can.data := payload;
     Can.is_extended_id := true; Can.timestamp := 0%float |}.

End Sample.

(** Further sample data. *)
Module SampleMore.

(** A catalog with one more message, whose decoder fails with an exception
    other than the decode error of the library. *)
Definition faulty_message : Cantools.Message :=
  {| Cantools.frame_id := 2167406592; Cantools.name := "DCDC_ControlInformation";
     Cantools.encode := fun _ => Raise EncodeError;
     Cantools.decode := fun _ => Raise ValueError |}.

Definition faulty_catalog : Cantools.database :=
  {| Cantools.get_message_by_name := fun nm =>
       List.find (fun m => String.eqb (Cantools.name m) nm)
         (faulty_message :: Sample.messages);
     Cantools.get_message_by_frame_id := fun id =>
       List.find (fun m => Cantools.frame_id m =? id)
         (faulty_message :: Sample.messages) |}.

(** A catalog of three units: the voltage message of each. *)
Definition three_units : Cantools.database :=
  let messages :=
    [ Sample.catalog_message 2164260864 "DCDC_VoltageMeasures" ["vBus1"; "vBus2"];
      Sample.catalog_message 2164260865 "DCDC_VoltageMeasures_1" ["vBus1"; "vBus2"];
      Sample.catalog_message 2164260866 "DCDC_VoltageMeasures_2" ["vBus1"; "vBus2"] ] in
  {| Cantools.get_message_by_name := fun nm =>
       List.find (fun m => String.eqb (Cantools.name m) nm) messages;
     Cantools.get_message_by_frame_id := fun id =>
       List.find (fun m => Cantools.frame_id m =? id) messages |}.

End SampleMore.
(** ** Notions the statements use *)

Module Request.

Import Controller.

(** The operations that send one request have one shape: look the message
    up, encode a dictionary, send the frame.  [request] is that shape, to
    compare the operations with. *)
Definition request (base : string) (values : signal_values) : M unit :=
  let! message := get_message base in
  let! payload := lift (Cantools.encode message values) in
  bus_send (frame_of message payload).

(** The dictionary of a control request. *)
Definition control_values (start_command raw : Z) (current_limit : num)
  : signal_values :=
  list_to_map [("startCommand", Int start_command);
               ("setpointReq", Int raw);
               ("currentLimitReq", current_limit)].

End Request.

Module Cache.

Import Controller.

(** The eight cache categories. *)
Inductive category :=
| Current | Voltage | Power | Temperature
| Errors | Warnings | Regulation | Control.

#[global] Instance category_eq_dec : EqDecision category.
Proof. solve_decision. Defined.

(** What a category holds: a decoded record, a single value, or nothing
    yet. *)
Inductive content :=
| Nothing
| Record_ (values : signal_values)
| Value (v : num).

Definition of_measurement (m : option signal_values) : content :=
  match m with
  | Some values => Record_ values
  | None => Nothing
  end.

Definition read (c : category) (st : controller) : content :=
  match c with
  | Current => of_measurement (measurements st !! "current")
  | Voltage => of_measurement (measurements st !! "voltage")
  | Power => of_measurement (measurements st !! "power")
  | Temperature => of_measurement (measurements st !! "temperature")
  | Errors => Record_ (errors st)
  | Warnings => Value (warnings st)
  | Regulation => Record_ (regulation_info st)
  | Control => Record_ (control_info st)
  end.

(** The category a message name falls into: the first of the eight
    substrings, in the order of the checks, that the name contains. *)
Definition classify (msg_name : string) : option category :=
  if Py.contains "CurrentMeasures" msg_name then Some Current
  else if Py.contains "VoltageMeasures" msg_name then Some Voltage
  else if Py.contains "PowerMeasures" msg_name then Some Power
  else if Py.contains "TemperatureMeasures" msg_name then Some Temperature
  else if Py.contains "Errors" msg_name then Some Errors
  else if Py.contains "Warnings" msg_name then Some Warnings
  else if Py.contains "RegulationInformation" msg_name then Some Regulation
  else if Py.contains "ControlInformation" msg_name then Some Control
  else None.

(** What a decoded record puts into a category. *)
Definition filed (c : category) (decoded : signal_values) : content :=
  match c with
  | Warnings => Value (default (Int 0) (decoded !! "warnings"))
  | _ => Record_ decoded
  end.

(** A received frame the catalog does not know, or whose payload the
    catalog message fails to decode. *)
Definition unknown_or_undecodable (catalog : Cantools.database)
    (msg : Can.frame) : Prop :=
  match Cantools.get_message_by_frame_id catalog (Can.arbitration_id msg) with
  | None => True
  | Some db_msg => Cantools.decode db_msg (Can.data msg) = Raise DecodeError
  end.

End Cache.

Module CatalogText.

Import Py ExpandDbc.

(** A message definition line with these fields. *)
Definition definition_line (cid : Z) (msg_name d snd : string) : string :=
  "BO_ " +:+ str_of_int cid +:+ " " +:+ msg_name +:+ ": " +:+ d +:+ " "
    +:+ snd +:+ LF.

(** The message definition lines among some lines. *)
Definition message_definitions (ls : list string) : list string :=
  List.filter (fun l => startswith l "BO_ ") ls.

(** Copy [k] of a message: the suffix of its name, its sender, its signal
    lines.  Copy 0 is the message as it was; in copy [k > 0] the text
    [DCDC_Primary] becomes [DCDC_Primary_k] wherever it stands in the
    sender and in the signal lines. *)
Definition copy_suffix (k : Z) : string :=
  if k =? 0 then EmptyString else "_" +:+ str_of_int k.

Definition renamed (text : string) (k : Z) : string :=
  if k =? 0 then text
  else replace text "DCDC_Primary" ("DCDC_Primary_" +:+ str_of_int k).

(** The sender of copy [k] when the unit suffix is appended to the sender
    of the message. *)
Definition sender_with_suffix (snd : string) (k : Z) : string :=
  if k =? 0 then snd else snd +:+ "_" +:+ str_of_int k.

Definition copy_block (cid : Z) (msg_name d snd : string)
    (sigs : list string) (k : Z) : list string :=
  definition_line (cid + k) (msg_name +:+ copy_suffix k) d (renamed snd k)
  :: ((fun sig => renamed sig k) <$> sigs) ++ [LF].

(** A metadata line keyed by a frame identifier, of one of the four shapes
    the expansion knows: [keyed_line ln cid render] holds when [ln] is such
    a line for the identifier [cid], and [render i] is the line for the
    identifier [i], the rest of its text being that of [ln].

    - a message comment [CM_ BO_ id comment];
    - a signal comment [CM_ SG_ id signal comment];
    - a message attribute [BA_ ... BO_ id ...] that is not the station
      address of a node, with a single [BO_] part, followed by the
      identifier, the text [BO_ id] in decimal standing once in the line;
    - a value table [VAL_ id rest]. *)
Inductive keyed_line : string -> Z -> (Z -> string) -> Prop :=
| keyed_message_comment ln t0 t1 id_text comment cid :
    startswith ln "CM_ BO_ " = true ->
    split (Some 3%nat) ln = [t0; t1; id_text; comment] ->
    int_of_str id_text = Ok cid ->
    keyed_line ln cid
      (fun i => "CM_ BO_ " +:+ str_of_int i +:+ " " +:+ comment)
| keyed_signal_comment ln t0 t1 id_text sig_name comment cid :
    startswith ln "CM_ SG_ " = true ->
    split (Some 4%nat) ln = [t0; t1; id_text; sig_name; comment] ->
    int_of_str id_text = Ok cid ->
    keyed_line ln cid
      (fun i => "CM_ SG_ " +:+ str_of_int i +:+ " " +:+ sig_name +:+ " "
                  +:+ comment)
| keyed_message_attribute ln pre post parts1 id_text parts2 cid :
    startswith ln "BA_ " = true ->
    startswith ln nm_station_prefix = false ->
    ln = pre +:+ ("BO_ " +:+ str_of_int cid) +:+ post ->
    find ("BO_ " +:+ str_of_int cid) ln = Some (String.length pre) ->
    contains ("BO_ " +:+ str_of_int cid) post = false ->
    split None ln = parts1 ++ "BO_" :: id_text :: parts2 ->
    ~ In "BO_" parts1 -> ~ In "BO_" parts2 ->
    int_of_str id_text = Ok cid ->
    keyed_line ln cid
      (fun i => pre +:+ ("BO_ " +:+ str_of_int i) +:+ post)
| keyed_value_table ln t0 id_text rest_text cid :
    startswith ln "VAL_ " = true ->
    split (Some 2%nat) ln = [t0; id_text; rest_text] ->
    int_of_str id_text = Ok cid ->
    keyed_line ln cid
      (fun i => "VAL_ " +:+ str_of_int i +:+ " " +:+ rest_text).

(** The value of a result that is known to be there. *)
Definition value_of {A} (fallback : A) (r : result A) : A :=
  match r with
  | Ok a => a
  | Raise _ => fallback
  end.

End CatalogText.

(** ** Notions the further statements use *)

Module Calls.

Import Controller ControllerOps.

(** The sending operations of the controller, with their arguments. *)
Inductive operation :=
| Set_mode (converter_mode : ConverterMode.mode)
    (control_type : ControlType.control)
| Start_converter (setpoint : num) (control_type : ControlType.control)
    (converter_mode : ConverterMode.mode) (current_limit : num)
| Stop_converter
| Set_setpoint (setpoint current_limit : num)
| Reset_errors
| Request_information (info_type : RequestedInfo.info)
| Enter_settings_mode
| Exit_settings_mode.

Definition run (op : operation) : M unit :=
  match op with
  | Set_mode cm ct => set_mode cm ct
  | Start_converter sp ct cm cl => start_converter sp ct cm cl
  | Stop_converter => stop_converter
  | Set_setpoint sp cl => set_setpoint sp cl
  | Reset_errors => reset_errors
  | Request_information i => request_information i
  | Enter_settings_mode => enter_settings_mode
  | Exit_settings_mode => exit_settings_mode
  end.

(** The base names of the messages the operations look up. *)
Definition request_names : list string :=
  ["DCDC_ModeRequest"; "DCDC_ControlRequest"; "DCDC_ErrorResetRequest";
   "DCDC_InformationRequest"; "DCDC_SettingsModeRequest"].

(** The controller [st] after the frames [new] went to the bus, nothing
    else being touched. *)
Definition after_sending (new : list Can.frame) (st : controller) : controller :=
  {| dcdc_id := dcdc_id st; dcdc_suffix := dcdc_suffix st; db := db st;
     sent := sent st ++ new;
     measurements := measurements st; errors := errors st;
     warnings := warnings st; regulation_info := regulation_info st;
     control_info := control_info st |}.

(** A frame of a request of this unit: extended, with the identifier of
    the catalog message that has one of the base names followed by the
    suffix of the unit. *)
Definition request_frame_of_unit (st : controller) (f : Can.frame) : Prop :=
  Can.is_extended_id f = true
  /\ exists base message,
       In base request_names
       /\ Cantools.get_message_by_name (db st) (base +:+ dcdc_suffix st)
          = Some message
       /\ Can.arbitration_id f = Cantools.frame_id message.

(** What [receive_messages] makes of one pass of its loop, given the
    catalog: the entry it appends, if the pass appends one, and the
    exception that ends the call, if the pass raises one that the [except]
    clause does not name. *)
Definition appended (catalog : Cantools.database) (polled : option Can.frame)
  : option decoded_message :=
  match polled with
  | None => None
  | Some msg =>
      match Cantools.get_message_by_frame_id catalog (Can.arbitration_id msg) with
      | None => None
      | Some db_msg =>
          match Cantools.decode db_msg (Can.data msg) with
          | Ok decoded =>
              Some {| entry_name := Cantools.name db_msg; entry_data := decoded |}
          | Raise _ => None
          end
      end
  end.

Definition escaping (catalog : Cantools.database) (polled : option Can.frame)
  : option exn :=
  match polled with
  | None => None
  | Some msg =>
      match Cantools.get_message_by_frame_id catalog (Can.arbitration_id msg) with
      | None => None
      | Some db_msg =>
          match Cantools.decode db_msg (Can.data msg) with
          | Ok _ => None
          | Raise e => if swallowed e then None else Some e
          end
      end
  end.

(** The controller after one pass of the loop of [receive_messages] that
    raises nothing, and after several. *)
Definition after_pass (polled : option Can.frame) (st : controller)
  : controller :=
  match appended (db st) polled with
  | Some entry => store (entry_name entry) (entry_data entry) st
  | None => st
  end.

Definition after_passes (polls : list (option Can.frame)) (st : controller)
  : controller :=
  fold_left (fun s polled => after_pass polled s) polls st.

(** The category of the entry a pass appends. *)
Definition category_of (catalog : Cantools.database)
    (polled : option Can.frame) : option Cache.category :=
  match appended catalog polled with
  | Some entry => Cache.classify (entry_name entry)
  | None => None
  end.

(** The control request both [start_converter] and [set_setpoint] end
    with, [raw] being the conversion of the setpoint. *)
Definition control_request (raw : result Z) (current_limit : num) : M unit :=
  let! message := get_message "DCDC_ControlRequest" in
  let! raw := lift raw in
  let! payload := lift (Cantools.encode message (list_to_map
    [("startCommand", Int 1);
     ("setpointReq", Int raw);
     ("currentLimitReq", current_limit)])) in
  bus_send (frame_of message payload).


(** The key of [self.measurements] a category is cached under. *)
Definition measurement_key (c : Cache.category) : option string :=
  match c with
  | Cache.Current => Some "current"
  | Cache.Voltage => Some "voltage"
  | Cache.Power => Some "power"
  | Cache.Temperature => Some "temperature"
  | _ => None
  end.

End Calls.

Module Lines.

Import Py ExpandDbc.

(** A line of none of the kinds the expansion knows. *)
Definition unrecognised (ln : string) : bool :=
  negb (startswith ln "BU_:" || startswith ln "BO_ "
        || startswith ln "CM_ BO_ " || startswith ln "CM_ SG_ "
        || startswith ln "CM_ BU_ DCDC_Primary "
        || startswith ln nm_station_prefix
        || (startswith ln "BA_ " && contains "BO_ " ln)
        || startswith ln "VAL_ ").

(** The definition line of a message that is not one of the converter:
    its fields can be read, its sender does not contain [DCDC_Primary] and
    its name does not contain [DCDC]. *)
Definition other_message (ln : string) : bool :=
  startswith ln "BO_ "
  && match bo_fields ln with
     | Ok (_, msg_name, _, snd) => negb (involves_dcdc snd msg_name)
     | Raise _ => false
     end.

(** The definition lines the expansion writes for a definition line. *)
Definition definitions_for (num_units : Z) (ln : string) : list string :=
  match bo_fields ln with
  | Ok (cid, msg_name, d, snd) =>
      if involves_dcdc snd msg_name
      then bo_header cid msg_name d snd <$> range num_units
      else [ln]
  | Raise _ => []
  end.

(** The fields of the definition lines the expansion writes for a
    definition line: identifier, name, length and sender. *)
Definition fields_for (num_units : Z) (ln : string)
  : list (Z * string * string * string) :=
  match bo_fields ln with
  | Ok (cid, msg_name, d, snd) =>
      if involves_dcdc snd msg_name
      then (fun unit_id => (cid + unit_id, msg_name +:+ unit_suffix unit_id, d,
                            new_sender snd unit_id)) <$> range num_units
      else [(cid, msg_name, d, snd)]
  | Raise _ => []
  end.

Definition fields_of (m : message) : Z * string * string * string :=
  (can_id m, name m, dlc m, sender m).

End Lines.

Module Text.

(** A character that is neither a decimal digit nor an underscore. *)
Definition plain (c : ascii) : bool :=
  match Py.digit_of c with
  | Some _ => false
  | None => negb (Ascii.eqb c "_")
  end.

(** A text without whitespace, and a field: such a text that is not
    empty. *)
Definition nospace (s : string) : Prop :=
  Forall (fun c => Py.isspace c = false) (list_ascii_of_string s).

Definition field (s : string) : Prop := s <> EmptyString /\ nospace s.

End Text.
(** * Properties *)

Lemma rbind_Ok {A B} (m : result A) (k : A -> result B) b :
  rbind m k = Ok b -> exists a, m = Ok a /\ k a = Ok b.
Proof. destruct m as [a|e]; simpl; [eauto | discriminate]. Qed.

Example split_all :
  Py.split None "BO_ 2148532224 DCDC_ControlRequest: 8 SUPERVISER
" = ["BO_"; "2148532224"; "DCDC_ControlRequest:"; "8"; "SUPERVISER"].
Proof. reflexivity. Qed.

Example split_three :
  Py.split (Some 3%nat) "CM_  BO_ 2148532224   two words ;
" = ["CM_"; "BO_"; "2148532224"; "two words ;
"].
Proof. reflexivity. Qed.

Example replace_all :
  Py.replace "aXXbXXXc" "XX" "-" = "a-b-Xc".
Proof. reflexivity. Qed.

Example replace_empty : Py.replace "abc" "" "-" = "-a-b-c-".
Proof. reflexivity. Qed.

Example int_examples :
  Py.int_of_str "2148532224" = Ok 2148532224 /\
  Py.int_of_str "-12" = Ok (-12) /\
  Py.int_of_str "+1_000" = Ok 1000 /\
  Py.int_of_str "1__0" = Raise ValueError /\
  Py.int_of_str "12_" = Raise ValueError /\
  Py.int_of_str "_12" = Raise ValueError /\
  Py.int_of_str "" = Raise ValueError /\
  Py.int_of_str "0x10" = Raise ValueError.
Proof. repeat split; reflexivity. Qed.

Example str_examples :
  Py.str_of_int 2148532225 = "2148532225" /\ Py.str_of_int 0 = "0" /\
  Py.str_of_int (-7) = "-7".
Proof. repeat split; reflexivity. Qed.

Example rstrip_examples :
  Py.rstrip_char ":" "Name::" = "Name" /\ Py.rstrip_char ":" "a:b:" = "a:b" /\
  Py.strip "  x y
" = "x y".
Proof. repeat split; reflexivity. Qed.

(** ** Facts about the string primitives *)

Section StringFacts.

Lemma str_app_cons c (s t : string) : String c s +:+ t = String c (s +:+ t).
Proof. reflexivity. Qed.

Lemma str_app_nil_l (s : string) : EmptyString +:+ s = s.
Proof. reflexivity. Qed.

Lemma str_app_nil_r (s : string) : s +:+ EmptyString = s.
Proof. induction s as [|c s IH]; [reflexivity|]. now rewrite str_app_cons, IH. Qed.

Lemma str_app_assoc (s t u : string) : (s +:+ t) +:+ u = s +:+ (t +:+ u).
Proof. induction s as [|c s IH]; [reflexivity|]. now rewrite !str_app_cons, IH. Qed.

Lemma str_length_app (s t : string) :
  String.length (s +:+ t) = (String.length s + String.length t)%nat.
Proof. induction s as [|c s IH]; [reflexivity|]. rewrite str_app_cons. simpl. now rewrite IH. Qed.

Lemma prefix_nil (s : string) : String.prefix EmptyString s = true.
Proof. now destruct s. Qed.

Lemma prefix_cons c d (p s : string) :
  String.prefix (String c p) (String d s)
  = if Ascii.ascii_dec c d then String.prefix p s else false.
Proof. reflexivity. Qed.

Lemma prefix_app (p s : string) : String.prefix p (p +:+ s) = true.
Proof.
  induction p as [|c p IH]; [apply prefix_nil|].
  rewrite str_app_cons, prefix_cons. now destruct (Ascii.ascii_dec c c).
Qed.

Lemma prefix_inv (p s : string) :
  String.prefix p s = true -> exists t, s = p +:+ t.
Proof.
  revert s. induction p as [|c p IH]; intros s H.
  - now exists s.
  - destruct s as [|d s]; [discriminate|].
    rewrite prefix_cons in H. destruct (Ascii.ascii_dec c d) as [->|]; [|discriminate].
    destruct (IH _ H) as [t ->]. now exists t.
Qed.

Lemma contains_prefix_false (sub s : string) :
  Py.contains sub s = false -> String.prefix sub s = false.
Proof. destruct s; simpl; intros H; now apply orb_false_elim in H. Qed.

Lemma contains_cons_false (sub : string) c (s : string) :
  Py.contains sub (String c s) = false -> Py.contains sub s = false.
Proof. simpl. intros H. now apply orb_false_elim in H. Qed.

(** The scan of [replace] behind a match. *)
Lemma replace_go_skip (old new a s : string) :
  Py.replace_go old new (String.length a) (a +:+ s) = Py.replace_go old new 0 s.
Proof.
  induction a as [|c a IH]; [reflexivity|].
  rewrite str_app_cons. exact IH.
Qed.

Lemma replace_go_match (old new : string) c (old' t : string) :
  old = String c old' ->
  Py.replace_go old new 0 (old +:+ t) = new +:+ Py.replace_go old new 0 t.
Proof.
  intros ->. rewrite str_app_cons. cbn [Py.replace_go].
  rewrite <- str_app_cons, prefix_app. f_equal. cbn [String.length].
  replace (S (String.length old') - 1)%nat with (String.length old') by lia.
  apply replace_go_skip.
Qed.

Lemma replace_go_step (old new : string) c (r : string) :
  String.prefix old (String c r) = false ->
  Py.replace_go old new 0 (String c r) = String c (Py.replace_go old new 0 r).
Proof. intros H. cbn [Py.replace_go]. now rewrite H. Qed.

(** A text in which [old] does not occur is left as it is. *)
Lemma replace_absent (s old new : string) :
  Py.contains old s = false -> Py.replace s old new = s.
Proof.
  destruct old as [|c old']; [now destruct s|].
  unfold Py.replace. induction s as [|d s IH]; intros H; [reflexivity|].
  rewrite replace_go_step by now apply contains_prefix_false.
  f_equal. apply IH. now apply contains_cons_false in H.
Qed.

(** Replacing a text by itself changes nothing. *)
Lemma replace_same (s old : string) : Py.replace s old old = s.
Proof.
  destruct old as [|c old'].
  { unfold Py.replace. induction s as [|d s IH]; [reflexivity|].
    simpl. rewrite str_app_nil_l. now rewrite IH. }
  unfold Py.replace.
  assert (forall n s, (String.length s <= n)%nat ->
            Py.replace_go (String c old') (String c old') 0 s = s) as H.
  { clear s. induction n as [|n IH]; intros s Hn.
    - destruct s; [reflexivity|simpl in Hn; lia].
    - destruct s as [|d s]; [reflexivity|].
      destruct (String.prefix (String c old') (String d s)) eqn:Hp.
      + destruct (prefix_inv _ _ Hp) as [t Ht]. rewrite Ht.
        erewrite replace_go_match by reflexivity. f_equal. apply IH.
        apply (f_equal String.length) in Ht. rewrite str_length_app in Ht.
        simpl in Ht, Hn. lia.
      + rewrite replace_go_step by exact Hp. f_equal. apply IH.
        simpl in Hn. lia. }
  now apply (H (String.length s)).
Qed.

(** A single occurrence is replaced where it stands. *)
Lemma replace_once (pre old new post : string) :
  old <> EmptyString ->
  Py.find old (pre +:+ old +:+ post) = Some (String.length pre) ->
  Py.contains old post = false ->
  Py.replace (pre +:+ old +:+ post) old new = pre +:+ new +:+ post.
Proof.
  intros Hne Hfind Hpost.
  pose proof (replace_absent post old new Hpost) as Hrest.
  destruct old as [|c old']; [congruence|].
  unfold Py.replace in *.
  remember (String c old') as old eqn:Hold.
  induction pre as [|d pre IH].
  - rewrite !str_app_nil_l. erewrite replace_go_match by exact Hold.
    now rewrite Hrest.
  - rewrite !str_app_cons in *. cbn [Py.find String.length] in Hfind.
    destruct (String.prefix old (String d (pre +:+ old +:+ post)))
      eqn:Hp; [discriminate|].
    rewrite replace_go_step by exact Hp. f_equal. apply IH.
    destruct (Py.find old (pre +:+ old +:+ post));
      simpl in Hfind; congruence.
Qed.

End StringFacts.

(** ** Facts about the line loops *)

Module LoopFacts.

Import Py ExpandDbc.

(** [rest] does not begin with a signal line: an inner loop standing in
    front of [rest] stops there. *)
Definition starts_plain (rest : list string) : Prop :=
  match rest with
  | [] => True
  | l :: _ => is_signal_line l = false
  end.

Lemma rbind_ret {A} (m : result A) : rbind m Ok = m.
Proof. now destruct m. Qed.

Lemma signal_run_app (pre rest : list string) :
  starts_plain rest -> signal_run (pre ++ rest) = signal_run pre.
Proof.
  intros H. induction pre as [|l pre IH]; simpl.
  - destruct rest as [|l rest]; [reflexivity|]. simpl in *. now rewrite H.
  - destruct (is_signal_line l); [now rewrite IH | reflexivity].
Qed.

Lemma signal_run_all (sigs rest : list string) :
  Forall (fun l => is_signal_line l = true) sigs -> starts_plain rest ->
  signal_run (sigs ++ rest) = sigs.
Proof.
  intros Hs Hr. induction Hs as [|l sigs Hl _ IH]; simpl.
  - destruct rest as [|l rest]; [reflexivity|]. simpl in *. now rewrite Hr.
  - now rewrite Hl, IH.
Qed.

Lemma signal_run_length (ls : list string) :
  (length (signal_run ls) <= length ls)%nat.
Proof.
  induction ls as [|l ls IH]; simpl; [lia|].
  destruct (is_signal_line l); simpl; lia.
Qed.

Lemma signal_run_Forall (ls : list string) :
  Forall (fun l => is_signal_line l = true) (signal_run ls).
Proof.
  induction ls as [|l ls IH]; simpl; [constructor|].
  destruct (is_signal_line l) eqn:E; constructor; assumption.
Qed.

(** Every list of lines is its leading run of signal lines followed by
    lines that do not begin with a signal line. *)
Lemma signal_run_split (ls : list string) :
  exists after, ls = signal_run ls ++ after /\ starts_plain after.
Proof.
  induction ls as [|l ls (after & IH & Hafter)]; [now exists []|].
  simpl. destruct (is_signal_line l) eqn:E.
  - exists after. split; [simpl; now rewrite <- IH | exact Hafter].
  - exists (l :: ls). now split.
Qed.

Section Walk.

Context {B : Type} (body : string -> list string -> result (list B * nat)).

(** The pass at a line looks at the lines behind it only as far as its
    inner loop walks. *)
Hypothesis body_local : forall l pre rest,
  starts_plain rest -> body l (pre ++ rest) = body l pre.
Hypothesis body_bounded : forall l pre out w,
  body l pre = Ok (out, w) -> (w <= length pre)%nat.

Lemma walk_skip (a b : list string) :
  walk body (length a) (a ++ b) = walk body 0 b.
Proof.
  induction a as [|l a IH]; simpl; [|exact IH].
  now destruct b.
Qed.

Lemma walk_app (pre rest : list string) (k : nat) :
  (k <= length pre)%nat -> starts_plain rest ->
  walk body k (pre ++ rest)
  = let* a := walk body k pre in
    let* b := walk body 0 rest in
    Ok (a ++ b).
Proof.
  intros Hk Hrest. revert k Hk.
  induction pre as [|l pre IH]; intros k Hk.
  - simpl in Hk. assert (k = 0%nat) as -> by lia. simpl.
    now rewrite rbind_ret.
  - destruct k as [|k]; simpl.
    + rewrite body_local by assumption.
      destruct (body l pre) as [[out w]|e] eqn:Hb; simpl; [|reflexivity].
      rewrite IH by (eapply body_bounded; eassumption).
      destruct (walk body w pre) as [a|e]; simpl; [|reflexivity].
      destruct (walk body 0 rest) as [b|e]; simpl; [|reflexivity].
      now rewrite <- List.app_assoc.
    + apply IH. simpl in Hk. lia.
Qed.

(** The output of the loop around one line: what the loop appends for the
    lines before it, what the pass at the line appends, and what the loop
    appends for the lines behind those the pass walked over. *)
Lemma walk_at (before : list string) (ln : string) (after : list string)
    (out : list B) :
  is_signal_line ln = false ->
  walk body 0 (before ++ ln :: after) = Ok out ->
  exists o1 mid w o2,
    walk body 0 before = Ok o1 /\ body ln after = Ok (mid, w) /\
    walk body w after = Ok o2 /\ out = o1 ++ mid ++ o2.
Proof.
  intros Hln H. rewrite walk_app in H by (simpl; first [lia | exact Hln]).
  apply rbind_Ok in H as (o1 & H1 & H).
  apply rbind_Ok in H as (o' & H' & H). injection H as <-.
  simpl in H'. apply rbind_Ok in H' as ([mid w] & Hb & H').
  apply rbind_Ok in H' as (o2 & H2 & H'). injection H' as <-.
  now exists o1, mid, w, o2.
Qed.

End Walk.

Lemma parse_line_local l pre rest :
  starts_plain rest -> parse_line l (pre ++ rest) = parse_line l pre.
Proof. intros H. unfold parse_line. now rewrite signal_run_app. Qed.

Lemma parse_line_bounded l pre out w :
  parse_line l pre = Ok (out, w) -> (w <= length pre)%nat.
Proof.
  unfold parse_line. destruct (startswith l "BO_ ").
  - destruct (bo_fields l) as [[[[cid nm] d] snd]|e]; simpl; [|discriminate].
    intros [= <- <-]. apply signal_run_length.
  - intros [= <- <-]. lia.
Qed.

Lemma expand_line_local messages num_units l pre rest :
  starts_plain rest ->
  expand_line messages num_units l (pre ++ rest)
  = expand_line messages num_units l pre.
Proof.
  intros H. unfold expand_line, on_message. now rewrite signal_run_app.
Qed.

Lemma expand_line_bounded messages num_units l pre out w :
  expand_line messages num_units l pre = Ok (out, w) -> (w <= length pre)%nat.
Proof.
  unfold expand_line.
  destruct (_ || _); [intros [= <- <-]; lia|].
  destruct (startswith l "BU_:"); [intros [= <- <-]; lia|].
  destruct (startswith l "BO_ ").
  - unfold on_message.
    destruct (bo_fields l) as [[[[cid nm] d] snd]|e]; simpl; [|discriminate].
    destruct (involves_dcdc snd nm); intros [= <- <-]; apply signal_run_length.
  - destruct (on_metadata num_units l); simpl; [|discriminate].
    intros [= <- <-]. lia.
Qed.

End LoopFacts.

(** ** Facts about the passes of the expansion loop *)

Module ExpandFacts.

Import Py ExpandDbc LoopFacts.

Lemma startswith_inv (s p : string) :
  startswith s p = true -> exists t, s = p +:+ t.
Proof. apply prefix_inv. Qed.

(** A [BO_] line goes to the message branch. *)
Lemma expand_line_message messages num_units ln rest :
  startswith ln "BO_ " = true ->
  expand_line messages num_units ln rest = on_message messages num_units ln rest.
Proof.
  intros H. unfold expand_line. rewrite H.
  apply startswith_inv in H as [t ->]. reflexivity.
Qed.

Lemma message_line_plain ln :
  startswith ln "BO_ " = true -> is_signal_line ln = false.
Proof. intros [t ->]%startswith_inv. reflexivity. Qed.

Lemma parse_line_message ln rest cid nm d snd :
  startswith ln "BO_ " = true -> bo_fields ln = Ok (cid, nm, d, snd) ->
  parse_line ln rest
  = Ok ([{| can_id := cid; name := nm; dlc := d; sender := snd;
            signals := signal_run rest; line := ln |}],
        length (signal_run rest)).
Proof. intros H1 H2. unfold parse_line. now rewrite H1, H2. Qed.

(** The parsed catalog around one message: the messages of the lines
    before it, the message with its run of signal lines, the messages of the
    lines behind the run. *)
Lemma parse_at_message before ln sigs after cid nm d snd msgs :
  startswith ln "BO_ " = true -> bo_fields ln = Ok (cid, nm, d, snd) ->
  Forall (fun l => is_signal_line l = true) sigs -> starts_plain after ->
  parse_messages (before ++ ln :: sigs ++ after) = Ok msgs ->
  exists m1 m2,
    parse_messages before = Ok m1 /\ parse_messages after = Ok m2 /\
    msgs = m1 ++ {| can_id := cid; name := nm; dlc := d; sender := snd;
                    signals := sigs; line := ln |} :: m2.
Proof.
  intros Hbo Hf Hs Ha H. unfold parse_messages in *.
  apply (walk_at _ parse_line_local parse_line_bounded) in H
    as (m1 & mid & w & m2 & H1 & Hb & H2 & ->);
    [|now apply message_line_plain].
  rewrite (parse_line_message _ _ _ _ _ _ Hbo Hf) in Hb.
  rewrite signal_run_all in Hb by assumption. injection Hb as <- <-.
  rewrite walk_skip in H2. now exists m1, m2.
Qed.

(** The output around one message. *)
Lemma expand_at_message messages num_units before ln sigs after cid nm d snd out :
  startswith ln "BO_ " = true -> bo_fields ln = Ok (cid, nm, d, snd) ->
  Forall (fun l => is_signal_line l = true) sigs -> starts_plain after ->
  expand_loop messages num_units 0 (before ++ ln :: sigs ++ after) = Ok out ->
  exists o1 o2,
    expand_loop messages num_units 0 before = Ok o1 /\
    expand_loop messages num_units 0 after = Ok o2 /\
    out = o1
          ++ (if involves_dcdc snd nm
              then concat (unit_block (find_message messages cid) cid nm d snd
                             <$> range num_units)
              else ln :: sigs)
          ++ o2.
Proof.
  intros Hbo Hf Hs Ha H. unfold expand_loop in *.
  apply (walk_at _ (expand_line_local messages num_units)
           (expand_line_bounded messages num_units)) in H
    as (o1 & mid & w & o2 & H1 & Hb & H2 & ->);
    [|now apply message_line_plain].
  rewrite expand_line_message in Hb by assumption.
  unfold on_message in Hb. rewrite Hf in Hb. simpl in Hb.
  rewrite signal_run_all in Hb by assumption.
  exists o1, o2. split; [assumption|].
  destruct (involves_dcdc snd nm); injection Hb as <- <-;
    rewrite walk_skip in H2; now split.
Qed.

(** With unique identifiers, [msg_data] is the message of the line. *)
Lemma find_message_unique msgs m :
  NoDup (can_id <$> msgs) -> In m msgs ->
  find_message msgs (can_id m) = Some m.
Proof.
  unfold find_message. induction msgs as [|m' msgs IH]; intros Hnd Hin;
    [destruct Hin|].
  simpl in *. apply NoDup_cons in Hnd as [Hnotin Hnd].
  destruct (Z.eqb_spec (can_id m') (can_id m)) as [Heq|Hne].
  - destruct Hin as [->|Hin]; [reflexivity|].
    exfalso. apply Hnotin. rewrite Heq.
    apply list_elem_of_fmap. exists m. split; [reflexivity|].
    now apply list_elem_of_In.
  - destruct Hin as [->|Hin]; [congruence|]. now apply IH.
Qed.

End ExpandFacts.

(** ** Facts about the controller *)

Module ControllerFacts.

Import Controller Request.

Lemma bind_Ok {A B} (m : M A) (k : A -> M B) st b st2 :
  bind m k st = (Ok b, st2) ->
  exists a st1, m st = (Ok a, st1) /\ k a st1 = (Ok b, st2).
Proof.
  unfold bind. destruct (m st) as [[a|e] st1]; [eauto | discriminate].
Qed.

Lemma bind_step {A B} (m : M A) (k : A -> M B) st a st1 :
  m st = (Ok a, st1) -> bind m k st = k a st1.
Proof. unfold bind. now intros ->. Qed.

Lemma bind_raise {A B} (m : M A) (k : A -> M B) st e st1 :
  m st = (Raise e, st1) -> bind m k st = (Raise e, st1).
Proof. unfold bind. now intros ->. Qed.

Lemma lift_Ok {A} (r : result A) st a st1 :
  lift r st = (Ok a, st1) -> r = Ok a /\ st1 = st.
Proof. unfold lift. now intros [= -> ->]. Qed.

Lemma get_message_Ok base st message st1 :
  get_message base st = (Ok message, st1) ->
  Cantools.get_message_by_name (db st) (base +:+ dcdc_suffix st) = Some message
  /\ st1 = st.
Proof.
  unfold get_message.
  destruct (Cantools.get_message_by_name _ _); now intros [= -> ->].
Qed.

Lemma request_Ok base values st st1 :
  request base values st = (Ok tt, st1) ->
  exists message payload,
    Cantools.get_message_by_name (db st) (base +:+ dcdc_suffix st) = Some message
    /\ Cantools.encode message values = Ok payload
    /\ st1 = snd (bus_send (frame_of message payload) st).
Proof.
  unfold request. intros H.
  apply bind_Ok in H as (message & s1 & Hm & H).
  apply get_message_Ok in Hm as [Hm ->].
  apply bind_Ok in H as (payload & s2 & Hp & H).
  apply lift_Ok in Hp as [Hp ->].
  exists message, payload. repeat split; try assumption.
  unfold bus_send in *. now injection H as <-.
Qed.

(** A request that raises has sent nothing. *)
Lemma request_Raise base values st e st1 :
  request base values st = (Raise e, st1) -> st1 = st.
Proof.
  unfold request, bind, get_message, lift.
  destruct (Cantools.get_message_by_name _ _) as [message|];
    [|now intros [= _ <-]].
  destruct (Cantools.encode message values); [discriminate|].
  now intros [= _ <-].
Qed.

(** A request goes through in every state of the controller in which the
    catalog and the unit suffix are the same, whatever has been sent or
    cached. *)
Lemma request_any_state base values st message payload :
  Cantools.get_message_by_name (db st) (base +:+ dcdc_suffix st) = Some message ->
  Cantools.encode message values = Ok payload ->
  request base values st = (Ok tt, snd (bus_send (frame_of message payload) st)).
Proof.
  intros Hm Hp. unfold request, bind, get_message, lift.
  now rewrite Hm, Hp.
Qed.

Lemma set_mode_request cm ct :
  set_mode cm ct = request "DCDC_ModeRequest" (list_to_map
    [("converterModeReq", Int (ConverterMode.mode_value cm));
     ("controlTypeReq", Int (ControlType.control_value ct))]).
Proof. reflexivity. Qed.


Lemma store_keeps msg_name decoded st :
  db (store msg_name decoded st) = db st
  /\ sent (store msg_name decoded st) = sent st
  /\ dcdc_suffix (store msg_name decoded st) = dcdc_suffix st
  /\ dcdc_id (store msg_name decoded st) = dcdc_id st.
Proof.
  unfold store. repeat (destruct (Py.contains _ msg_name); [now repeat split|]).
  now repeat split.
Qed.

Lemma receive_one_db msg acc st r st1 :
  receive_one msg acc st = (r, st1) -> db st1 = db st.
Proof.
  unfold receive_one.
  destruct (Cantools.get_message_by_frame_id _ _) as [db_msg|];
    [|now intros [= _ <-]].
  destruct (Cantools.decode _ _) as [decoded|e].
  - intros [= _ <-]. apply store_keeps.
  - destruct (swallowed e); now intros [= _ <-].
Qed.

Lemma receive_loop_app pre post acc st :
  receive_loop (pre ++ post) acc st
  = match receive_loop pre acc st with
    | (Ok acc1, st1) => receive_loop post acc1 st1
    | (Raise e, st1) => (Raise e, st1)
    end.
Proof.
  revert acc st. induction pre as [|[msg|] pre IH]; intros acc st; simpl.
  - reflexivity.
  - unfold bind. destruct (receive_one msg acc st) as [[acc1|e] st1];
      [apply IH | reflexivity].
  - apply IH.
Qed.

Lemma receive_loop_db polls acc st r st1 :
  receive_loop polls acc st = (r, st1) -> db st1 = db st.
Proof.
  revert acc st. induction polls as [|[msg|] polls IH]; intros acc st; simpl.
  - now intros [= _ <-].
  - unfold bind. destruct (receive_one msg acc st) as [[acc1|e] s1] eqn:H1.
    + intros H. apply IH in H. apply receive_one_db in H1. congruence.
    + intros [= _ <-]. now apply receive_one_db in H1.
  - apply IH.
Qed.

(** [start_converter] returns whenever the catalog has the two messages,
    the setpoint converts and the two dictionaries encode. *)
Lemma start_converter_returns st setpoint control_type converter_mode
    current_limit mode_msg ctl_msg mode_payload ctl_payload raw :
  Cantools.get_message_by_name (db st) ("DCDC_ModeRequest" +:+ dcdc_suffix st)
    = Some mode_msg ->
  Cantools.encode mode_msg (list_to_map
    [("converterModeReq", Int (ConverterMode.mode_value converter_mode));
     ("controlTypeReq", Int (ControlType.control_value control_type))])
    = Ok mode_payload ->
  Cantools.get_message_by_name (db st)
    ("DCDC_ControlRequest" +:+ dcdc_suffix st) = Some ctl_msg ->
  setpoint_raw control_type setpoint = Ok raw ->
  Cantools.encode ctl_msg (control_values 1 raw current_limit)
    = Ok ctl_payload ->
  exists st',
    start_converter setpoint control_type converter_mode current_limit st
      = (Ok tt, st')
    /\ sent st' = sent st ++ [frame_of mode_msg mode_payload;
                              frame_of ctl_msg ctl_payload].
Proof.
  intros Hm Hmp Hc Hraw Hcp.
  set (st1 := snd (bus_send (frame_of mode_msg mode_payload) st)).
  exists (snd (bus_send (frame_of ctl_msg ctl_payload) st1)). split.
  - unfold start_converter.
    rewrite (bind_step _ _ st tt st1)
      by (rewrite set_mode_request; now apply request_any_state).
    rewrite (bind_step _ _ st1 ctl_msg st1)
      by (unfold get_message; cbn [db dcdc_suffix st1 snd bus_send];
          now rewrite Hc).
    rewrite (bind_step _ _ st1 raw st1) by (unfold lift; now rewrite Hraw).
    rewrite (bind_step _ _ st1 ctl_payload st1)
      by (unfold lift; unfold control_values in Hcp; now rewrite Hcp).
    reflexivity.
  - cbn. now rewrite <- List.app_assoc.
Qed.

(** Whether it returns or raises, [start_converter] has sent nothing, or
    the mode-selection frame alone, or the mode-selection frame and then
    the control-request frame: no control request goes out before the
    mode selection. *)
Lemma start_converter_order st setpoint control_type converter_mode
    current_limit :
  let st' := snd (start_converter setpoint control_type converter_mode
                    current_limit st) in
  sent st' = sent st
  \/ exists mode_msg mode_payload,
       Cantools.get_message_by_name (db st)
         ("DCDC_ModeRequest" +:+ dcdc_suffix st) = Some mode_msg
       /\ (sent st' = sent st ++ [frame_of mode_msg mode_payload]
           \/ exists ctl_msg ctl_payload,
                Cantools.get_message_by_name (db st)
                  ("DCDC_ControlRequest" +:+ dcdc_suffix st) = Some ctl_msg
                /\ sent st' = sent st ++ [frame_of mode_msg mode_payload;
                                          frame_of ctl_msg ctl_payload]).
Proof.
  cbv zeta. unfold start_converter.
  destruct (set_mode converter_mode control_type st) as [[[]|e] st1] eqn:Hmode.
  - rewrite (bind_step _ _ _ _ _ Hmode). rewrite set_mode_request in Hmode.
    apply request_Ok in Hmode as (mode_msg & mode_payload & Hm & _ & ->).
    right. exists mode_msg, mode_payload. split; [exact Hm|].
    set (st1 := snd (bus_send (frame_of mode_msg mode_payload) st)).
    destruct (get_message "DCDC_ControlRequest" st1) as [[ctl_msg|e] s2]
      eqn:Hget.
    + rewrite (bind_step _ _ _ _ _ Hget).
      apply get_message_Ok in Hget as [Hc ->].
      unfold bind, lift.
      destruct (setpoint_raw control_type setpoint) as [raw|e];
        [|now left].
      destruct (Cantools.encode ctl_msg _) as [ctl_payload|e]; [|now left].
      right. exists ctl_msg, ctl_payload. split; [exact Hc|].
      cbn. now rewrite <- List.app_assoc.
    + rewrite (bind_raise _ _ _ _ _ Hget). left.
      assert (s2 = st1) as ->; [|reflexivity].
      revert Hget. unfold get_message.
      destruct (Cantools.get_message_by_name (db st1) _);
        [discriminate | now intros [= _ <-]].
  - rewrite (bind_raise _ _ _ _ _ Hmode). rewrite set_mode_request in Hmode.
    apply request_Raise in Hmode as ->. now left.
Qed.

End ControllerFacts.
(** ** The copies of a message *)

Module CopyFacts.

Import Py ExpandDbc LoopFacts ExpandFacts CatalogText.

Lemma range_nonneg (n k : Z) : k ∈ range n -> 0 <= k.
Proof.
  unfold range. intros (i & -> & _)%list_elem_of_fmap. lia.
Qed.

Lemma range_three : range 3 = [0; 1; 2].
Proof. reflexivity. Qed.

Lemma unit_suffix_copy (k : Z) : 0 <= k -> unit_suffix k = copy_suffix k.
Proof.
  intros Hk. unfold unit_suffix, copy_suffix.
  destruct (Z.ltb_spec 0 k), (Z.eqb_spec k 0); try reflexivity; lia.
Qed.

Lemma new_sender_renamed (snd : string) (k : Z) :
  0 <= k -> new_sender snd k = renamed snd k.
Proof.
  intros Hk. unfold new_sender, renamed, unit_suffix.
  destruct (Z.ltb_spec 0 k), (Z.eqb_spec k 0); try lia.
  - reflexivity.
  - apply replace_same.
Qed.

Lemma new_sig_line_renamed (sig : string) (k : Z) :
  0 <= k -> new_sig_line sig k = renamed sig k.
Proof.
  intros Hk. unfold new_sig_line, renamed.
  destruct (Z.ltb_spec 0 k), (Z.eqb_spec k 0); try lia.
  - destruct (contains "DCDC_Primary" sig) eqn:Hc; simpl; [reflexivity|].
    symmetry. now apply replace_absent.
  - now rewrite andb_false_r.
Qed.

(** What the loop over the units appends for unit [k] is copy [k]. *)
Lemma unit_block_copy (m : message) (cid : Z) (nm d snd : string) (k : Z) :
  0 <= k ->
  unit_block (Some m) cid nm d snd k = copy_block cid nm d snd (signals m) k.
Proof.
  intros Hk. unfold unit_block, copy_block, bo_header, definition_line.
  rewrite unit_suffix_copy, new_sender_renamed by assumption.
  change ([?x] ++ ?l) with (x :: l). f_equal. f_equal.
  assert ((fun sig_line => new_sig_line sig_line k) <$> signals m
          = (fun sig => renamed sig k) <$> signals m) as <-.
  { apply list_fmap_ext. intros _ x _. now apply new_sig_line_renamed. }
  now destruct (signals m).
Qed.

Lemma unit_blocks_copies (m : message) (cid : Z) (nm d snd : string) (n : Z) :
  unit_block (Some m) cid nm d snd <$> range n
  = copy_block cid nm d snd (signals m) <$> range n.
Proof.
  apply list_fmap_ext. intros i k Hk.
  apply unit_block_copy, (range_nonneg n).
  apply list_elem_of_lookup. eauto.
Qed.

(** The subject node itself gets the unit suffix; a text that does not
    mention it stays. *)
Lemma renamed_subject (k : Z) :
  k <> 0 -> renamed "DCDC_Primary" k = "DCDC_Primary" +:+ "_" +:+ str_of_int k.
Proof.
  intros Hk. unfold renamed. destruct (Z.eqb_spec k 0); [contradiction|].
  pose proof (replace_once EmptyString "DCDC_Primary"
                ("DCDC_Primary_" +:+ str_of_int k) EmptyString) as H.
  rewrite str_app_nil_l, str_app_nil_r in H.
  rewrite H by (discriminate || reflexivity).
  now rewrite str_app_nil_l, str_app_nil_r.
Qed.

Lemma renamed_absent (text : string) (k : Z) :
  contains "DCDC_Primary" text = false -> renamed text k = text.
Proof.
  intros H. unfold renamed. destruct (k =? 0); [reflexivity|].
  now apply replace_absent.
Qed.

(** A renamed signal line is still a signal line. *)
Lemma renamed_signal_line (sig : string) (k : Z) :
  is_signal_line sig = true -> is_signal_line (renamed sig k) = true.
Proof.
  intros H. unfold renamed. destruct (k =? 0); [exact H|].
  apply startswith_inv in H as [t ->]. unfold is_signal_line, startswith.
  rewrite !str_app_cons, str_app_nil_l.
  unfold replace. do 4 (rewrite replace_go_step by reflexivity).
  change (String " " (String "S" (String "G" (String "_" ?x))))
    with (" SG_" +:+ x).
  apply prefix_app.
Qed.

Lemma signal_line_not_definition (l : string) :
  is_signal_line l = true -> startswith l "BO_ " = false.
Proof. intros [t ->]%startswith_inv. reflexivity. Qed.

Lemma definition_line_starts cid nm d snd :
  startswith (definition_line cid nm d snd) "BO_ " = true.
Proof. unfold definition_line, startswith. apply prefix_app. Qed.

Lemma message_definitions_app (a b : list string) :
  message_definitions (a ++ b) = message_definitions a ++ message_definitions b.
Proof. apply List.filter_app. Qed.

Lemma signal_lines_no_definitions (sigs : list string) :
  Forall (fun l => is_signal_line l = true) sigs ->
  message_definitions sigs = [].
Proof.
  induction 1 as [|sig sigs Hsig _ IH]; [reflexivity|].
  unfold message_definitions in *. cbn [List.filter].
  now rewrite signal_line_not_definition.
Qed.

Lemma copy_block_definitions cid nm d snd sigs k :
  Forall (fun l => is_signal_line l = true) sigs ->
  message_definitions (copy_block cid nm d snd sigs k)
  = [definition_line (cid + k) (nm +:+ copy_suffix k) d (renamed snd k)].
Proof.
  intros Hs. unfold copy_block, message_definitions.
  cbn [List.filter]. rewrite definition_line_starts. f_equal.
  rewrite List.filter_app. simpl.
  rewrite app_nil_r.
  induction Hs as [|sig sigs Hsig _ IH]; [reflexivity|].
  rewrite fmap_cons. cbn [List.filter].
  rewrite signal_line_not_definition by now apply renamed_signal_line.
  exact IH.
Qed.

End CopyFacts.
(** ** The passes at metadata lines *)

Module MetadataFacts.

Import Py ExpandDbc LoopFacts ExpandFacts CatalogText.

Lemma prefix_app_l (a b s : string) :
  String.prefix (a +:+ b) s = true -> String.prefix a s = true.
Proof.
  intros [t ->]%prefix_inv. rewrite str_app_assoc. apply prefix_app.
Qed.

Lemma contains_app_l (a b s : string) :
  contains (a +:+ b) s = true -> contains a s = true.
Proof.
  induction s as [|c s IH]; cbn [contains]; intros H;
    apply orb_true_iff in H; apply orb_true_iff.
  - destruct H as [H|H]; [|discriminate]. left.
    eapply prefix_app_l. exact H.
  - destruct H as [H|H]; [left; eapply prefix_app_l; exact H | right; auto].
Qed.

Lemma find_Some_contains (sub s : string) (n : nat) :
  find sub s = Some n -> contains sub s = true.
Proof.
  revert n. induction s as [|c s IH]; intros n; cbn [find contains].
  - destruct (String.prefix sub EmptyString); [reflexivity|discriminate].
  - destruct (String.prefix sub (String c s)); [reflexivity|].
    destruct (find sub s) as [m|]; [|discriminate].
    intros _. simpl. now apply (IH m).
Qed.

(** The scan of the parts of an attribute line. *)
Lemma attribute_scan_other num_units ln all_parts parts :
  ~ In "BO_" parts ->
  attribute_scan num_units ln all_parts parts = Ok None.
Proof.
  induction parts as [|part later IH]; intros Hnot; [reflexivity|].
  cbn [attribute_scan].
  destruct (String.eqb_spec part "BO_") as [->|Hne].
  - exfalso. apply Hnot. now left.
  - apply IH. intros Hin. apply Hnot. now right.
Qed.

Lemma attribute_scan_front num_units ln all_parts parts1 parts :
  ~ In "BO_" parts1 ->
  attribute_scan num_units ln all_parts (parts1 ++ parts)
  = attribute_scan num_units ln all_parts parts.
Proof.
  induction parts1 as [|part later IH]; intros Hnot; [reflexivity|].
  rewrite <- app_comm_cons. cbn [attribute_scan].
  destruct (String.eqb_spec part "BO_") as [->|Hne].
  - exfalso. apply Hnot. now left.
  - apply IH. intros Hin. apply Hnot. now right.
Qed.

Lemma attribute_scan_at num_units ln all_parts id_text parts2 cid :
  int_of_str id_text = Ok cid -> ~ In "BO_" parts2 ->
  (2 <= length all_parts)%nat ->
  attribute_scan num_units ln all_parts ("BO_" :: id_text :: parts2)
  = Ok (if in_dcdc_range cid
        then Some ((fun unit_id =>
                      replace ln ("BO_ " +:+ str_of_int cid)
                        ("BO_ " +:+ str_of_int (cid + unit_id)))
                   <$> range num_units)
        else None).
Proof.
  intros Hid Hnot Hlen. cbn [attribute_scan String.eqb Ascii.eqb Bool.eqb].
  rewrite Hid. destruct (in_dcdc_range cid).
  - unfold index. destruct all_parts as [|a [|b l]]; simpl in Hlen; try lia.
    reflexivity.
  - cbn [attribute_scan].
    destruct (String.eqb_spec id_text "BO_") as [->|Hne];
      [discriminate Hid|].
    now apply attribute_scan_other.
Qed.

(** A line of none of the leading kinds goes to the metadata checks. *)
Lemma expand_line_metadata messages num_units ln rest :
  startswith ln "VERSION" = false -> startswith ln "NS_" = false ->
  startswith ln "BS_:" = false -> startswith ln "BU_:" = false ->
  startswith ln "BO_ " = false ->
  expand_line messages num_units ln rest
  = let* out := on_metadata num_units ln in Ok (out, 0%nat).
Proof.
  intros H1 H2 H3 H4 H5. unfold expand_line.
  now rewrite H1, H2, H3, H4, H5.
Qed.

(** What the metadata checks append for a keyed line. *)
Lemma on_metadata_keyed num_units ln cid render :
  keyed_line ln cid render ->
  on_metadata num_units ln
  = Ok (if in_dcdc_range cid
        then (fun k => render (cid + k)) <$> range num_units
        else [ln]).
Proof.
  intros Hk. unfold on_metadata.
  destruct Hk as [ln t0 t1 id_text comment cid Hpre Hparts Hid
                 |ln t0 t1 id_text sig_name comment cid Hpre Hparts Hid
                 |ln pre post parts1 id_text parts2 cid Hpre Hst Hln Hfind Hpost
                    Hparts Hn1 Hn2 Hid
                 |ln t0 id_text rest_text cid Hpre Hparts Hid].
  - unfold on_message_comment. rewrite Hpre, Hparts. simpl. rewrite Hid. simpl.
    destruct (in_dcdc_range cid); [reflexivity|].
    apply startswith_inv in Hpre as [t ->]. reflexivity.
  - assert (on_message_comment num_units ln = Ok None) as ->.
    { apply startswith_inv in Hpre as [t ->]. reflexivity. }
    simpl. unfold on_signal_comment. rewrite Hpre, Hparts. simpl.
    rewrite Hid. simpl.
    destruct (in_dcdc_range cid); [reflexivity|].
    apply startswith_inv in Hpre as [t ->]. reflexivity.
  - assert (on_message_comment num_units ln = Ok None) as ->.
    { apply startswith_inv in Hpre as [t ->]. reflexivity. }
    assert (on_signal_comment num_units ln = Ok None) as ->.
    { apply startswith_inv in Hpre as [t ->]. reflexivity. }
    assert (on_node_comment ln = Ok None) as ->.
    { apply startswith_inv in Hpre as [t ->]. reflexivity. }
    simpl. unfold on_station_address. rewrite Hst.
    unfold on_message_attribute. rewrite Hpre.
    assert (contains "BO_ " ln = true) as ->.
    { eapply contains_app_l, find_Some_contains. exact Hfind. }
    simpl. rewrite Hparts, attribute_scan_front by assumption.
    rewrite (attribute_scan_at _ _ _ _ _ cid) by
      (first [assumption | rewrite length_app; simpl; lia]).
    destruct (in_dcdc_range cid); cbn [rbind]; [|reflexivity].
    f_equal. apply list_fmap_ext. intros i k _.
    rewrite Hln at 1. apply replace_once; [discriminate| |assumption].
    now rewrite <- Hln.
  - assert (on_message_comment num_units ln = Ok None) as ->.
    { apply startswith_inv in Hpre as [t ->]. reflexivity. }
    assert (on_signal_comment num_units ln = Ok None) as ->.
    { apply startswith_inv in Hpre as [t ->]. reflexivity. }
    assert (on_node_comment ln = Ok None) as ->.
    { apply startswith_inv in Hpre as [t ->]. reflexivity. }
    assert (on_station_address ln = None) as ->.
    { apply startswith_inv in Hpre as [t ->]. reflexivity. }
    assert (on_message_attribute num_units ln = Ok None) as ->.
    { apply startswith_inv in Hpre as [t ->]. reflexivity. }
    simpl. unfold on_value_table. rewrite Hpre, Hparts. simpl.
    rewrite Hid. simpl. now destruct (in_dcdc_range cid).
Qed.

(** A keyed line is of none of the kinds handled before the metadata
    checks, and is no signal line. *)
Lemma keyed_line_kind ln cid render :
  keyed_line ln cid render ->
  startswith ln "VERSION" = false /\ startswith ln "NS_" = false /\
  startswith ln "BS_:" = false /\ startswith ln "BU_:" = false /\
  startswith ln "BO_ " = false /\ is_signal_line ln = false.
Proof.
  intros [ln' ? ? ? ? ? Hpre _ _|ln' ? ? ? ? ? ? Hpre _ _
         |ln' ? ? ? ? ? ? Hpre _ _ _ _ _ _ _ _|ln' ? ? ? ? Hpre _ _];
    apply startswith_inv in Hpre as [t ->]; repeat split; reflexivity.
Qed.

End MetadataFacts.

(** ** Facts about texts: characters, numerals, fields *)

Module TextFacts.

Import Text.

Lemma prefix_app_foreign (sub t : string) :
  (forall c, In c (list_ascii_of_string t) ->
             ~ In c (list_ascii_of_string sub)) ->
  forall s, sub <> EmptyString ->
            String.prefix sub (s +:+ t) = String.prefix sub s.
Proof.
  induction sub as [|a sub IH]; intros Hforeign s Hne; [congruence|].
  destruct s as [|c s].
  - rewrite str_app_nil_l. destruct t as [|b t]; [reflexivity|].
    rewrite prefix_cons. simpl.
    destruct (Ascii.ascii_dec a b) as [->|]; [|reflexivity].
    exfalso. apply (Hforeign b); simpl; auto.
  - rewrite str_app_cons, !prefix_cons.
    destruct (Ascii.ascii_dec a c); [|reflexivity].
    destruct sub as [|a' sub]; [now rewrite !prefix_nil|].
    apply IH; [|discriminate].
    intros d Hd Hin. apply (Hforeign d Hd). simpl. right. exact Hin.
Qed.

Lemma contains_foreign (sub t : string) :
  (forall c, In c (list_ascii_of_string t) ->
             ~ In c (list_ascii_of_string sub)) ->
  sub <> EmptyString -> Py.contains sub t = false.
Proof.
  intros Hforeign Hne. destruct sub as [|a sub]; [congruence|].
  induction t as [|b t IH]; [reflexivity|].
  cbn [Py.contains]. rewrite prefix_cons.
  destruct (Ascii.ascii_dec a b) as [->|].
  - exfalso. apply (Hforeign b); simpl; auto.
  - simpl. apply IH. intros c Hc. apply Hforeign. simpl. now right.
Qed.

Lemma contains_app_foreign (sub s t : string) :
  (forall c, In c (list_ascii_of_string t) ->
             ~ In c (list_ascii_of_string sub)) ->
  sub <> EmptyString ->
  Py.contains sub (s +:+ t) = Py.contains sub s.
Proof.
  intros Hforeign Hne. induction s as [|c s IH].
  - rewrite str_app_nil_l, (contains_foreign sub t Hforeign Hne).
    destruct sub; [congruence|reflexivity].
  - rewrite str_app_cons. cbn [Py.contains].
    rewrite <- str_app_cons, (prefix_app_foreign sub t Hforeign _ Hne).
    now rewrite IH.
Qed.

Lemma pretty_N_go_chars (P : ascii -> Prop) :
  (forall d, P (pretty_N_char d)) ->
  forall x s, (forall c, In c (list_ascii_of_string s) -> P c) ->
  forall c, In c (list_ascii_of_string (pretty_N_go x s)) -> P c.
Proof.
  intros HP x. induction (N.lt_wf_0 x) as [x _ IH]; intros s Hs.
  destruct (decide (x = 0)%N) as [->|Hx]; [now rewrite pretty_N_go_0|].
  rewrite pretty_N_go_step by lia. apply IH.
  - apply N.div_lt; lia.
  - intros c [<-|Hc]; [apply HP | now apply Hs].
Qed.

Lemma pretty_N_char_digit d : plain (pretty_N_char d) = false.
Proof. unfold pretty_N_char. now repeat case_match. Qed.

Lemma unit_suffix_chars (k : Z) c :
  In c (list_ascii_of_string (ExpandDbc.unit_suffix k)) -> plain c = false.
Proof.
  unfold ExpandDbc.unit_suffix. destruct (0 <? k) eqn:Hk; [|intros []].
  destruct k as [|p|p]; try discriminate.
  unfold Py.str_of_int, pretty, pretty_Z, pretty, pretty_positive, pretty,
    pretty_N.
  rewrite decide_False by discriminate.
  intros [<-|Hc]; [reflexivity|]. revert c Hc.
  apply pretty_N_go_chars; [apply pretty_N_char_digit | intros c []].
Qed.

Lemma contains_unit_suffix (sub s : string) (k : Z) :
  forallb plain (list_ascii_of_string sub) = true ->
  sub <> EmptyString ->
  Py.contains sub (s +:+ ExpandDbc.unit_suffix k) = Py.contains sub s.
Proof.
  intros Hplain Hne. apply contains_app_foreign; [|exact Hne].
  intros c Hc Hin. apply unit_suffix_chars in Hc.
  rewrite forallb_forall in Hplain. apply Hplain in Hin. congruence.
Qed.

(** *** Texts without whitespace *)

Lemma chars_app (a b : string) :
  list_ascii_of_string (a +:+ b)
  = list_ascii_of_string a ++ list_ascii_of_string b.
Proof.
  induction a as [|c a IH]; [reflexivity|].
  rewrite str_app_cons. simpl. now rewrite IH.
Qed.

Lemma nospace_nil : nospace EmptyString.
Proof. constructor. Qed.

Lemma nospace_cons c s : nospace (String c s) <-> Py.isspace c = false /\ nospace s.
Proof.
  unfold nospace. cbn [list_ascii_of_string].
  apply (Forall_cons (fun c => Py.isspace c = false)).
Qed.

Lemma nospace_app a b : nospace (a +:+ b) <-> nospace a /\ nospace b.
Proof.
  unfold nospace. rewrite chars_app.
  apply (Forall_app (fun c => Py.isspace c = false)).
Qed.

Lemma plain_false_nospace c : plain c = false -> Py.isspace c = false.
Proof.
  destruct c as [[] [] [] [] [] [] [] []]; try reflexivity; discriminate.
Qed.

Lemma unit_suffix_nospace k : nospace (ExpandDbc.unit_suffix k).
Proof.
  apply Forall_forall. intros c Hc. apply plain_false_nospace.
  apply (unit_suffix_chars k). now apply list_elem_of_In.
Qed.

Lemma rev_app_nospace acc t : nospace acc -> nospace t -> nospace (String.rev_app acc t).
Proof.
  revert t. induction acc as [|c acc IH]; intros t Hacc Ht; [exact Ht|].
  apply nospace_cons in Hacc as [Hc Hacc]. simpl. apply IH; [exact Hacc|].
  now apply nospace_cons.
Qed.

Lemma rev_app_nonempty acc t :
  acc <> EmptyString \/ t <> EmptyString -> String.rev_app acc t <> EmptyString.
Proof.
  revert t. induction acc as [|c acc IH]; intros t H; simpl.
  - now destruct H.
  - apply IH. now right.
Qed.

(** *** Splitting at whitespace *)

(** Every piece of an unbounded split is a field. *)
Lemma split_go_fields (s : string) (tok : option string) :
  (forall acc, tok = Some acc -> field acc) ->
  Forall field (Py.split_go None tok s).
Proof.
  revert tok. induction s as [|c s IH]; intros tok Htok.
  - destruct tok as [acc|]; [|constructor]. simpl.
    destruct (Htok acc eq_refl) as [Hne Hns].
    repeat constructor.
    + apply rev_app_nonempty. now left.
    + apply rev_app_nospace; [exact Hns|apply nospace_nil].
  - cbn [Py.split_go]. destruct tok as [acc|].
    + destruct (Htok acc eq_refl) as [Hne Hns].
      destruct (Py.isspace c) eqn:Hc.
      * constructor.
        -- split; [apply rev_app_nonempty; now left|].
           apply rev_app_nospace; [exact Hns|apply nospace_nil].
        -- apply IH. discriminate.
      * apply IH. intros acc' [= <-]. split; [discriminate|].
        now apply nospace_cons.
    + destruct (Py.isspace c) eqn:Hc; [apply IH; discriminate|].
      apply IH. intros acc' [= <-]. split; [discriminate|].
      apply nospace_cons. split; [exact Hc|apply nospace_nil].
Qed.

Lemma split_fields (s : string) : Forall field (Py.split None s).
Proof. apply split_go_fields. discriminate. Qed.

Lemma split_go_token (t : string) : nospace t ->
  forall acc c r, Py.isspace c = true ->
  Py.split_go None (Some acc) (t +:+ String c r)
  = String.rev_app acc t :: Py.split_go None None r.
Proof.
  induction t as [|a t IH]; intros Ht acc c r Hc.
  - rewrite str_app_nil_l. cbn [Py.split_go]. now rewrite Hc.
  - apply nospace_cons in Ht as [Ha Ht].
    rewrite str_app_cons. cbn [Py.split_go]. rewrite Ha.
    now rewrite IH.
Qed.

(** A field followed by a whitespace character is the first piece. *)
Lemma split_field (t : string) c r :
  field t -> Py.isspace c = true ->
  Py.split None (t +:+ String c r) = t :: Py.split None r.
Proof.
  intros [Hne Ht] Hc. destruct t as [|a t]; [congruence|].
  apply nospace_cons in Ht as [Ha Ht].
  unfold Py.split. rewrite str_app_cons. cbn [Py.split_go]. rewrite Ha.
  now rewrite split_go_token.
Qed.

(** *** Stripping *)

Lemma rstrip_by_none (p : ascii -> bool) (s : string) :
  Forall (fun c => p c = false) (list_ascii_of_string s) ->
  Py.rstrip_by p s = s.
Proof.
  induction s as [|c s IH]; [reflexivity|]. simpl.
  intros [Hc Hs]%Forall_cons. rewrite IH by exact Hs.
  destruct s; [now rewrite Hc | reflexivity].
Qed.

Lemma rstrip_by_snoc (p : ascii -> bool) (s : string) c :
  p c = true ->
  Py.rstrip_by p (s +:+ String c EmptyString) = Py.rstrip_by p s.
Proof.
  intros Hc. induction s as [|a s IH].
  - simpl. now rewrite Hc.
  - rewrite str_app_cons. cbn [Py.rstrip_by]. now rewrite IH.
Qed.

Lemma rstrip_by_idem (p : ascii -> bool) (s : string) :
  Py.rstrip_by p (Py.rstrip_by p s) = Py.rstrip_by p s.
Proof.
  induction s as [|a s IH]; [reflexivity|]. cbn [Py.rstrip_by].
  destruct (Py.rstrip_by p s) as [|b r] eqn:Hr.
  - destruct (p a) eqn:Ha; [reflexivity|]. simpl. now rewrite Ha.
  - assert (forall x, Py.rstrip_by p (String a x)
                      = match Py.rstrip_by p x with
                        | EmptyString =>
                            if p a then EmptyString else String a EmptyString
                        | r' => String a r'
                        end) as Hstep by reflexivity.
    now rewrite Hstep, IH.
Qed.

(** Behind a text that stripping leaves as it is and that is not empty,
    nothing in front is stripped. *)
Lemma rstrip_by_app_kept (p : ascii -> bool) (s t : string) :
  t <> EmptyString -> Py.rstrip_by p t = t ->
  Py.rstrip_by p (s +:+ t) = s +:+ t.
Proof.
  intros Hne Ht. induction s as [|a s IH]; [now rewrite str_app_nil_l|].
  rewrite str_app_cons. cbn [Py.rstrip_by]. rewrite IH.
  destruct (s +:+ t) eqn:Hst; [|reflexivity].
  destruct s; [|discriminate]. rewrite str_app_nil_l in Hst. congruence.
Qed.

Lemma rstrip_by_nospace (p : ascii -> bool) (s : string) :
  nospace s -> nospace (Py.rstrip_by p s).
Proof.
  induction s as [|a s IH]; [trivial|]. intros [Ha Hs]%nospace_cons.
  cbn [Py.rstrip_by]. specialize (IH Hs).
  destruct (Py.rstrip_by p s) as [|b r].
  - destruct (p a); [apply nospace_nil|].
    apply nospace_cons. split; [exact Ha|apply nospace_nil].
  - now apply nospace_cons.
Qed.

Lemma strip_nospace (s : string) : nospace s -> Py.strip s = s.
Proof.
  intros Hs. unfold Py.strip.
  assert (Py.lstrip s = s) as ->.
  { destruct s as [|c s]; [reflexivity|].
    apply nospace_cons in Hs as [Hc _]. simpl. now rewrite Hc. }
  now apply rstrip_by_none.
Qed.

(** *** Numerals *)

Lemma digit_of_pretty_N_char (d : N) :
  (d < 10)%N -> Py.digit_of (pretty_N_char d) = Some (Z.of_N d).
Proof.
  intros Hd.
  assert (d = 0 \/ d = 1 \/ d = 2 \/ d = 3 \/ d = 4 \/ d = 5 \/ d = 6
          \/ d = 7 \/ d = 8 \/ d = 9)%N
    as [-> | [-> | [-> | [-> | [-> | [-> | [-> | [-> | [-> | ->]]]]]]]]] by lia;
    reflexivity.
Qed.

(** Reading the digits written for a positive number gives the number
    back. *)
Lemma digits_go_pretty_N_go (x : N) :
  (0 < x)%N ->
  forall s acc b, exists n : Z,
    0 <= n
    /\ Py.digits_go acc b (pretty_N_go x s)
       = Py.digits_go (acc * 10 ^ n + Z.of_N x) true s.
Proof.
  induction (N.lt_wf_0 x) as [x _ IH]. intros Hx s acc b.
  rewrite pretty_N_go_step by exact Hx.
  destruct (decide (x `div` 10 = 0)%N) as [Hdiv|Hdiv].
  - rewrite Hdiv, pretty_N_go_0. exists 1. split; [lia|].
    cbn [Py.digits_go].
    rewrite digit_of_pretty_N_char by (apply N.mod_lt; lia).
    f_equal. assert (x < 10)%N by (apply N.div_small_iff in Hdiv; lia).
    rewrite N.mod_small by assumption. lia.
  - destruct (IH (x `div` 10)%N) with
      (s := String (pretty_N_char (x `mod` 10)) s) (acc := acc) (b := b)
      as (n & Hn & ->).
    + apply N.div_lt; lia.
    + now apply N.neq_0_lt_0.
    + exists (n + 1). split; [lia|]. cbn [Py.digits_go].
      rewrite digit_of_pretty_N_char by (apply N.mod_lt; lia).
      f_equal. rewrite Z.pow_add_r by lia.
      pose proof (N.div_mod x 10 ltac:(lia)) as Hdm.
      assert (Z.of_N x = 10 * Z.of_N (x `div` 10) + Z.of_N (x `mod` 10)) by lia.
      lia.
Qed.

Lemma pretty_N_go_nospace (x : N) (s : string) :
  nospace s -> nospace (pretty_N_go x s).
Proof.
  intros Hs. apply Forall_forall. intros c Hc. apply list_elem_of_In in Hc.
  revert c Hc. apply pretty_N_go_chars.
  - intros d. apply plain_false_nospace, pretty_N_char_digit.
  - intros c Hc. unfold nospace in Hs. rewrite Forall_forall in Hs. apply Hs.
    now apply list_elem_of_In.
Qed.

Lemma pretty_N_go_first (x : N) :
  (0 < x)%N ->
  exists c r, pretty_N_go x EmptyString = String c r /\ plain c = false
              /\ c <> "_"%char.
Proof.
  intros Hx.
  destruct (pretty_N_go x EmptyString) as [|c r] eqn:Hp.
  - exfalso. destruct (digits_go_pretty_N_go x Hx EmptyString 0 false)
      as (n & _ & Hd). rewrite Hp in Hd. discriminate.
  - exists c, r. split; [reflexivity|].
    assert (forall c', In c' (list_ascii_of_string (pretty_N_go x EmptyString)) ->
                       plain c' = false /\ c' <> "_"%char) as Hall.
    { apply pretty_N_go_chars; [|intros c' []].
      intros d. split; [apply pretty_N_char_digit|].
      unfold pretty_N_char. now repeat case_match. }
    apply Hall. rewrite Hp. now left.
Qed.

Lemma str_of_int_nospace (z : Z) : nospace (Py.str_of_int z).
Proof.
  unfold Py.str_of_int, pretty, pretty_Z.
  destruct z as [|p|p]; [repeat constructor| |];
    unfold pretty, pretty_positive, pretty, pretty_N;
    rewrite decide_False by discriminate.
  - apply pretty_N_go_nospace, nospace_nil.
  - change ("-" +:+ ?x) with (String "-" x). apply nospace_cons.
    split; [reflexivity|]. apply pretty_N_go_nospace, nospace_nil.
Qed.

Lemma str_of_int_nonempty (z : Z) : Py.str_of_int z <> EmptyString.
Proof.
  unfold Py.str_of_int, pretty, pretty_Z.
  destruct z as [|p|p]; [discriminate| |discriminate].
  unfold pretty, pretty_positive, pretty, pretty_N.
  rewrite decide_False by discriminate.
  destruct (pretty_N_go_first (N.pos p)) as (c & r & -> & _); [lia|discriminate].
Qed.

(** [int(str(n))] is [n]. *)
Lemma int_of_str_of_int (z : Z) : Py.int_of_str (Py.str_of_int z) = Ok z.
Proof.
  unfold Py.int_of_str. rewrite strip_nospace by apply str_of_int_nospace.
  unfold Py.str_of_int, pretty, pretty_Z.
  destruct z as [|p|p]; [reflexivity| |];
    unfold pretty, pretty_positive, pretty, pretty_N;
    rewrite decide_False by discriminate.
  - destruct (pretty_N_go_first (N.pos p)) as (c & r & Hp & Hc & _); [lia|].
    destruct (digits_go_pretty_N_go (N.pos p) ltac:(lia) EmptyString 0 false)
      as (n & _ & Hd).
    rewrite Hp in Hd |- *.
    assert ((match String c r with
             | String "-" r0 => (true, r0)
             | String "+" r0 => (false, r0)
             | _ => (false, String c r)
             end) = (false, String c r)) as ->.
    { destruct c as [[] [] [] [] [] [] [] []]; try reflexivity; discriminate. }
    cbn [fst snd]. now rewrite Hd.
  - change ("-" +:+ ?x) with (String "-" x). cbn [fst snd].
    destruct (digits_go_pretty_N_go (N.pos p) ltac:(lia) EmptyString 0 false)
      as (n & _ & ->).
    reflexivity.
Qed.

(** On a text without whitespace, as every piece of a split is, the
    decimal reader of the expansion is [int] to the letter: the separators
    28 to 31, which only [strip] removes, cannot occur. *)
Lemma int_of_str_field (t : string) :
  nospace t -> Py.int_of_str t = Py16.int_decimal t.
Proof.
  intros Ht. unfold Py.int_of_str, Py16.int_decimal.
  rewrite strip_nospace by exact Ht.
  assert (Py16.strip_int t = t) as ->; [|reflexivity].
  unfold Py16.strip_int.
  assert (Forall (fun c => Py16.isspace_int c = false)
            (list_ascii_of_string t)) as Hint.
  { eapply Forall_impl; [exact Ht|]. intros c Hc. revert Hc.
    destruct c as [[] [] [] [] [] [] [] []]; try reflexivity; discriminate. }
  assert (Py16.lstrip_int t = t) as ->.
  { destruct t as [|c t]; [reflexivity|].
    apply Forall_cons in Hint as [Hc _]. simpl. now rewrite Hc. }
  now apply rstrip_by_none.
Qed.

(** *** Replacing in a text without whitespace *)

Lemma replace_go_nospace (old new : string) :
  nospace new ->
  forall s k, nospace s -> nospace (Py.replace_go old new k s).
Proof.
  intros Hnew. induction s as [|c s IH]; intros k Hs; [apply nospace_nil|].
  apply nospace_cons in Hs as [Hc Hs]. cbn [Py.replace_go].
  destruct k as [|k]; [|now apply IH].
  destruct (String.prefix old (String c s)).
  - apply nospace_app. split; [exact Hnew|now apply IH].
  - apply nospace_cons. split; [exact Hc|now apply IH].
Qed.

Lemma replace_go_nonempty (old new s : string) :
  new <> EmptyString -> s <> EmptyString ->
  Py.replace_go old new 0 s <> EmptyString.
Proof.
  intros Hnew Hs. destruct s as [|c s]; [congruence|]. cbn [Py.replace_go].
  destruct (String.prefix old (String c s)); [|discriminate].
  destruct new; [congruence|]. now rewrite str_app_cons.
Qed.

Lemma new_sender_field (snd : string) (k : Z) :
  field snd -> field (ExpandDbc.new_sender snd k).
Proof.
  intros [Hne Hns]. unfold ExpandDbc.new_sender, Py.replace. split.
  - apply replace_go_nonempty; [|exact Hne]. now destruct (0 <? k).
  - apply replace_go_nospace; [|exact Hns].
    destruct (0 <? k); [|repeat constructor].
    apply nospace_app. split; [repeat constructor|apply unit_suffix_nospace].
Qed.

End TextFacts.
(** * The claims about the controller and the bus handler *)

Module ControllerClaims.

Import Controller Request ControllerFacts Cache.

(** [H : x ∈ l] for a constructor [x] that is not among the constructors
    listed in [l]. *)
Ltac not_listed H :=
  exfalso; apply list_elem_of_In in H; simpl in H; intuition discriminate.

(** C1.  A call of [start_converter] that returns has put exactly two
    frames on the bus, in this order: the mode-selection frame, then the
    control-request frame.  Each is an extended frame with the identifier
    of its catalog message, and its data are what the encoder of that
    message gives: for the control request, on the dictionary with
    [startCommand = 1], the given current limit and the raw setpoint.  The
    raw setpoint is [int(setpoint * 10)] for the voltage and current
    control types, the product being exact on an integer and one rounded
    binary64 product on a float, and [int(setpoint)] for the power control
    types and for no control type set. *)
Theorem C1_start_sends_mode_then_control
    (st st' : controller) (setpoint current_limit : num)
    (control_type : ControlType.control) (converter_mode : ConverterMode.mode) :
  start_converter setpoint control_type converter_mode current_limit st
    = (Ok tt, st') ->
  exists mode_msg ctl_msg mode_payload ctl_payload raw,
    Cantools.get_message_by_name (db st) ("DCDC_ModeRequest" +:+ dcdc_suffix st)
      = Some mode_msg
    /\ Cantools.encode mode_msg (list_to_map
         [("converterModeReq", Int (ConverterMode.mode_value converter_mode));
          ("controlTypeReq", Int (ControlType.control_value control_type))])
       = Ok mode_payload
    /\ Cantools.get_message_by_name (db st)
         ("DCDC_ControlRequest" +:+ dcdc_suffix st) = Some ctl_msg
    /\ Cantools.encode ctl_msg (list_to_map
         [("startCommand", Int 1); ("setpointReq", Int raw);
          ("currentLimitReq", current_limit)])
       = Ok ctl_payload
    /\ sent st'
       = sent st
         ++ [{| Can.arbitration_id := Cantools.frame_id mode_msg;
                Can.data := mode_payload;
                Can.is_extended_id := true; Can.timestamp := 0%float |};
             {| Can.arbitration_id := Cantools.frame_id ctl_msg;
                Can.data := ctl_payload;
                Can.is_extended_id := true; Can.timestamp := 0%float |}]
    /\ (control_type ∈ [ControlType.V_BUS1; ControlType.V_BUS2;
                        ControlType.V_BUS1_ILIM; ControlType.V_BUS2_ILIM;
                        ControlType.I_BUS1; ControlType.I_BUS2] ->
        match setpoint with
        | Int z => raw = z * 10
        | Float f => Num.int_of_float (PrimFloat.mul f 10%float) = Ok raw
        end)
    /\ (control_type ∈ [ControlType.P_BUS1; ControlType.P_BUS2;
                        ControlType.NOT_SET] ->
        match setpoint with
        | Int z => raw = z
        | Float f => Num.int_of_float f = Ok raw
        end).
Proof.
  unfold start_converter. intros H.
  apply bind_Ok in H as ([] & s1 & Hmode & H).
  rewrite set_mode_request in Hmode.
  apply request_Ok in Hmode as (mode_msg & mode_payload & Hm & He & ->).
  apply bind_Ok in H as (ctl_msg & s2 & Hc & H).
  apply get_message_Ok in Hc as [Hc ->].
  apply bind_Ok in H as (raw & s3 & Hraw & H).
  apply lift_Ok in Hraw as [Hraw ->].
  apply bind_Ok in H as (ctl_payload & s4 & Hp & H).
  apply lift_Ok in Hp as [Hp ->].
  exists mode_msg, ctl_msg, mode_payload, ctl_payload, raw.
  unfold bus_send in *. simpl in *. injection H as <-. simpl.
  split; [exact Hm|]. split; [exact He|]. split; [exact Hc|].
  split; [exact Hp|]. split; [now rewrite <- List.app_assoc|].
  unfold setpoint_raw in Hraw. split; intros Hin.
  - destruct control_type; try not_listed Hin;
      destruct setpoint; simpl in Hraw; congruence.
  - destruct control_type; try not_listed Hin;
      destruct setpoint; simpl in Hraw; congruence.
Qed.

(** A concrete call: 24.0 V on bus 2 with a limit of 200 A, on the sample
    catalog, whose payloads hold each field in two bytes, low byte first.
    The mode selection carries converter mode 1 and control type 1; the
    control request carries [startCommand = 1], the raw setpoint 240 and
    the limit 200. *)
Lemma C1_witness :
  fst (start_converter (Float 24%float) ControlType.V_BUS2
         ConverterMode.BUS1_TO_BUS2 (Float 200%float)
         (init Sample.unit_catalog 0)) = Ok tt
  /\ sent (snd (start_converter (Float 24%float) ControlType.V_BUS2
                  ConverterMode.BUS1_TO_BUS2 (Float 200%float)
                  (init Sample.unit_catalog 0)))
     = [{| Can.arbitration_id := 2149580800;
           Can.data := ["001"; "000"; "001"; "000"]%byte;
           Can.is_extended_id := true; Can.timestamp := 0%float |};
        {| Can.arbitration_id := 2148532224;
           Can.data := ["001"; "000"; "240"; "000"; "200"; "000"]%byte;
           Can.is_extended_id := true; Can.timestamp := 0%float |}].
Proof.
  split; [reflexivity|].
  destruct (C1_start_sends_mode_then_control (init Sample.unit_catalog 0)
              (snd (start_converter (Float 24%float) ControlType.V_BUS2
                      ConverterMode.BUS1_TO_BUS2 (Float 200%float)
                      (init Sample.unit_catalog 0)))
              (Float 24%float) (Float 200%float) ControlType.V_BUS2
              ConverterMode.BUS1_TO_BUS2 eq_refl)
    as (mode_msg & ctl_msg & mode_payload & ctl_payload & raw
        & Hm & Hme & Hc & Hce & Hs & Hv & _).
  assert (Ok raw = Ok 240) as [= ->].
  { rewrite <- Hv by (apply list_elem_of_In; simpl; tauto). reflexivity. }
  assert (Some mode_msg = Some (Sample.catalog_message 2149580800
            "DCDC_ModeRequest" ["converterModeReq"; "controlTypeReq"]))
    as [= ->] by (rewrite <- Hm; reflexivity).
  assert (Some ctl_msg = Some (Sample.catalog_message 2148532224
            "DCDC_ControlRequest"
            ["startCommand"; "setpointReq"; "currentLimitReq"]))
    as [= ->] by (rewrite <- Hc; reflexivity).
  assert (Ok mode_payload = Ok ["001"; "000"; "001"; "000"]%byte)
    as [= ->] by (rewrite <- Hme; vm_compute; reflexivity).
  assert (Ok ctl_payload
          = Ok ["001"; "000"; "240"; "000"; "200"; "000"]%byte)
    as [= ->] by (rewrite <- Hce; vm_compute; reflexivity).
  exact Hs.
Defined.





(** C8.  A received frame whose identifier the catalog does not know, or
    whose payload fails to decode, is passed over: the pass for it does not
    raise and leaves the caches, and everything else, as they were.  The
    outcome of a whole call is the same as if the frame had not arrived. *)
Theorem C8_unknown_frame_skipped
    (st : controller) (msg : Can.frame)
    (before after : list (option Can.frame)) :
  unknown_or_undecodable (db st) msg ->
  (forall decoded_messages,
     receive_one msg decoded_messages st = (Ok decoded_messages, st))
  /\ receive_messages [Some msg] st = (Ok [], st)
  /\ receive_messages (before ++ Some msg :: after) st
     = receive_messages (before ++ after) st.
Proof.
  intros Hskip.
  assert (forall s acc, db s = db st -> receive_one msg acc s = (Ok acc, s))
    as Hone.
  { intros s acc Hdb. unfold unknown_or_undecodable in Hskip.
    unfold receive_one. rewrite Hdb.
    destruct (Cantools.get_message_by_frame_id _ _); [|reflexivity].
    now rewrite Hskip. }
  split; [|split].
  - intros acc. now apply Hone.
  - unfold receive_messages. simpl. unfold bind. now rewrite Hone.
  - unfold receive_messages. rewrite !receive_loop_app.
    destruct (receive_loop before [] st) as [[acc1|e] st1] eqn:Hb;
      [|reflexivity].
    simpl. unfold bind. rewrite Hone; [reflexivity|].
    now apply receive_loop_db in Hb.
Qed.

(** A frame with an identifier that is not in the sample catalog, between
    two frames that are. *)
Lemma C8_witness :
  receive_messages
    [Some (Sample.received 2164260864 ["001"; "000"; "002"; "000"]%byte);
     Some (Sample.received 291 ["255"]%byte);
     Some (Sample.received 2166358016 ["007"; "000"]%byte)]
    (init Sample.unit_catalog 0)
  = receive_messages
      [Some (Sample.received 2164260864 ["001"; "000"; "002"; "000"]%byte);
       Some (Sample.received 2166358016 ["007"; "000"]%byte)]
      (init Sample.unit_catalog 0).
Proof.
  exact (proj2 (proj2 (C8_unknown_frame_skipped (init Sample.unit_catalog 0)
    (Sample.received 291 ["255"]%byte)
    [Some (Sample.received 2164260864 ["001"; "000"; "002"; "000"]%byte)]
    [Some (Sample.received 2166358016 ["007"; "000"]%byte)] I))).
Defined.

(** C9.  A frame that the catalog knows and decodes is appended to the
    returned list and filed by its message name: the category whose
    substring the name contains (the first one in the order of the checks,
    none if the name contains none of the eight) takes the decoded record,
    or its [warnings] entry for the warnings; every other category, the
    frames sent and the catalog stay as they were. *)
Theorem C9_decoded_frame_files_one_category
    (st : controller) (msg : Can.frame) (db_msg : Cantools.Message)
    (decoded : signal_values) (decoded_messages : list decoded_message) :
  Cantools.get_message_by_frame_id (db st) (Can.arbitration_id msg)
    = Some db_msg ->
  Cantools.decode db_msg (Can.data msg) = Ok decoded ->
  exists st',
    receive_one msg decoded_messages st
    = (Ok (decoded_messages
           ++ [{| entry_name := Cantools.name db_msg; entry_data := decoded |}]),
       st')
    /\ (forall c, classify (Cantools.name db_msg) = Some c ->
                  read c st' = filed c decoded)
    /\ (forall c, classify (Cantools.name db_msg) <> Some c ->
                  read c st' = read c st)
    /\ sent st' = sent st /\ db st' = db st.
Proof.
  intros Hm Hd. exists (store (Cantools.name db_msg) decoded st).
  split; [unfold receive_one; now rewrite Hm, Hd|].
  split; [|split; [|split; apply store_keeps]].
  - intros c. unfold classify, store.
    repeat (destruct (Py.contains _ (Cantools.name db_msg));
            [intros [= <-]; simpl; now rewrite ?lookup_insert_eq|]).
    discriminate.
  - intros c. unfold classify, store.
    repeat (destruct (Py.contains _ (Cantools.name db_msg));
            [intros Hc; destruct c; simpl; try congruence;
             now rewrite lookup_insert_ne|]).
    reflexivity.
Qed.

(** A voltage frame of the sample catalog: the voltage record is set, the
    errors keep their initial value. *)
Lemma C9_witness :
  exists st',
    receive_one (Sample.received 2164260864 ["001"; "000"; "002"; "000"]%byte) []
      (init Sample.unit_catalog 0)
    = (Ok [{| entry_name := "DCDC_VoltageMeasures";
              entry_data := <["vBus1" := Int 1]> (<["vBus2" := Int 2]> ∅) |}],
       st')
    /\ read Voltage st'
       = Record_ (<["vBus1" := Int 1]> (<["vBus2" := Int 2]> ∅))
    /\ read Errors st' = read Errors (init Sample.unit_catalog 0).
Proof.
  destruct (C9_decoded_frame_files_one_category (init Sample.unit_catalog 0)
              (Sample.received 2164260864 ["001"; "000"; "002"; "000"]%byte)
              (Sample.catalog_message 2164260864 "DCDC_VoltageMeasures" ["vBus1"; "vBus2"])
              (<["vBus1" := Int 1]> (<["vBus2" := Int 2]> ∅)) []
              eq_refl eq_refl)
    as (st' & Hone & Hfiled & Hother & _).
  exists st'. split; [exact Hone|]. split.
  - exact (Hfiled Voltage eq_refl).
  - apply Hother. discriminate.
Defined.

End ControllerClaims.

Module HandlerClaims.

Import CanHandler.

Example format_X_examples :
  format_X 419385573 = "18FF50E5" /\ format_X 0 = "0" /\ format_X 255 = "FF".
Proof. repeat split; reflexivity. Qed.

Example bytes_hex_example :
  bytes_hex ["000"; "010"; "255"]%byte = "000aff".
Proof. reflexivity. Qed.

(** C10.  On a connected handler, a received frame whose identifier is not
    in the loaded catalog, or any frame when no catalog is loaded, is
    returned as a record named by [0x] and the hexadecimal digits of the
    identifier, with empty decoded data; the method returns [None] exactly
    when no frame arrived within the timeout. *)
Theorem C10_unlisted_frame_named_in_hex (h : handler) (message : Can.frame) :
  connected h = true ->
  (db h = None
   \/ exists catalog,
        db h = Some catalog
        /\ Cantools.get_message_by_frame_id catalog (Can.arbitration_id message)
           = None) ->
  receive_message h (Some message)
  = Ok (Some {| can_id := Can.arbitration_id message;
                name := "0x" +:+ format_X (Can.arbitration_id message);
                data := ∅;
                data_hex := bytes_hex (Can.data message);
                timestamp := Can.timestamp message |})
  /\ forall polled, receive_message h polled = Ok None <-> polled = None.
Proof.
  intros Hconn Hdb. split.
  - unfold receive_message. rewrite Hconn. simpl.
    destruct Hdb as [-> | (catalog & -> & ->)]; reflexivity.
  - intros polled. unfold receive_message. rewrite Hconn. simpl.
    destruct polled; split; congruence.
Qed.

Lemma C10_witness :
  receive_message {| connected := true; db := Some Sample.unit_catalog |}
    (Some (Sample.received 419385573 ["001"; "002"]%byte))
  = Ok (Some {| can_id := 419385573; name := "0x18FF50E5"; data := ∅;
                data_hex := "0102"; timestamp := 0%float |}).
Proof.
  exact (proj1 (C10_unlisted_frame_named_in_hex
    {| connected := true; db := Some Sample.unit_catalog |}
    (Sample.received 419385573 ["001"; "002"]%byte) eq_refl
    (or_intror (ex_intro _ Sample.unit_catalog (conj eq_refl eq_refl))))).
Defined.

End HandlerClaims.
(** * The claims about the expansion of a catalog *)

Module ExpandClaims.

Import Py ExpandDbc LoopFacts ExpandFacts CatalogText CopyFacts MetadataFacts.

(** The output around one message of a catalog with unique identifiers: the
    copies if the message involves the converter, the message as it was
    otherwise. *)
Lemma expand_around_message (num_units : Z) (before : list string)
    (ln : string) (sigs after : list string) (cid : Z) (nm d snd : string)
    (msgs : list message) (out : list string) :
  startswith ln "BO_ " = true -> bo_fields ln = Ok (cid, nm, d, snd) ->
  Forall (fun l => is_signal_line l = true) sigs -> starts_plain after ->
  parse_messages (before ++ ln :: sigs ++ after) = Ok msgs ->
  NoDup (can_id <$> msgs) ->
  expand_dbc_for_multiple_units (before ++ ln :: sigs ++ after) num_units
    = Ok out ->
  exists o1 o2,
    expand_loop msgs num_units 0 before = Ok o1 /\
    expand_loop msgs num_units 0 after = Ok o2 /\
    out = o1
          ++ (if involves_dcdc snd nm
              then concat (copy_block cid nm d snd sigs <$> range num_units)
              else ln :: sigs)
          ++ o2.
Proof.
  intros Hbo Hf Hs Ha Hparse Hnd H.
  unfold expand_dbc_for_multiple_units in H. rewrite Hparse in H. simpl in H.
  destruct (expand_at_message _ _ _ _ _ _ _ _ _ _ _ Hbo Hf Hs Ha H)
    as (o1 & o2 & H1 & H2 & ->).
  exists o1, o2. split; [assumption|]. split; [assumption|].
  destruct (parse_at_message _ _ _ _ _ _ _ _ _ Hbo Hf Hs Ha Hparse)
    as (m1 & m2 & _ & _ & Hmsgs).
  set (m := {| can_id := cid; name := nm; dlc := d; sender := snd;
               signals := sigs; line := ln |}) in *.
  assert (find_message msgs cid = Some m) as ->.
  { apply (find_message_unique msgs m Hnd). rewrite Hmsgs.
    apply in_or_app. right. now left. }
  now rewrite unit_blocks_copies.
Qed.

(** C4 (amended).  For a message whose sender contains [DCDC_Primary] or
    whose name contains [DCDC], in a catalog with unique identifiers, the
    output holds, where the message stood, one copy per unit index [k] in
    [0..N-1], in this order.  Copy [k] is the definition line with
    identifier [base + k], the name with [_k] appended for [k > 0], and the
    sender; then the signal lines; then an empty line.  Copy 0 has the
    sender and the signal lines as they were.  In copy [k > 0] every
    occurrence of the text [DCDC_Primary] in the sender and in the signal
    lines is replaced by [DCDC_Primary_k]: the sender [DCDC_Primary]
    becomes [DCDC_Primary_k], a sender or a signal line without that text
    is left as it was. *)
Theorem C4_message_copies (num_units : Z) (before : list string)
    (ln : string) (sigs after : list string) (cid : Z) (nm d snd : string)
    (msgs : list message) (out : list string) :
  startswith ln "BO_ " = true -> bo_fields ln = Ok (cid, nm, d, snd) ->
  involves_dcdc snd nm = true ->
  Forall (fun l => is_signal_line l = true) sigs -> starts_plain after ->
  parse_messages (before ++ ln :: sigs ++ after) = Ok msgs ->
  NoDup (can_id <$> msgs) ->
  expand_dbc_for_multiple_units (before ++ ln :: sigs ++ after) num_units
    = Ok out ->
  (exists o1 o2,
     expand_loop msgs num_units 0 before = Ok o1 /\
     expand_loop msgs num_units 0 after = Ok o2 /\
     out = o1 ++ concat (copy_block cid nm d snd sigs <$> range num_units) ++ o2)
  /\ copy_block cid nm d snd sigs 0
     = definition_line cid nm d snd :: sigs ++ [LF]
  /\ (forall k, k <> 0 ->
        copy_suffix k = "_" +:+ str_of_int k
        /\ renamed "DCDC_Primary" k = "DCDC_Primary" +:+ "_" +:+ str_of_int k)
  /\ (forall text k, contains "DCDC_Primary" text = false ->
        renamed text k = text).
Proof.
  intros Hbo Hf Hinv Hs Ha Hparse Hnd H.
  split; [|split; [|split]].
  - destruct (expand_around_message _ _ _ _ _ _ _ _ _ _ _
                Hbo Hf Hs Ha Hparse Hnd H) as (o1 & o2 & H1 & H2 & ->).
    rewrite Hinv. now exists o1, o2.
  - unfold copy_block, copy_suffix, renamed. simpl.
    rewrite Z.add_0_r, str_app_nil_r. f_equal. f_equal.
    apply list_fmap_id.
  - intros k Hk. split; [|now apply renamed_subject].
    unfold copy_suffix. now destruct (Z.eqb_spec k 0).
  - intros text k. apply renamed_absent.
Qed.


(** The hypotheses of the statements about a message hold for the message
    [DCDC_Errors] of the sample catalog. *)
Lemma sample_unique_identifiers msgs :
  parse_messages SampleText.catalog = Ok msgs -> NoDup (can_id <$> msgs).
Proof.
  vm_compute. intros [= <-].
  refine (bool_decide_unpack _ _). vm_compute. exact I.
Qed.

(** The sample catalog for three units. *)
Lemma C4_witness :
  exists o1 o2 out,
    expand_dbc_for_multiple_units SampleText.catalog 3 = Ok out
    /\ out = o1
         ++ concat (copy_block 2164260865 "DCDC_Errors" "8" "DCDC_Primary"
                      SampleText.errors_signals <$> range 3)
         ++ o2.
Proof.
  destruct (parse_messages SampleText.catalog) as [msgs|e] eqn:Hparse;
    [|vm_compute in Hparse; discriminate].
  destruct (expand_dbc_for_multiple_units SampleText.catalog 3) as [out|e]
    eqn:Hout; [|vm_compute in Hout; discriminate].
  destruct (C4_message_copies 3 SampleText.before SampleText.errors_line
              SampleText.errors_signals SampleText.after
              2164260865 "DCDC_Errors" "8" "DCDC_Primary" msgs out)
    as [(o1 & o2 & _ & _ & Heq) _].
  - reflexivity.
  - reflexivity.
  - reflexivity.
  - repeat constructor.
  - reflexivity.
  - exact Hparse.
  - exact (sample_unique_identifiers msgs Hparse).
  - exact Hout.
  - exists o1, o2, out. split; [reflexivity | exact Heq].
Defined.

(** C4 as stated fails for a message of the converter that the supervisor
    sends.  It is copied for every unit, and the sender of copy 1, the one
    message of the output with the identifier [base + 1], is the sender as
    it was, not the sender with [_1] appended. *)
Lemma C4_counterexample :
  exists m out copies,
    parse_messages SampleText.request_catalog = Ok [m]
    /\ sender m = "SUPERVISER"
    /\ involves_dcdc (sender m) (name m) = true
    /\ expand_dbc_for_multiple_units SampleText.request_catalog 2 = Ok out
    /\ parse_messages out = Ok copies
    /\ sender <$> List.filter (fun c => can_id c =? can_id m + 1) copies
       = ["SUPERVISER"]
    /\ sender_with_suffix (sender m) 1 = "SUPERVISER_1"
    /\ sender <$> List.filter (fun c => can_id c =? can_id m + 1) copies
       <> [sender_with_suffix (sender m) 1].
Proof.
  exists (value_of {| can_id := 0; name := EmptyString; dlc := EmptyString;
                      sender := EmptyString; signals := []; line := EmptyString |}
            (rbind (parse_messages SampleText.request_catalog)
               (fun ms => index ms 0))),
         (value_of [] (expand_dbc_for_multiple_units
                         SampleText.request_catalog 2)),
         (value_of [] (rbind (expand_dbc_for_multiple_units
                                SampleText.request_catalog 2)
                         parse_messages)).
  repeat (apply conj; [vm_compute; reflexivity|]).
  vm_compute. discriminate.
Qed.

(** C5 (amended).  With three units, in a catalog with unique identifiers:
    a message whose sender contains [DCDC_Primary] or whose name contains
    [DCDC] is replaced by three copies, whose definition lines, the only
    ones among the lines of the copies, carry the identifiers [base],
    [base + 1] and [base + 2]; a message whose sender does not contain
    [DCDC_Primary] and whose name does not contain [DCDC] stays where it
    was, once, with its signal lines, unchanged. *)
Theorem C5_three_definitions_or_one (before : list string)
    (ln : string) (sigs after : list string) (cid : Z) (nm d snd : string)
    (msgs : list message) (out : list string) :
  startswith ln "BO_ " = true -> bo_fields ln = Ok (cid, nm, d, snd) ->
  Forall (fun l => is_signal_line l = true) sigs -> starts_plain after ->
  parse_messages (before ++ ln :: sigs ++ after) = Ok msgs ->
  NoDup (can_id <$> msgs) ->
  expand_dbc_for_multiple_units (before ++ ln :: sigs ++ after) 3 = Ok out ->
  exists o1 o2 here,
    expand_loop msgs 3 0 before = Ok o1 /\
    expand_loop msgs 3 0 after = Ok o2 /\
    out = o1 ++ here ++ o2 /\
    (involves_dcdc snd nm = true ->
       here = copy_block cid nm d snd sigs 0 ++ copy_block cid nm d snd sigs 1
              ++ copy_block cid nm d snd sigs 2
       /\ message_definitions here
          = [ definition_line cid nm d snd;
              definition_line (cid + 1) (nm +:+ "_1") d (renamed snd 1);
              definition_line (cid + 2) (nm +:+ "_2") d (renamed snd 2) ]) /\
    (involves_dcdc snd nm = false ->
       here = ln :: sigs /\ message_definitions here = [ln]).
Proof.
  intros Hbo Hf Hs Ha Hparse Hnd H.
  destruct (expand_around_message _ _ _ _ _ _ _ _ _ _ _
              Hbo Hf Hs Ha Hparse Hnd H) as (o1 & o2 & H1 & H2 & ->).
  exists o1, o2. eexists. split; [exact H1|]. split; [exact H2|].
  split; [reflexivity|]. split; intros ->.
  - rewrite range_three.
    change (concat (copy_block cid nm d snd sigs <$> [0; 1; 2]))
      with (copy_block cid nm d snd sigs 0 ++ copy_block cid nm d snd sigs 1
            ++ copy_block cid nm d snd sigs 2 ++ []).
    rewrite app_nil_r. split; [reflexivity|].
    rewrite !message_definitions_app, !copy_block_definitions by assumption.
    change (copy_suffix 0) with EmptyString.
    change (renamed snd 0) with snd.
    now rewrite Z.add_0_r, str_app_nil_r.
  - split; [reflexivity|].
    change (ln :: sigs) with ([ln] ++ sigs).
    rewrite message_definitions_app, (signal_lines_no_definitions sigs)
      by assumption.
    unfold message_definitions. cbn [List.filter]. now rewrite Hbo.
Qed.

(** The sample catalog for three units: the message [DCDC_Errors] of the
    converter. *)
Lemma C5_witness :
  exists o1 o2 here out,
    expand_dbc_for_multiple_units SampleText.catalog 3 = Ok out
    /\ out = o1 ++ here ++ o2
    /\ message_definitions here
       = [ "BO_ 2164260865 DCDC_Errors: 8 DCDC_Primary" +:+ LF;
           "BO_ 2164260866 DCDC_Errors_1: 8 DCDC_Primary_1" +:+ LF;
           "BO_ 2164260867 DCDC_Errors_2: 8 DCDC_Primary_2" +:+ LF ].
Proof.
  destruct (parse_messages SampleText.catalog) as [msgs|e] eqn:Hparse;
    [|vm_compute in Hparse; discriminate].
  destruct (expand_dbc_for_multiple_units SampleText.catalog 3) as [out|e]
    eqn:Hout; [|vm_compute in Hout; discriminate].
  destruct (C5_three_definitions_or_one SampleText.before
              SampleText.errors_line SampleText.errors_signals
              SampleText.after 2164260865 "DCDC_Errors" "8" "DCDC_Primary"
              msgs out)
    as (o1 & o2 & here & _ & _ & Heq & Hyes & _).
  - reflexivity.
  - reflexivity.
  - repeat constructor.
  - reflexivity.
  - exact Hparse.
  - exact (sample_unique_identifiers msgs Hparse).
  - exact Hout.
  - exists o1, o2, here, out. split; [reflexivity|]. split; [exact Heq|].
    destruct (Hyes eq_refl) as [_ ->]. reflexivity.
Defined.

(** C5 as stated fails for a message that the supervisor sends and whose
    name contains [DCDC]: its sender is not the converter, yet the output
    holds three definitions of it, not one. *)
Lemma C5_counterexample :
  exists m out,
    parse_messages SampleText.request_catalog = Ok [m]
    /\ sender m = "SUPERVISER"
    /\ contains "DCDC_Primary" (sender m) = false
    /\ expand_dbc_for_multiple_units SampleText.request_catalog 3 = Ok out
    /\ message_definitions out
       = [ "BO_ 2148532224 DCDC_ControlRequest: 8 SUPERVISER" +:+ LF;
           "BO_ 2148532225 DCDC_ControlRequest_1: 8 SUPERVISER" +:+ LF;
           "BO_ 2148532226 DCDC_ControlRequest_2: 8 SUPERVISER" +:+ LF ]
    /\ length (message_definitions out) <> 1%nat.
Proof.
  exists (value_of {| can_id := 0; name := EmptyString; dlc := EmptyString;
                      sender := EmptyString; signals := []; line := EmptyString |}
            (rbind (parse_messages SampleText.request_catalog)
               (fun ms => index ms 0))),
         (value_of [] (expand_dbc_for_multiple_units
                         SampleText.request_catalog 3)).
  repeat (apply conj; [vm_compute; reflexivity|]).
  vm_compute. discriminate.
Qed.

(** The metadata lines keyed by a frame identifier.  For a message comment,
    a signal comment or a value table, and for a message attribute in
    which the identifier stands once as the text [BO_ id] in decimal: if
    the identifier is inside the range 2148532224..2305818624, the output
    holds, where the line stood, [N] lines, the one for [k] in [0..N-1]
    being the line for the identifier [id + k] with the rest of the text as
    it was; if the identifier is outside the range, the output holds the
    line itself there, once. *)
Lemma keyed_metadata_lines (num_units : Z) (before : list string)
    (ln : string) (after : list string) (cid : Z) (render : Z -> string)
    (out : list string) :
  keyed_line ln cid render ->
  expand_dbc_for_multiple_units (before ++ ln :: after) num_units = Ok out ->
  exists msgs o1 o2,
    parse_messages (before ++ ln :: after) = Ok msgs /\
    expand_loop msgs num_units 0 before = Ok o1 /\
    expand_loop msgs num_units 0 after = Ok o2 /\
    out = o1
          ++ (if in_dcdc_range cid
              then (fun k => render (cid + k)) <$> range num_units
              else [ln])
          ++ o2.
Proof.
  intros Hk H. unfold expand_dbc_for_multiple_units in H.
  apply rbind_Ok in H as (msgs & Hparse & H).
  destruct (keyed_line_kind _ _ _ Hk) as (H1 & H2 & H3 & H4 & H5 & Hsig).
  unfold expand_loop in *.
  apply (walk_at _ (expand_line_local msgs num_units)
           (expand_line_bounded msgs num_units)) in H
    as (o1 & mid & w & o2 & Ho1 & Hb & Ho2 & ->); [|exact Hsig].
  rewrite expand_line_metadata in Hb by assumption.
  rewrite (on_metadata_keyed _ _ _ _ Hk) in Hb. simpl in Hb.
  injection Hb as <- <-. now exists msgs, o1, o2.
Qed.

(** An attribute line of a converter message in the usual layout, for three
    units: the three lines carry the identifiers [id], [id + 1], [id + 2]. *)
Lemma keyed_attribute_sample :
  exists o1 o2 out,
    expand_dbc_for_multiple_units
      ([ "VERSION " +:+ DQ +:+ DQ +:+ LF ]
       ++ ("BA_ " +:+ DQ +:+ "GenMsgCycleTime" +:+ DQ
             +:+ " BO_ 2148532224 100;" +:+ LF)
       :: [ SampleText.message_comment ]) 3 = Ok out
    /\ out = o1
         ++ [ "BA_ " +:+ DQ +:+ "GenMsgCycleTime" +:+ DQ
                +:+ " BO_ 2148532224 100;" +:+ LF;
              "BA_ " +:+ DQ +:+ "GenMsgCycleTime" +:+ DQ
                +:+ " BO_ 2148532225 100;" +:+ LF;
              "BA_ " +:+ DQ +:+ "GenMsgCycleTime" +:+ DQ
                +:+ " BO_ 2148532226 100;" +:+ LF ]
         ++ o2.
Proof.
  destruct (expand_dbc_for_multiple_units
      ([ "VERSION " +:+ DQ +:+ DQ +:+ LF ]
       ++ ("BA_ " +:+ DQ +:+ "GenMsgCycleTime" +:+ DQ
             +:+ " BO_ 2148532224 100;" +:+ LF)
       :: [ SampleText.message_comment ]) 3) as [out|e] eqn:Hout;
    [|vm_compute in Hout; discriminate].
  destruct (keyed_metadata_lines 3 [ "VERSION " +:+ DQ +:+ DQ +:+ LF ]
              ("BA_ " +:+ DQ +:+ "GenMsgCycleTime" +:+ DQ
                 +:+ " BO_ 2148532224 100;" +:+ LF)
              [ SampleText.message_comment ] 2148532224
              (fun i => ("BA_ " +:+ DQ +:+ "GenMsgCycleTime" +:+ DQ +:+ " ")
                          +:+ ("BO_ " +:+ str_of_int i) +:+ (" 100;" +:+ LF))
              out)
    as (msgs & o1 & o2 & _ & _ & _ & Heq).
  - apply (keyed_message_attribute _
             ("BA_ " +:+ DQ +:+ "GenMsgCycleTime" +:+ DQ +:+ " ")
             (" 100;" +:+ LF)
             ["BA_"; DQ +:+ "GenMsgCycleTime" +:+ DQ] "2148532224" ["100;"]
             2148532224); try reflexivity.
    + intros [H|[H|[]]]; discriminate H.
    + intros [H|[]]; discriminate H.
  - exact Hout.
  - exists o1, o2, out. split; [reflexivity | exact Heq].
Qed.

(** The other three shapes, in the sample catalog: comments and value
    tables of a converter message come out once per unit, those of the
    heartbeat message once. *)
Example keyed_lines_sample :
  exists out o1,
    expand_dbc_for_multiple_units SampleText.catalog 2 = Ok out
    /\ out = o1 ++
       [ "CM_ BO_ 2148532224 " +:+ DQ +:+ "Control request" +:+ DQ +:+ ";" +:+ LF;
         "CM_ BO_ 2148532225 " +:+ DQ +:+ "Control request" +:+ DQ +:+ ";" +:+ LF;
         "CM_ SG_ 2148532224 startCommand " +:+ DQ +:+ "start" +:+ DQ +:+ ";" +:+ LF;
         "CM_ SG_ 2148532225 startCommand " +:+ DQ +:+ "start" +:+ DQ +:+ ";" +:+ LF;
         "CM_ BO_ 1792 " +:+ DQ +:+ "Heartbeat" +:+ DQ +:+ ";" +:+ LF;
         "BA_ " +:+ DQ +:+ "GenMsgCycleTime" +:+ DQ +:+ " BO_ 2148532224 100;" +:+ LF;
         "BA_ " +:+ DQ +:+ "GenMsgCycleTime" +:+ DQ +:+ " BO_ 2148532225 100;" +:+ LF;
         "BA_ " +:+ DQ +:+ "GenMsgCycleTime" +:+ DQ +:+ " BO_ 1792 1000;" +:+ LF;
         "VAL_ 2148532224 startCommand 1 " +:+ DQ +:+ "Start" +:+ DQ +:+ " 0 "
           +:+ DQ +:+ "Stop" +:+ DQ +:+ " ;" +:+ LF;
         "VAL_ 2148532225 startCommand 1 " +:+ DQ +:+ "Start" +:+ DQ +:+ " 0 "
           +:+ DQ +:+ "Stop" +:+ DQ +:+ " ;" +:+ LF;
         "VAL_ 1792 alive 1 " +:+ DQ +:+ "yes" +:+ DQ +:+ " ;" +:+ LF ].
Proof.
  eexists. exists (take 23 (match expand_dbc_for_multiple_units
                                   SampleText.catalog 2 with
                            | Ok o => o | Raise _ => [] end)).
  split; vm_compute; reflexivity.
Qed.

(** C6.  The claim asks that every attribute line keyed by a frame
    identifier inside the range comes out as [N] copies with the
    identifier shifted by [k].  The attribute branch recognises the line by
    its parts but rewrites it by replacing the text [BO_ id]: for a line in
    which two blanks stand between [BO_] and the identifier, the parts are
    [BO_] and an identifier inside the range, and the three lines written
    for three units are all the line as it was, the identifier not
    shifted. *)
Theorem C6_attribute_with_two_blanks_not_shifted :
  split None ("BA_ " +:+ DQ +:+ "GenMsgCycleTime" +:+ DQ
                +:+ " BO_  2148532224 100;" +:+ LF)
    = ["BA_"; DQ +:+ "GenMsgCycleTime" +:+ DQ; "BO_"; "2148532224"; "100;"]
  /\ int_of_str "2148532224" = Ok 2148532224
  /\ in_dcdc_range 2148532224 = true
  /\ expand_dbc_for_multiple_units
       [ "BA_ " +:+ DQ +:+ "GenMsgCycleTime" +:+ DQ
           +:+ " BO_  2148532224 100;" +:+ LF ] 3
     = Ok [ "BA_ " +:+ DQ +:+ "GenMsgCycleTime" +:+ DQ
              +:+ " BO_  2148532224 100;" +:+ LF;
            "BA_ " +:+ DQ +:+ "GenMsgCycleTime" +:+ DQ
              +:+ " BO_  2148532224 100;" +:+ LF;
            "BA_ " +:+ DQ +:+ "GenMsgCycleTime" +:+ DQ
              +:+ " BO_  2148532224 100;" +:+ LF ].
Proof. repeat split; reflexivity. Qed.

(** C7.  Whatever the number of units and whatever the node list of the
    input, the node list written is the fixed line that names the
    supervisor, the converter and the two synthetic nodes
    [DCDC_Primary_1] and [DCDC_Primary_2]. *)
Theorem C7_node_list_is_fixed (num_units : Z) (before : list string)
    (ln : string) (after : list string) (out : list string) :
  startswith ln "BU_:" = true ->
  expand_dbc_for_multiple_units (before ++ ln :: after) num_units = Ok out ->
  (exists msgs o1 o2,
     parse_messages (before ++ ln :: after) = Ok msgs /\
     expand_loop msgs num_units 0 before = Ok o1 /\
     expand_loop msgs num_units 0 after = Ok o2 /\
     out = o1 ++ [bu_line] ++ o2)
  /\ split None bu_line
     = ["BU_:"; "SUPERVISER"; "DCDC_Primary"; "DCDC_Primary_1";
        "DCDC_Primary_2"].
Proof.
  intros Hbu H. split; [|reflexivity].
  unfold expand_dbc_for_multiple_units in H.
  apply rbind_Ok in H as (msgs & Hparse & H).
  unfold expand_loop in *.
  apply (walk_at _ (expand_line_local msgs num_units)
           (expand_line_bounded msgs num_units)) in H
    as (o1 & mid & w & o2 & Ho1 & Hb & Ho2 & ->).
  - assert (expand_line msgs num_units ln after = Ok ([bu_line], 0%nat))
      as Hline.
    { unfold expand_line. rewrite Hbu.
      apply startswith_inv in Hbu as [t ->]. reflexivity. }
    rewrite Hline in Hb. injection Hb as <- <-.
    now exists msgs, o1, o2.
  - apply startswith_inv in Hbu as [t ->]. reflexivity.
Qed.

(** Four units: the messages of unit 3 are sent by [DCDC_Primary_3], a
    node the node list does not name. *)
Lemma C7_witness :
  exists o1 o2,
    expand_dbc_for_multiple_units
      ([] ++ ("BU_: SUPERVISER DCDC_Primary" +:+ LF)
          :: [SampleText.errors_line]) 4
    = Ok (o1 ++ [bu_line] ++ o2)
    /\ o2 = [ "BO_ 2164260865 DCDC_Errors: 8 DCDC_Primary" +:+ LF; LF;
              "BO_ 2164260866 DCDC_Errors_1: 8 DCDC_Primary_1" +:+ LF; LF;
              "BO_ 2164260867 DCDC_Errors_2: 8 DCDC_Primary_2" +:+ LF; LF;
              "BO_ 2164260868 DCDC_Errors_3: 8 DCDC_Primary_3" +:+ LF; LF ].
Proof.
  destruct (expand_dbc_for_multiple_units
              ([] ++ ("BU_: SUPERVISER DCDC_Primary" +:+ LF)
                  :: [SampleText.errors_line]) 4) as [out|e] eqn:Hout;
    [|vm_compute in Hout; discriminate].
  destruct (C7_node_list_is_fixed 4 []
              ("BU_: SUPERVISER DCDC_Primary" +:+ LF)
              [SampleText.errors_line] out eq_refl Hout)
    as [(msgs & o1 & o2 & Hparse & _ & Ho2 & Heq) _].
  exists o1, o2. split; [now rewrite Heq|].
  vm_compute in Hparse. injection Hparse as <-.
  vm_compute in Ho2. now injection Ho2 as <-.
Defined.

End ExpandClaims.

(** * Further properties of the controller *)

Module ControllerMore.

Import Controller ControllerOps Request Cache Calls ControllerFacts TextFacts.

Lemma after_sending_nil st : after_sending [] st = st.
Proof. destruct st. unfold after_sending. simpl. now rewrite List.app_nil_r. Qed.

Lemma after_sending_app new1 new2 st :
  after_sending new2 (after_sending new1 st) = after_sending (new1 ++ new2) st.
Proof. unfold after_sending. simpl. now rewrite List.app_assoc. Qed.

(** What a single request does, whatever its outcome. *)
Lemma request_outcome base values st :
  (exists e, request base values st = (Raise e, st))
  \/ exists message payload,
       Cantools.get_message_by_name (db st) (base +:+ dcdc_suffix st) = Some message
       /\ Cantools.encode message values = Ok payload
       /\ request base values st
          = (Ok tt, after_sending [frame_of message payload] st).
Proof.
  destruct (Cantools.get_message_by_name (db st) (base +:+ dcdc_suffix st))
    as [message|] eqn:Hm.
  2:{ left. exists KeyError. unfold request, bind, get_message. now rewrite Hm. }
  destruct (Cantools.encode message values) as [payload|e] eqn:Hp.
  2:{ left. exists e. unfold request, bind, get_message, lift.
      now rewrite Hm, Hp. }
  right. exists message, payload. repeat split; try assumption.
  unfold request, bind, get_message, lift. now rewrite Hm, Hp.
Qed.

Lemma set_setpoint_control setpoint current_limit :
  set_setpoint setpoint current_limit
  = control_request (Num.int setpoint) current_limit.
Proof. reflexivity. Qed.

Lemma start_converter_control setpoint control_type converter_mode
    current_limit :
  start_converter setpoint control_type converter_mode current_limit
  = bind (set_mode converter_mode control_type)
      (fun _ => control_request (setpoint_raw control_type setpoint)
                  current_limit).
Proof. reflexivity. Qed.

Lemma control_request_outcome raw_r current_limit st :
  (exists e, control_request raw_r current_limit st = (Raise e, st))
  \/ exists message payload raw,
       Cantools.get_message_by_name (db st)
         ("DCDC_ControlRequest" +:+ dcdc_suffix st) = Some message
       /\ raw_r = Ok raw
       /\ Cantools.encode message (control_values 1 raw current_limit)
          = Ok payload
       /\ control_request raw_r current_limit st
          = (Ok tt, after_sending [frame_of message payload] st).
Proof.
  destruct (Cantools.get_message_by_name (db st)
              ("DCDC_ControlRequest" +:+ dcdc_suffix st))
    as [message|] eqn:Hm.
  2:{ left. exists KeyError. unfold control_request, bind, get_message.
      now rewrite Hm. }
  destruct raw_r as [raw|e].
  2:{ left. exists e. unfold control_request, bind, get_message, lift.
      now rewrite Hm. }
  destruct (Cantools.encode message (control_values 1 raw current_limit))
    as [payload|e] eqn:Hp.
  2:{ left. exists e. unfold control_request, bind, get_message, lift.
      unfold control_values in Hp. now rewrite Hm, Hp. }
  right. exists message, payload, raw. repeat split; try assumption.
  unfold control_request, bind, get_message, lift.
  unfold control_values in Hp. now rewrite Hm, Hp.
Qed.

Lemma run_request op :
  (exists base values, In base request_names /\ run op = request base values)
  \/ (exists sp cl, op = Set_setpoint sp cl)
  \/ (exists sp ct cm cl, op = Start_converter sp ct cm cl).
Proof.
  destruct op;
    try (left; eexists _, _; (split; [|reflexivity]); simpl; tauto).
  - right. right. eauto.
  - right. left. eauto.
Qed.

Lemma frame_of_unit base message payload st :
  In base request_names ->
  Cantools.get_message_by_name (db st) (base +:+ dcdc_suffix st) = Some message ->
  request_frame_of_unit st (frame_of message payload).
Proof. intros Hb Hm. split; [reflexivity|]. now exists base, message. Qed.

(** What an operation leaves behind: the controller as it was but for the
    frames sent, which are requests of the unit; one that raises has sent
    nothing, or is a [start_converter] that sent its mode selection. *)
Lemma run_outcome op st :
  exists new,
    snd (run op st) = after_sending new st
    /\ Forall (request_frame_of_unit st) new
    /\ (length new <= 2)%nat
    /\ (forall e, fst (run op st) = Raise e ->
          new = []
          \/ exists sp ct cm cl mode_msg mode_payload,
               op = Start_converter sp ct cm cl
               /\ Cantools.get_message_by_name (db st)
                    ("DCDC_ModeRequest" +:+ dcdc_suffix st) = Some mode_msg
               /\ new = [frame_of mode_msg mode_payload]).
Proof.
  destruct (run_request op) as [(base & values & Hb & ->)
                               | [(sp & cl & ->) | (sp & ct & cm & cl & ->)]].
  - destruct (request_outcome base values st)
      as [[e ->] | (message & payload & Hm & _ & ->)].
    + exists []. rewrite after_sending_nil.
      split; [reflexivity|]. split; [constructor|]. split; [simpl; lia|].
      now left.
    + exists [frame_of message payload].
      split; [reflexivity|].
      split; [constructor; [now apply (frame_of_unit base)|constructor]|].
      split; [simpl; lia|]. discriminate.
  - simpl run. rewrite set_setpoint_control.
    destruct (control_request_outcome (Num.int sp) cl st)
      as [[e ->] | (message & payload & raw & Hm & _ & _ & ->)].
    + exists []. rewrite after_sending_nil.
      split; [reflexivity|]. split; [constructor|]. split; [simpl; lia|].
      now left.
    + exists [frame_of message payload].
      split; [reflexivity|].
      split; [constructor; [|constructor];
              apply (frame_of_unit "DCDC_ControlRequest"); [simpl; tauto|exact Hm]|].
      split; [simpl; lia|]. discriminate.
  - simpl run. rewrite start_converter_control, set_mode_request.
    destruct (request_outcome "DCDC_ModeRequest" (list_to_map
                [("converterModeReq", Int (ConverterMode.mode_value cm));
                 ("controlTypeReq", Int (ControlType.control_value ct))]) st)
      as [[e Hmode] | (mode_msg & mode_payload & Hm & _ & Hmode)].
    + rewrite (bind_raise _ _ _ _ _ Hmode).
      exists []. rewrite after_sending_nil.
      split; [reflexivity|]. split; [constructor|]. split; [simpl; lia|].
      now left.
    + rewrite (bind_step _ _ _ _ _ Hmode).
      set (st1 := after_sending [frame_of mode_msg mode_payload] st).
      assert (request_frame_of_unit st (frame_of mode_msg mode_payload)) as Hf1
        by (apply (frame_of_unit "DCDC_ModeRequest"); [simpl; tauto|exact Hm]).
      destruct (control_request_outcome (setpoint_raw ct sp) cl st1)
        as [[e ->] | (message & payload & raw & Hc & _ & _ & ->)].
      * exists [frame_of mode_msg mode_payload].
        split; [reflexivity|].
        split; [constructor; [exact Hf1|constructor]|].
        split; [simpl; lia|].
        intros _ _. right. now exists sp, ct, cm, cl, mode_msg, mode_payload.
      * exists [frame_of mode_msg mode_payload; frame_of message payload].
        split; [unfold st1; simpl snd; apply after_sending_app|].
        split.
        { constructor; [exact Hf1|]. constructor; [|constructor].
          apply (frame_of_unit "DCDC_ControlRequest"); [simpl; tauto|exact Hc]. }
        split; [simpl; lia|]. discriminate.
Qed.

(** X1.  No sending operation ([set_mode], [start_converter],
    [stop_converter], [set_setpoint], [reset_errors], [request_information],
    [enter_settings_mode], [exit_settings_mode]) touches what the controller
    has cached or its catalog and unit suffix, whether it returns or
    raises.  In particular [reset_errors] leaves the cached errors as they
    were. *)
Theorem sending_keeps_the_caches (op : operation) (st : controller) :
  let st' := snd (run op st) in
  measurements st' = measurements st
  /\ errors st' = errors st
  /\ warnings st' = warnings st
  /\ regulation_info st' = regulation_info st
  /\ control_info st' = control_info st
  /\ db st' = db st
  /\ dcdc_suffix st' = dcdc_suffix st
  /\ dcdc_id st' = dcdc_id st.
Proof.
  cbv zeta. destruct (run_outcome op st) as (new & -> & _).
  now repeat split.
Qed.

(** X2.  Whatever its outcome, an operation adds at most two frames to the
    bus and removes none, and every frame it adds is an extended frame
    carrying the identifier of a catalog message of the unit: one of the
    five request names followed by the suffix of the unit. *)
Theorem sent_frames_are_requests_of_the_unit (op : operation)
    (st : controller) :
  exists new,
    sent (snd (run op st)) = sent st ++ new
    /\ (length new <= 2)%nat
    /\ Forall (request_frame_of_unit st) new.
Proof.
  destruct (run_outcome op st) as (new & -> & Hnew & Hlen & _).
  now exists new.
Qed.

(** X3.  An operation that raises leaves the controller exactly as it was,
    with one exception: a [start_converter] whose control request fails
    after its mode selection went through has sent the mode-selection
    frame.  (The bus is taken to accept every frame handed to it: the
    exceptions are those of the catalog lookup, of the conversion of the
    setpoint and of the encoder.) *)
Theorem failed_operation_sends_nothing (op : operation) (st st' : controller)
    (e : exn) :
  run op st = (Raise e, st') ->
  st' = st
  \/ exists sp ct cm cl mode_msg mode_payload,
       op = Start_converter sp ct cm cl
       /\ Cantools.get_message_by_name (db st)
            ("DCDC_ModeRequest" +:+ dcdc_suffix st) = Some mode_msg
       /\ st' = after_sending [frame_of mode_msg mode_payload] st.
Proof.
  intros Hrun. destruct (run_outcome op st) as (new & Hst & _ & _ & Hraise).
  rewrite Hrun in Hst, Hraise. simpl in Hst. subst st'.
  destruct (Hraise e eq_refl)
    as [-> | (sp & ct & cm & cl & mode_msg & mode_payload & -> & Hm & ->)].
  - left. apply after_sending_nil.
  - right. now exists sp, ct, cm, cl, mode_msg, mode_payload.
Qed.

(** The sample catalog has no error-reset message: [reset_errors] raises
    and nothing has changed. *)
Lemma failed_operation_witness :
  init Sample.unit_catalog 0 = init Sample.unit_catalog 0
  \/ exists sp ct cm cl mode_msg mode_payload,
       Reset_errors = Start_converter sp ct cm cl
       /\ Cantools.get_message_by_name (db (init Sample.unit_catalog 0))
            ("DCDC_ModeRequest" +:+ dcdc_suffix (init Sample.unit_catalog 0))
          = Some mode_msg
       /\ init Sample.unit_catalog 0
          = after_sending [frame_of mode_msg mode_payload]
              (init Sample.unit_catalog 0).
Proof.
  exact (failed_operation_sends_nothing Reset_errors
           (init Sample.unit_catalog 0) (init Sample.unit_catalog 0)
           KeyError eq_refl).
Defined.

(** The exception is real: an infinite setpoint makes [start_converter]
    raise after its mode selection was sent. *)
Example start_converter_fails_after_mode_selection :
  let outcome :=
    run (Start_converter (Float infinity) ControlType.P_BUS2
           ConverterMode.BUS1_TO_BUS2 (Int 200)) (init Sample.unit_catalog 0) in
  fst outcome = Raise OverflowError
  /\ sent (snd outcome)
     = [{| Can.arbitration_id := 2149580800;
           Can.data := ["001"; "000"; "005"; "000"]%byte;
           Can.is_extended_id := true; Can.timestamp := 0%float |}].
Proof. split; vm_compute; reflexivity. Qed.

(** *** Receiving *)

Lemma store_read_filed msg_name decoded st c :
  classify msg_name = Some c -> read c (store msg_name decoded st) = filed c decoded.
Proof.
  unfold classify, store.
  repeat (destruct (Py.contains _ msg_name);
          [intros [= <-]; simpl; now rewrite ?lookup_insert_eq|]).
  discriminate.
Qed.

Lemma store_read_other msg_name decoded st c :
  classify msg_name <> Some c -> read c (store msg_name decoded st) = read c st.
Proof.
  unfold classify, store.
  repeat (destruct (Py.contains _ msg_name);
          [intros Hc; destruct c; simpl; try congruence;
           now rewrite lookup_insert_ne|]).
  reflexivity.
Qed.

Lemma after_pass_keeps polled st :
  db (after_pass polled st) = db st
  /\ sent (after_pass polled st) = sent st
  /\ dcdc_suffix (after_pass polled st) = dcdc_suffix st
  /\ dcdc_id (after_pass polled st) = dcdc_id st.
Proof.
  unfold after_pass. destruct (appended (db st) polled); [|now repeat split].
  apply store_keeps.
Qed.

Lemma after_passes_keeps polls st :
  db (after_passes polls st) = db st
  /\ sent (after_passes polls st) = sent st
  /\ dcdc_suffix (after_passes polls st) = dcdc_suffix st
  /\ dcdc_id (after_passes polls st) = dcdc_id st.
Proof.
  revert st. induction polls as [|p polls IH]; intros st; [now repeat split|].
  simpl. destruct (IH (after_pass p st)) as (-> & -> & -> & ->).
  apply after_pass_keeps.
Qed.

Lemma after_passes_app pre post st :
  after_passes (pre ++ post) st = after_passes post (after_passes pre st).
Proof. apply fold_left_app. Qed.

(** Whatever a pass does, it ends in the state [after_pass] or in the
    state it began in. *)
Lemma receive_one_pass msg acc st :
  escaping (db st) (Some msg) = None ->
  receive_one msg acc st
  = (Ok (acc ++ option_list (appended (db st) (Some msg))),
     after_pass (Some msg) st).
Proof.
  unfold escaping, receive_one, after_pass, appended.
  destruct (Cantools.get_message_by_frame_id _ _) as [db_msg|];
    [|now rewrite List.app_nil_r].
  destruct (Cantools.decode _ _) as [decoded|e]; [reflexivity|].
  destruct (swallowed e); [|discriminate].
  now rewrite List.app_nil_r.
Qed.

Lemma receive_one_escaping msg acc st e :
  escaping (db st) (Some msg) = Some e ->
  receive_one msg acc st = (Raise e, st).
Proof.
  unfold escaping, receive_one.
  destruct (Cantools.get_message_by_frame_id _ _) as [db_msg|];
    [|discriminate].
  destruct (Cantools.decode _ _) as [decoded|e']; [discriminate|].
  destruct (swallowed e'); [discriminate|]. now intros [= ->].
Qed.

Lemma receive_loop_passes polls acc st :
  Forall (fun polled => escaping (db st) polled = None) polls ->
  receive_loop polls acc st
  = (Ok (acc ++ omap (appended (db st)) polls), after_passes polls st).
Proof.
  revert acc st. induction polls as [|[msg|] polls IH]; intros acc st Hall.
  - simpl. now rewrite List.app_nil_r.
  - apply Forall_cons_1 in Hall as [Hmsg Hall].
    cbn [receive_loop]. rewrite (bind_step _ _ _ _ _ (receive_one_pass _ acc _ Hmsg)).
    assert (db (after_pass (Some msg) st) = db st) as Hdb
      by apply after_pass_keeps.
    rewrite IH by now rewrite Hdb.
    rewrite Hdb. cbn [after_passes fold_left omap list_omap].
    destruct (appended (db st) (Some msg)) as [entry|]; simpl.
    + now rewrite <- List.app_assoc.
    + now rewrite List.app_nil_r.
  - apply Forall_cons_1 in Hall as [_ Hall].
    cbn [receive_loop]. now rewrite IH.
Qed.

(** X4.  Receiving never puts a frame on the bus and never changes the
    catalog, the unit suffix or the unit number, however many frames
    arrive and whether the call returns or raises. *)
Theorem receiving_sends_nothing (polls : list (option Can.frame))
    (st : controller) :
  let st' := snd (receive_messages polls st) in
  sent st' = sent st /\ db st' = db st
  /\ dcdc_suffix st' = dcdc_suffix st /\ dcdc_id st' = dcdc_id st.
Proof.
  cbv zeta. unfold receive_messages. generalize (@nil decoded_message).
  revert st. induction polls as [|[msg|] polls IH]; intros st acc;
    [now repeat split| |apply IH].
  cbn [receive_loop]. unfold bind.
  destruct (escaping (db st) (Some msg)) as [e|] eqn:He.
  - rewrite (receive_one_escaping _ _ _ _ He). now repeat split.
  - rewrite (receive_one_pass _ _ _ He).
    destruct (IH (after_pass (Some msg) st)
                (acc ++ option_list (appended (db st) (Some msg))))
      as (-> & -> & -> & ->).
    destruct (after_pass_keeps (Some msg) st) as (-> & -> & -> & ->).
    now repeat split.
Qed.

(** X5.  When no frame makes the decoder raise an exception other than the
    two the loop swallows, [receive_messages] returns, and the list it
    returns holds one entry for each frame that the catalog knows and
    decodes, in the order of arrival, and nothing else; the caches are
    those obtained by filing these entries one after the other. *)
Theorem receive_messages_returns_the_decoded_frames
    (polls : list (option Can.frame)) (st : controller) :
  Forall (fun polled => escaping (db st) polled = None) polls ->
  receive_messages polls st
  = (Ok (omap (appended (db st)) polls), after_passes polls st).
Proof. intros Hall. unfold receive_messages. now rewrite receive_loop_passes. Qed.

(** A voltage frame, an empty pass, a frame the catalog does not know, a
    truncated voltage frame and a warnings frame: two entries. *)
Lemma receive_messages_returns_witness :
  fst (receive_messages
         [Some (Sample.received 2164260864 ["001"; "000"; "002"; "000"]%byte);
          None;
          Some (Sample.received 291 ["255"]%byte);
          Some (Sample.received 2164260864 ["001"]%byte);
          Some (Sample.received 2166358016 ["007"; "000"]%byte)]
         (init Sample.unit_catalog 0))
  = Ok [{| entry_name := "DCDC_VoltageMeasures";
           entry_data := <["vBus1" := Int 1]> (<["vBus2" := Int 2]> ∅) |};
        {| entry_name := "DCDC_Warnings";
           entry_data := <["warnings" := Int 7]> ∅ |}].
Proof.
  rewrite (receive_messages_returns_the_decoded_frames
    [Some (Sample.received 2164260864 ["001"; "000"; "002"; "000"]%byte);
     None;
     Some (Sample.received 291 ["255"]%byte);
     Some (Sample.received 2164260864 ["001"]%byte);
     Some (Sample.received 2166358016 ["007"; "000"]%byte)]
    (init Sample.unit_catalog 0)).
  - reflexivity.
  - repeat constructor.
Defined.

Lemma after_passes_read_other post st c :
  Forall (fun polled => category_of (db st) polled <> Some c) post ->
  read c (after_passes post st) = read c st.
Proof.
  revert st. induction post as [|p post IH]; intros st Hall; [reflexivity|].
  apply Forall_cons_1 in Hall as [Hp Hall]. simpl.
  assert (db (after_pass p st) = db st) as Hdb by apply after_pass_keeps.
  rewrite IH by now rewrite Hdb.
  unfold after_pass. unfold category_of in Hp.
  destruct (appended (db st) p) as [entry|]; [|reflexivity].
  now apply store_read_other.
Qed.

(** X6.  The cache of a category holds the latest frame of that category:
    after a call of [receive_messages] in which a frame of category [c] was
    decoded and no later frame of the call was of that category, the cache
    of [c] is what that frame files, whatever came before. *)
Theorem latest_frame_of_a_category_is_cached
    (pre post : list (option Can.frame)) (msg : Can.frame) (st : controller)
    (entry : decoded_message) (c : category) :
  Forall (fun polled => escaping (db st) polled = None)
    (pre ++ Some msg :: post) ->
  appended (db st) (Some msg) = Some entry ->
  classify (entry_name entry) = Some c ->
  Forall (fun polled => category_of (db st) polled <> Some c) post ->
  exists returned st',
    receive_messages (pre ++ Some msg :: post) st = (Ok returned, st')
    /\ read c st' = filed c (entry_data entry).
Proof.
  intros Hall Hentry Hc Hpost.
  eexists _, _. split.
  - unfold receive_messages. now apply receive_loop_passes.
  - rewrite after_passes_app. cbn [after_passes fold_left].
    fold (after_passes post (after_pass (Some msg) (after_passes pre st))).
    assert (db (after_passes pre st) = db st) as Hdb1
      by apply after_passes_keeps.
    assert (db (after_pass (Some msg) (after_passes pre st)) = db st) as Hdb2
      by (rewrite <- Hdb1; apply after_pass_keeps).
    rewrite after_passes_read_other by now rewrite Hdb2.
    unfold after_pass. rewrite Hdb1, Hentry.
    now apply store_read_filed.
Qed.

(** Two voltage frames and then a warnings frame: the voltage cache holds
    the second voltage frame. *)
Lemma latest_frame_witness :
  exists returned st',
    receive_messages
      ([Some (Sample.received 2164260864 ["001"; "000"; "002"; "000"]%byte)]
       ++ Some (Sample.received 2164260864 ["003"; "000"; "004"; "000"]%byte)
       :: [Some (Sample.received 2166358016 ["007"; "000"]%byte)])
      (init Sample.unit_catalog 0)
    = (Ok returned, st')
    /\ read Voltage st'
       = filed Voltage (<["vBus1" := Int 3]> (<["vBus2" := Int 4]> ∅)).
Proof.
  refine (latest_frame_of_a_category_is_cached
    [Some (Sample.received 2164260864 ["001"; "000"; "002"; "000"]%byte)]
    [Some (Sample.received 2166358016 ["007"; "000"]%byte)]
    (Sample.received 2164260864 ["003"; "000"; "004"; "000"]%byte)
    (init Sample.unit_catalog 0)
    {| entry_name := "DCDC_VoltageMeasures";
       entry_data := <["vBus1" := Int 3]> (<["vBus2" := Int 4]> ∅) |}
    Voltage _ _ _ _).
  - repeat constructor.
  - reflexivity.
  - reflexivity.
  - repeat constructor. vm_compute. discriminate.
Defined.

(** X7.  An exception of the decoder other than the two the loop swallows
    ends the call: [receive_messages] raises it, the frames that arrived
    before are filed, the entries collected so far are lost and no later
    frame is read. *)
Theorem other_exception_ends_receive_messages
    (pre post : list (option Can.frame)) (msg : Can.frame) (st : controller)
    (e : exn) :
  Forall (fun polled => escaping (db st) polled = None) pre ->
  escaping (db st) (Some msg) = Some e ->
  receive_messages (pre ++ Some msg :: post) st
  = (Raise e, after_passes pre st).
Proof.
  intros Hpre He. unfold receive_messages.
  rewrite receive_loop_app, (receive_loop_passes _ _ _ Hpre).
  cbn [receive_loop].
  apply bind_raise, receive_one_escaping.
  assert (db (after_passes pre st) = db st) as -> by apply after_passes_keeps.
  exact He.
Qed.

Lemma other_exception_witness :
  receive_messages
    ([Some (Sample.received 2164260864 ["001"; "000"; "002"; "000"]%byte)]
     ++ Some (Sample.received 2167406592 ["001"]%byte)
     :: [Some (Sample.received 2166358016 ["007"; "000"]%byte)])
    (init SampleMore.faulty_catalog 0)
  = (Raise ValueError,
     after_passes
       [Some (Sample.received 2164260864 ["001"; "000"; "002"; "000"]%byte)]
       (init SampleMore.faulty_catalog 0)).
Proof.
  apply (other_exception_ends_receive_messages
    [Some (Sample.received 2164260864 ["001"; "000"; "002"; "000"]%byte)]
    [Some (Sample.received 2166358016 ["007"; "000"]%byte)]
    (Sample.received 2167406592 ["001"]%byte)
    (init SampleMore.faulty_catalog 0) ValueError).
  - repeat constructor.
  - reflexivity.
Defined.

(** *** The unit suffix and the filing by name *)

Lemma store_unit_suffix base k decoded st :
  store (base +:+ ExpandDbc.unit_suffix k) decoded st = store base decoded st.
Proof.
  unfold store.
  now rewrite !contains_unit_suffix by (reflexivity || discriminate).
Qed.



(** X8.  The controller files a frame by the name of its catalog message
    without regard to the unit: a frame of the message [base_k] of any unit
    [k], as the multi-unit catalog names them, is filed exactly as a frame
    of [base] is, whatever the unit number of the controller.  On a bus
    shared by several units each controller therefore caches the frames of
    all of them, one over the other. *)
Theorem frames_of_any_unit_are_filed_alike
    (st : controller) (msg : Can.frame) (db_msg : Cantools.Message)
    (decoded : signal_values) (decoded_messages : list decoded_message)
    (base : string) (k : Z) :
  Cantools.get_message_by_frame_id (db st) (Can.arbitration_id msg)
    = Some db_msg ->
  Cantools.name db_msg = base +:+ ExpandDbc.unit_suffix k ->
  Cantools.decode db_msg (Can.data msg) = Ok decoded ->
  receive_one msg decoded_messages st
  = (Ok (decoded_messages
         ++ [{| entry_name := Cantools.name db_msg; entry_data := decoded |}]),
     store base decoded st).
Proof.
  intros Hm Hname Hd. unfold receive_one. rewrite Hm, Hd.
  now rewrite Hname, store_unit_suffix.
Qed.

(** The controller of unit 0 receives the voltage frame of unit 2. *)
Lemma frames_of_any_unit_witness :
  receive_one (Sample.received 2164260866 ["009"; "000"; "008"; "000"]%byte) []
    (init SampleMore.three_units 0)
  = (Ok ([] ++ [{| entry_name := "DCDC_VoltageMeasures_2";
                   entry_data := <["vBus1" := Int 9]> (<["vBus2" := Int 8]> ∅) |}]),
     store "DCDC_VoltageMeasures"
       (<["vBus1" := Int 9]> (<["vBus2" := Int 8]> ∅))
       (init SampleMore.three_units 0)).
Proof.
  exact (frames_of_any_unit_are_filed_alike (init SampleMore.three_units 0)
    (Sample.received 2164260866 ["009"; "000"; "008"; "000"]%byte)
    (Sample.catalog_message 2164260866 "DCDC_VoltageMeasures_2" ["vBus1"; "vBus2"])
    (<["vBus1" := Int 9]> (<["vBus2" := Int 8]> ∅)) []
    "DCDC_VoltageMeasures" 2 eq_refl eq_refl eq_refl).
Defined.

(** *** The accessors *)

Lemma get_measurements_insert key decoded st :
  In key ["voltage"; "current"; "power"; "temperature"] ->
  get_measurements
    {| dcdc_id := dcdc_id st; dcdc_suffix := dcdc_suffix st; db := db st;
       sent := sent st;
       measurements := <[key := decoded]> (measurements st);
       errors := errors st; warnings := warnings st;
       regulation_info := regulation_info st;
       control_info := control_info st |}
  = <[key := decoded]> (get_measurements st).
Proof.
  intros Hkey. unfold get_measurements. cbn [measurements list_to_map foldr].
  cbn [fst snd].
  destruct Hkey as [<-|[<-|[<-|[<-|[]]]]];
    rewrite lookup_insert_eq, !lookup_insert_ne by discriminate;
    cbn [default].
  - now rewrite insert_insert_eq.
  - rewrite (insert_insert_ne _ "current" "voltage") by discriminate.
    now rewrite insert_insert_eq.
  - rewrite (insert_insert_ne _ "power" "voltage") by discriminate.
    rewrite (insert_insert_ne _ "power" "current") by discriminate.
    now rewrite insert_insert_eq.
  - rewrite (insert_insert_ne _ "temperature" "voltage") by discriminate.
    rewrite (insert_insert_ne _ "temperature" "current") by discriminate.
    rewrite (insert_insert_ne _ "temperature" "power") by discriminate.
    now rewrite insert_insert_eq.
Qed.

(** X9.  What [get_measurements] returns after a frame was received and
    decoded: when the name of the message puts it into one of the four
    measurement categories, the entry of that category is the decoded
    record and the three other entries are as before; a frame of any other
    category, or of none, leaves all four entries as they were. *)
Theorem get_measurements_after_a_frame
    (st : controller) (msg : Can.frame) (db_msg : Cantools.Message)
    (decoded : signal_values) (decoded_messages : list decoded_message) :
  Cantools.get_message_by_frame_id (db st) (Can.arbitration_id msg)
    = Some db_msg ->
  Cantools.decode db_msg (Can.data msg) = Ok decoded ->
  get_measurements (snd (receive_one msg decoded_messages st))
  = match classify (Cantools.name db_msg) ≫= measurement_key with
    | Some key => <[key := decoded]> (get_measurements st)
    | None => get_measurements st
    end.
Proof.
  intros Hm Hd. unfold receive_one. rewrite Hm, Hd. cbn [snd].
  unfold classify, store.
  destruct (Py.contains "CurrentMeasures" (Cantools.name db_msg));
    [apply get_measurements_insert; simpl; tauto|].
  destruct (Py.contains "VoltageMeasures" (Cantools.name db_msg));
    [apply get_measurements_insert; simpl; tauto|].
  destruct (Py.contains "PowerMeasures" (Cantools.name db_msg));
    [apply get_measurements_insert; simpl; tauto|].
  destruct (Py.contains "TemperatureMeasures" (Cantools.name db_msg));
    [apply get_measurements_insert; simpl; tauto|].
  repeat (destruct (Py.contains _ (Cantools.name db_msg)); [reflexivity|]).
  reflexivity.
Qed.

(** A voltage frame of the sample catalog, on a fresh controller. *)
Lemma get_measurements_witness :
  get_measurements
    (snd (receive_one
            (Sample.received 2164260864 ["001"; "000"; "002"; "000"]%byte) []
            (init Sample.unit_catalog 0)))
  = <["voltage" := <["vBus1" := Int 1]> (<["vBus2" := Int 2]> ∅)]>
      (get_measurements (init Sample.unit_catalog 0)).
Proof.
  exact (get_measurements_after_a_frame (init Sample.unit_catalog 0)
    (Sample.received 2164260864 ["001"; "000"; "002"; "000"]%byte)
    (Sample.catalog_message 2164260864 "DCDC_VoltageMeasures" ["vBus1"; "vBus2"])
    (<["vBus1" := Int 1]> (<["vBus2" := Int 2]> ∅)) [] eq_refl eq_refl).
Defined.

(** *** Starting and updating *)





(** *** Units *)

(** X24.  Two controllers on one catalog ask for the same message names
    exactly when their unit numbers are equal or are both zero or
    negative: the controllers of different units above zero never address
    each other's messages, and a negative unit number addresses the
    messages of unit 0. *)
Theorem units_address_distinct_names (catalog : Cantools.database)
    (i j : Z) (base : string) :
  base +:+ dcdc_suffix (init catalog i) = base +:+ dcdc_suffix (init catalog j)
  <-> i = j \/ (i <= 0 /\ j <= 0).
Proof.
  cbn [init dcdc_suffix]. split.
  - intros H. apply (inj (String.app base)) in H.
    destruct (Z.ltb_spec 0 i), (Z.ltb_spec 0 j); try discriminate; [|lia].
    left. apply (inj (String.app "_")) in H. unfold Py.str_of_int in H.
    now apply (inj pretty) in H.
  - intros [-> | [Hi Hj]]; [reflexivity|].
    destruct (Z.ltb_spec 0 i), (Z.ltb_spec 0 j); try lia. reflexivity.
Qed.

End ControllerMore.

(** * Further properties of the bus handler and of the monitor *)

Module HandlerMore.

Import CanHandler HandlerOps.

(** X11.  On a connected handler [receive_message] never raises on a
    frame: it returns a record with the identifier, the payload in
    hexadecimal and the timestamp of the frame.  For a frame the catalog
    lists, the record has the name of the catalog message, and its data is
    the decoded record, or is empty when the decoder raises, whatever the
    exception. *)
Theorem received_record_carries_the_frame (h : handler) (message : Can.frame) :
  connected h = true ->
  exists r,
    receive_message h (Some message) = Ok (Some r)
    /\ can_id r = Can.arbitration_id message
    /\ data_hex r = bytes_hex (Can.data message)
    /\ timestamp r = Can.timestamp message
    /\ forall catalog db_message,
         db h = Some catalog ->
         Cantools.get_message_by_frame_id catalog (Can.arbitration_id message)
           = Some db_message ->
         name r = Cantools.name db_message
         /\ data r = match Cantools.decode db_message (Can.data message) with
                     | Ok decoded => decoded
                     | Raise _ => ∅
                     end.
Proof.
  intros Hconn. unfold receive_message. rewrite Hconn. cbn [negb].
  eexists. split; [reflexivity|]. cbn [can_id data_hex timestamp name data].
  split; [reflexivity|]. split; [reflexivity|]. split; [reflexivity|].
  intros catalog db_message Hdb Hm. rewrite Hdb, Hm.
  now destruct (Cantools.decode _ _).
Qed.

(** A truncated voltage frame of the sample catalog. *)
Lemma received_record_witness :
  exists r,
    receive_message {| connected := true; db := Some Sample.unit_catalog |}
      (Some (Sample.received 2164260864 ["001"]%byte))
    = Ok (Some r)
    /\ name r = "DCDC_VoltageMeasures" /\ data r = ∅.
Proof.
  destruct (received_record_carries_the_frame
              {| connected := true; db := Some Sample.unit_catalog |}
              (Sample.received 2164260864 ["001"]%byte) eq_refl)
    as (r & Hr & _ & _ & _ & Hlisted).
  exists r. split; [exact Hr|].
  exact (Hlisted Sample.unit_catalog
           (Sample.catalog_message 2164260864 "DCDC_VoltageMeasures"
              ["vBus1"; "vBus2"]) eq_refl eq_refl).
Defined.

(** X12.  [encode_message] raises nothing but [ValueError]: with no
    catalog loaded, for a name the catalog does not have, and for every
    exception of the encoder.  When it returns, the payload is the one the
    encoder of the catalog message of that name gives. *)
Theorem encode_message_raises_only_ValueError (h : handler)
    (message_name : string) (values : signal_values) :
  match encode_message h message_name values with
  | Ok payload =>
      exists catalog message,
        db h = Some catalog
        /\ Cantools.get_message_by_name catalog message_name = Some message
        /\ Cantools.encode message values = Ok payload
  | Raise e => e = ValueError
  end.
Proof.
  unfold encode_message. destruct (db h) as [catalog|]; [|reflexivity].
  destruct (Cantools.get_message_by_name catalog message_name)
    as [message|] eqn:Hm; [|reflexivity].
  destruct (Cantools.encode message values) as [payload|e] eqn:Hp;
    [|reflexivity].
  now exists catalog, message.
Qed.

(** X25.  The handler and the controller agree on a frame: with the same
    catalog, an entry the controller appends to its list for a frame has
    the name and the data of the record the handler returns for that
    frame; and whenever the controller appends nothing for the frame, or
    raises, the record of the handler has empty data. *)
Theorem handler_and_controller_agree
    (h : handler) (st : Controller.controller) (frame : Can.frame)
    (decoded_messages : list Controller.decoded_message) :
  connected h = true ->
  db h = Some (Controller.db st) ->
  exists r,
    receive_message h (Some frame) = Ok (Some r)
    /\ match fst (Controller.receive_one frame decoded_messages st) with
       | Ok returned =>
           returned
           = decoded_messages
             ++ [{| Controller.entry_name := name r;
                    Controller.entry_data := data r |}]
           \/ (returned = decoded_messages /\ data r = ∅)
       | Raise _ => data r = ∅
       end.
Proof.
  intros Hconn Hdb. unfold receive_message, Controller.receive_one.
  rewrite Hconn, Hdb. cbn [negb]. eexists. split; [reflexivity|].
  cbn [name data].
  destruct (Cantools.get_message_by_frame_id _ _) as [db_message|];
    [|now right].
  destruct (Cantools.decode db_message _) as [decoded|e]; [now left|].
  destruct (Controller.swallowed e); [now right|reflexivity].
Qed.

(** A voltage frame of the sample catalog, for both. *)
Lemma handler_and_controller_witness :
  exists r,
    receive_message {| connected := true; db := Some Sample.unit_catalog |}
      (Some (Sample.received 2164260864 ["001"; "000"; "002"; "000"]%byte))
    = Ok (Some r)
    /\ fst (Controller.receive_one
              (Sample.received 2164260864 ["001"; "000"; "002"; "000"]%byte)
              [] (Controller.init Sample.unit_catalog 0))
       = Ok [{| Controller.entry_name := name r;
                Controller.entry_data := data r |}].
Proof.
  destruct (handler_and_controller_agree
              {| connected := true; db := Some Sample.unit_catalog |}
              (Controller.init Sample.unit_catalog 0)
              (Sample.received 2164260864 ["001"; "000"; "002"; "000"]%byte)
              [] eq_refl eq_refl) as (r & Hr & _).
  exists r. split; [exact Hr|].
  injection Hr as <-. reflexivity.
Defined.

End HandlerMore.

Module MonitorMore.

Import CanHandler Monitor.

Lemma identify_converter_inv (cid : Z) (converter : string) :
  identify_converter cid = Some converter ->
  exists base k,
    In base base_ids /\ 0 <= k <= 2 /\ cid = base + k
    /\ converter = "DCDC_Primary" +:+ ExpandDbc.unit_suffix k.
Proof.
  unfold identify_converter, base_ids, identify_loop.
  repeat match goal with
         | |- context [?a =? ?b] =>
             destruct (Z.eqb_spec a b) as [->|_]
         end;
    try discriminate; intros [= <-];
    match goal with
    | |- context [?b + 1 = _] => exists b, 1
    | |- context [?b + 2 = _] => exists b, 2
    | |- context [?b = _] => exists b, 0
    end;
    (split; [simpl; tauto|]); (split; [lia|]); split; reflexivity.
Qed.

(** X13.  [identify_converter] names the unit [k] exactly for the
    identifiers [base + k] with [base] one of the three base identifiers of
    its table and [k] from 0 to 2, the name being [DCDC_Primary] with the
    unit suffix of the multi-unit catalog; every other identifier belongs
    to no converter. *)
Theorem identify_converter_names_the_unit (cid : Z) (converter : string) :
  identify_converter cid = Some converter
  <-> exists base k,
        In base base_ids /\ 0 <= k <= 2 /\ cid = base + k
        /\ converter = "DCDC_Primary" +:+ ExpandDbc.unit_suffix k.
Proof.
  split; [apply identify_converter_inv|].
  intros (base & k & Hbase & Hk & -> & ->).
  assert (k = 0 \/ k = 1 \/ k = 2) as [-> | [-> | ->]] by lia;
    simpl in Hbase; destruct Hbase as [<-|[<-|[<-|[]]]]; reflexivity.
Qed.

Lemma identify_converter_key (cid : Z) (converter : string) :
  identify_converter cid = Some converter ->
  converter <> EmptyString
  /\ is_Some (initial_converter_data !! converter).
Proof.
  intros H. apply identify_converter_inv in H
    as (base & k & _ & Hk & _ & ->).
  assert (k = 0 \/ k = 1 \/ k = 2) as [-> | [-> | ->]] by lia;
    (split; [discriminate|]); vm_compute; eauto.
Qed.

Lemma process_message_outcome message converter_data :
  process_message message converter_data = Ok converter_data
  \/ process_message message converter_data = Raise KeyError
  \/ exists converter record,
       identify_converter (can_id message) = Some converter
       /\ data message <> ∅
       /\ converter_data !! converter = Some record
       /\ process_message message converter_data
          = Ok (<[converter := data message ∪ record]> converter_data).
Proof.
  unfold process_message.
  destruct (size (data message) =? 0)%nat eqn:Hsize; [now left|].
  apply Nat.eqb_neq in Hsize. rewrite map_size_empty_iff in Hsize.
  destruct (identify_converter (can_id message)) as [converter|] eqn:Hid;
    [|now left].
  destruct (identify_converter_key _ _ Hid) as [Hne _].
  destruct converter as [|c converter]; [congruence|].
  destruct (converter_data !! String c converter) as [record|] eqn:Hrec;
    [|now (right; left)].
  right. right. now exists (String c converter), record.
Qed.

(** X14.  The data the monitor keeps for the converters changes only for a
    frame that the catalog decodes to a record with at least one signal
    and whose identifier is one of the nine of the table of
    [identify_converter]: a pass with no frame, a frame on a handler that
    is not connected or has no catalog, a frame the catalog does not list,
    one whose decoding fails, and a frame with any other identifier all
    leave it as it was. *)
Theorem converter_data_changes_only_for_table_frames
    (h : handler) (polled : option Can.frame)
    (converter_data : gmap string signal_values) :
  (forall frame catalog db_message decoded,
     polled = Some frame ->
     connected h = true ->
     db h = Some catalog ->
     Cantools.get_message_by_frame_id catalog (Can.arbitration_id frame)
       = Some db_message ->
     Cantools.decode db_message (Can.data frame) = Ok decoded ->
     decoded = ∅ \/ identify_converter (Can.arbitration_id frame) = None) ->
  receive_and_process h polled converter_data = Ok converter_data.
Proof.
  intros Hskip. unfold receive_and_process, receive_message.
  destruct (connected h) eqn:Hconn; [|reflexivity]. cbn [negb].
  destruct polled as [frame|]; [|reflexivity].
  unfold process_message. cbn [data can_id].
  destruct (db h) as [catalog|] eqn:Hdb; [|reflexivity].
  destruct (Cantools.get_message_by_frame_id catalog _) as [db_message|]
    eqn:Hm; [|reflexivity].
  destruct (Cantools.decode db_message _) as [decoded|e] eqn:Hd;
    [|reflexivity].
  cbn [fst snd].
  destruct (Hskip frame catalog db_message decoded eq_refl eq_refl eq_refl
              Hm Hd) as [-> | ->].
  - reflexivity.
  - now destruct (size decoded =? 0)%nat.
Qed.

(** A voltage frame of the sample catalog decodes, yet its identifier is
    not in the table: nothing is recorded for any converter. *)
Lemma converter_data_witness :
  receive_and_process {| connected := true; db := Some Sample.unit_catalog |}
    (Some (Sample.received 2164260864 ["001"; "000"; "002"; "000"]%byte))
    initial_converter_data
  = Ok initial_converter_data.
Proof.
  apply (converter_data_changes_only_for_table_frames
    {| connected := true; db := Some Sample.unit_catalog |}
    (Some (Sample.received 2164260864 ["001"; "000"; "002"; "000"]%byte))
    initial_converter_data).
  intros frame catalog db_message decoded [= <-] _ _ _ _. right. reflexivity.
Defined.

(** X15.  While the data of the monitor has its three converter entries,
    processing a message never raises and keeps exactly these entries; the
    record of a converter only gains signals, none is ever removed, and
    the records of the other converters stay as they are. *)
Theorem process_message_keeps_the_converters
    (message : CANMessage) (converter_data : gmap string signal_values) :
  dom converter_data = dom initial_converter_data ->
  exists converter_data',
    process_message message converter_data = Ok converter_data'
    /\ dom converter_data' = dom initial_converter_data
    /\ forall converter record,
         converter_data !! converter = Some record ->
         exists record',
           converter_data' !! converter = Some record'
           /\ dom record ⊆ dom record'
           /\ (identify_converter (can_id message) <> Some converter ->
               record' = record).
Proof.
  intros Hdom.
  destruct (process_message_outcome message converter_data)
    as [-> | [Hraise | (converter & record & Hid & Hdata & Hrec & ->)]].
  - exists converter_data. split; [reflexivity|]. split; [exact Hdom|].
    intros converter record Hrec. now exists record.
  - exfalso. revert Hraise. unfold process_message.
    destruct (size (data message) =? 0)%nat; [discriminate|].
    destruct (identify_converter (can_id message)) as [converter|] eqn:Hid;
      [|discriminate].
    destruct (identify_converter_key _ _ Hid) as [_ Hkey].
    apply elem_of_dom in Hkey. rewrite <- Hdom in Hkey.
    apply elem_of_dom in Hkey as [record Hrec]. rewrite Hrec.
    now destruct converter.
  - eexists. split; [reflexivity|]. split.
    + rewrite <- Hdom. apply set_eq. intros i.
      rewrite dom_insert, elem_of_union, elem_of_singleton.
      split; [intros [->|]; [apply elem_of_dom; eauto|assumption] | auto].
    + intros converter' record' Hrec'.
      destruct (decide (converter = converter')) as [<-|Hne].
      * rewrite lookup_insert_eq. eexists. split; [reflexivity|].
        assert (record' = record) as -> by congruence.
        split; [|congruence].
        rewrite dom_union. apply union_subseteq_r.
      * rewrite lookup_insert_ne by exact Hne. exists record'.
        now repeat split.
Qed.

(** The initial data and a message for unit 1. *)
Lemma process_message_witness :
  exists converter_data',
    process_message
      {| can_id := 2148532225; name := "DCDC_ControlRequest_1";
         data := <["startCommand" := Int 1]> ∅; data_hex := "01";
         timestamp := 0%float |}
      initial_converter_data
    = Ok converter_data'
    /\ dom converter_data' = dom initial_converter_data.
Proof.
  destruct (process_message_keeps_the_converters
              {| can_id := 2148532225; name := "DCDC_ControlRequest_1";
                 data := <["startCommand" := Int 1]> ∅; data_hex := "01";
                 timestamp := 0%float |}
              initial_converter_data eq_refl)
    as (converter_data' & Hp & Hdom & _).
  exists converter_data'. split; [exact Hp | exact Hdom].
Defined.

End MonitorMore.

(** * Further properties of the expansion *)

Module ExpandMore.

Import Py ExpandDbc LoopFacts ExpandFacts CopyFacts MetadataFacts CatalogText Lines Text
  TextFacts.

Lemma signal_run_take (ls : list string) :
  take (length (signal_run ls)) ls = signal_run ls.
Proof.
  induction ls as [|l ls IH]; [reflexivity|]. simpl.
  destruct (is_signal_line l); [simpl; now rewrite IH | reflexivity].
Qed.

Lemma not_definition_skipped (ln : string) (rest : list string) :
  startswith ln "BO_ " = false ->
  message_definitions (ln :: rest) = message_definitions rest.
Proof. intros H. unfold message_definitions. simpl. now rewrite H. Qed.

Lemma definition_kept (ln : string) (rest : list string) :
  startswith ln "BO_ " = true ->
  message_definitions (ln :: rest) = ln :: message_definitions rest.
Proof. intros H. unfold message_definitions. simpl. now rewrite H. Qed.

(** The messages [parse_messages] reads, with a number of leading lines
    already walked over as signal lines. *)
Lemma parse_walk (lines : list string) (k : nat) (msgs : list message) :
  Forall (fun l => is_signal_line l = true) (take k lines) ->
  walk parse_line k lines = Ok msgs ->
  line <$> msgs = message_definitions lines
  /\ Forall (fun m => bo_fields (line m)
                      = Ok (can_id m, name m, dlc m, sender m)
                      /\ Forall (fun l => is_signal_line l = true) (signals m))
       msgs.
Proof.
  revert k msgs. induction lines as [|ln rest IH]; intros k msgs Hk H.
  - injection H as <-. split; [reflexivity|constructor].
  - destruct k as [|k].
    + cbn [walk] in H. apply rbind_Ok in H as ([out w] & Hb & H).
      apply rbind_Ok in H as (more & Hw & H). injection H as <-.
      unfold parse_line in Hb.
      destruct (startswith ln "BO_ ") eqn:Hbo.
      * destruct (bo_fields ln) as [[[[cid nm] d] snd]|e] eqn:Hf;
          [|discriminate].
        simpl in Hb. injection Hb as <- <-.
        apply IH in Hw as [Hlines Hall];
          [|rewrite signal_run_take; apply signal_run_Forall].
        change ([?x] ++ ?l) with (x :: l). split.
        -- rewrite definition_kept by exact Hbo.
           rewrite fmap_cons. cbn [line]. now rewrite Hlines.
        -- constructor; [|exact Hall]. cbn [line can_id name dlc sender signals].
           split; [exact Hf | apply signal_run_Forall].
      * injection Hb as <- <-. apply IH in Hw as [Hlines Hall];
          [|constructor].
        split; [|exact Hall].
        now rewrite not_definition_skipped.
    + cbn [walk] in H. cbn [take] in Hk. apply Forall_cons_1 in Hk as [Hln Hk].
      apply IH in H as [Hlines Hall]; [|exact Hk].
      split; [|exact Hall].
      rewrite not_definition_skipped; [exact Hlines|].
      now apply signal_line_not_definition.
Qed.

Lemma parsed_signals_are_signal_lines lines msgs :
  parse_messages lines = Ok msgs ->
  Forall (fun m => Forall (fun l => is_signal_line l = true) (signals m)) msgs.
Proof.
  intros H. apply parse_walk in H as [_ H]; [|apply Forall_nil_2].
  eapply Forall_impl; [exact H|]. now intros m [_ Hm].
Qed.

(** X16.  [parse_messages] reads one message for every line that begins
    with [BO_ ], in the order of the lines, and nothing for any other line:
    no definition line is taken for a signal line of the message before it.
    The fields of each message are those read from its line, and its
    signals are signal lines. *)
Theorem parse_messages_reads_every_definition
    (lines : list string) (msgs : list message) :
  parse_messages lines = Ok msgs ->
  line <$> msgs = message_definitions lines
  /\ Forall (fun m => bo_fields (line m)
                      = Ok (can_id m, name m, dlc m, sender m)
                      /\ Forall (fun l => is_signal_line l = true) (signals m))
       msgs.
Proof. apply parse_walk. constructor. Qed.

(** The sample catalog has three messages. *)
Lemma parse_messages_witness :
  line <$> CatalogText.value_of [] (parse_messages SampleText.catalog)
  = message_definitions SampleText.catalog.
Proof.
  apply (parse_messages_reads_every_definition SampleText.catalog).
  vm_compute. reflexivity.
Defined.

(** *** Lines that pass through *)

Section WalkMore.

Context {B : Type} (body : string -> list string -> result (list B * nat)).

(** A loop whose pass succeeds at every line runs to its end. *)
Lemma walk_total (lines : list string) :
  Forall (fun ln => forall rest, exists r, body ln rest = Ok r) lines ->
  forall k, exists out, walk body k lines = Ok out.
Proof.
  induction 1 as [|ln rest Hln _ IH]; intros k; [now exists []|].
  destruct k as [|k]; cbn [walk]; [|apply IH].
  destruct (Hln rest) as [[out w] ->]. simpl.
  destruct (IH w) as [more ->]. simpl. eauto.
Qed.

End WalkMore.

(** A loop whose pass at a line appends the line and the lines it walks
    over gives back the lines it was given. *)
Lemma walk_identity (body : string -> list string -> result (list string * nat))
    (lines : list string) :
  Forall (fun ln => forall rest, exists w,
            body ln rest = Ok (ln :: take w rest, w)) lines ->
  forall k, walk body k lines = Ok (drop k lines).
Proof.
  induction 1 as [|ln rest Hln _ IH]; intros k; [now destruct k|].
  destruct k as [|k]; cbn [walk]; [|apply IH].
  destruct (Hln rest) as [w ->]. simpl. rewrite IH. simpl.
  now rewrite take_drop.
Qed.

Lemma unrecognised_metadata num_units ln :
  unrecognised ln = true -> on_metadata num_units ln = Ok [ln].
Proof.
  unfold unrecognised. rewrite negb_true_iff, !orb_false_iff.
  intros [[[[[[[_ _] H1] H2] H3] H4] H5] H6].
  unfold on_metadata, on_message_comment, on_signal_comment, on_node_comment,
    on_station_address, on_message_attribute, on_value_table.
  now rewrite H1, H2, H3, H4, H5, H6.
Qed.

Lemma unrecognised_pass messages num_units ln rest :
  unrecognised ln = true ->
  expand_line messages num_units ln rest = Ok ([ln], 0%nat).
Proof.
  intros H. unfold expand_line. destruct (_ || _); [reflexivity|].
  rewrite (unrecognised_metadata num_units ln H).
  unfold unrecognised in H. rewrite negb_true_iff, !orb_false_iff in H.
  destruct H as [[[[[[[-> ->] _] _] _] _] _] _]. reflexivity.
Qed.

Lemma other_message_pass messages num_units ln rest :
  other_message ln = true ->
  expand_line messages num_units ln rest
  = Ok (ln :: signal_run rest, length (signal_run rest)).
Proof.
  unfold other_message. rewrite andb_true_iff. intros [Hbo H].
  rewrite expand_line_message by exact Hbo. unfold on_message.
  destruct (bo_fields ln) as [[[[cid nm] d] snd]|e]; [|discriminate].
  simpl. apply negb_true_iff in H. now rewrite H.
Qed.

(** X17.  A catalog text made only of lines the expansion does not
    recognise (blank lines, the version, attribute definitions, signal
    lines under no message, ...) and of messages that are not of the
    converter, with their signal lines, comes out exactly as it went in,
    whatever the number of units. *)
Theorem unrecognised_text_is_copied (lines : list string) (num_units : Z) :
  Forall (fun ln => unrecognised ln || other_message ln = true) lines ->
  expand_dbc_for_multiple_units lines num_units = Ok lines.
Proof.
  intros Hall. unfold expand_dbc_for_multiple_units, parse_messages.
  destruct (walk_total parse_line lines) with (k := 0%nat) as [msgs ->].
  { eapply Forall_impl; [exact Hall|]. intros ln Hln rest. unfold parse_line.
    destruct (startswith ln "BO_ ") eqn:Hbo; [|eauto].
    assert (other_message ln = true) as Hother.
    { apply orb_true_iff in Hln as [Hun|]; [|assumption].
      unfold unrecognised in Hun. rewrite Hbo in Hun.
      now rewrite orb_true_r in Hun. }
    unfold other_message in Hother. rewrite Hbo in Hother.
    destruct (bo_fields ln) as [[[[cid nm] d] snd]|e]; [|discriminate].
    simpl. eauto. }
  simpl. unfold expand_loop. apply (walk_identity _ lines).
  eapply Forall_impl; [exact Hall|]. intros ln Hln rest.
  apply orb_true_iff in Hln as [Hun|Hother].
  - exists 0%nat. now apply unrecognised_pass.
  - exists (length (signal_run rest)). rewrite signal_run_take.
    now apply other_message_pass.
Qed.

(** The lines of the sample catalog behind the converter messages, without
    the comments, attributes and value tables. *)
Lemma unrecognised_text_witness :
  expand_dbc_for_multiple_units
    [ "VERSION " +:+ DQ +:+ DQ +:+ LF;
      LF;
      "BO_ 1792 Heartbeat: 1 SUPERVISER" +:+ LF;
      " SG_ alive : 0|8@1+ (1,0) [0|255] " +:+ DQ +:+ DQ +:+ " SUPERVISER" +:+ LF;
      LF;
      "BA_DEF_ BO_ " +:+ DQ +:+ "GenMsgCycleTime" +:+ DQ +:+ " INT 0 65535;" +:+ LF ]
    3
  = Ok [ "VERSION " +:+ DQ +:+ DQ +:+ LF;
         LF;
         "BO_ 1792 Heartbeat: 1 SUPERVISER" +:+ LF;
         " SG_ alive : 0|8@1+ (1,0) [0|255] " +:+ DQ +:+ DQ +:+ " SUPERVISER" +:+ LF;
         LF;
         "BA_DEF_ BO_ " +:+ DQ +:+ "GenMsgCycleTime" +:+ DQ +:+ " INT 0 65535;" +:+ LF ].
Proof.
  apply unrecognised_text_is_copied.
  repeat (apply Forall_cons_2; [vm_compute; reflexivity|]). apply Forall_nil_2.
Defined.

(** *** A definition line that cannot be read *)

Lemma bo_fields_raises ln e :
  bo_fields ln = Raise e -> e = IndexError \/ e = ValueError.
Proof.
  unfold bo_fields, index, int_of_str.
  repeat match goal with
         | |- context [match ?x with _ => _ end] =>
             destruct x; simpl; try (intros [= <-]; auto); try discriminate
         end.
Qed.

Lemma bo_fields_short ln :
  (length (split None ln) < 5)%nat -> exists e, bo_fields ln = Raise e.
Proof.
  intros Hlen. destruct (bo_fields ln) as [[[[cid nm] d] snd]|e] eqn:H;
    [|eauto].
  exfalso. unfold bo_fields, index in H.
  destruct (split None ln) as [|p0 [|p1 [|p2 [|p3 [|p4 ps]]]]];
    simpl in Hlen; try lia; simpl in H; try discriminate;
    destruct (int_of_str p1); simpl in H; discriminate.
Qed.

(** X18.  A line that begins with [BO_ ] and has fewer than five
    whitespace-separated fields, or whose second field is not an integer,
    makes the whole expansion fail, with [IndexError] or [ValueError],
    wherever it stands: nothing is written. *)
Theorem unreadable_definition_aborts
    (before after : list string) (ln : string) (num_units : Z)
    (msgs : list message) :
  parse_messages before = Ok msgs ->
  startswith ln "BO_ " = true ->
  (length (split None ln) < 5)%nat
  \/ (exists id_text, split None ln !! 1%nat = Some id_text
                      /\ int_of_str id_text = Raise ValueError) ->
  exists e,
    expand_dbc_for_multiple_units (before ++ ln :: after) num_units = Raise e
    /\ (e = IndexError \/ e = ValueError).
Proof.
  intros Hbefore Hbo Hbad.
  assert (exists e, bo_fields ln = Raise e) as [e He].
  { destruct Hbad as [Hlen | (id_text & Hid & Hint)];
      [now apply bo_fields_short|].
    exists ValueError. unfold bo_fields, index. now rewrite Hid; simpl; rewrite Hint. }
  exists e. split; [|now apply (bo_fields_raises ln)].
  unfold expand_dbc_for_multiple_units, parse_messages in *.
  rewrite (walk_app _ parse_line_local parse_line_bounded)
    by (simpl; first [lia | now apply message_line_plain]).
  rewrite Hbefore. simpl. unfold parse_line at 1. now rewrite Hbo, He.
Qed.

(** A definition line without a sender. *)
Lemma unreadable_definition_witness :
  exists e,
    expand_dbc_for_multiple_units
      (SampleText.before ++ ("BO_ 1792 Heartbeat: 1" +:+ LF) :: SampleText.after) 3
    = Raise e
    /\ (e = IndexError \/ e = ValueError).
Proof.
  apply (unreadable_definition_aborts SampleText.before SampleText.after
           ("BO_ 1792 Heartbeat: 1" +:+ LF) 3
           (CatalogText.value_of [] (parse_messages SampleText.before))).
  - vm_compute. reflexivity.
  - reflexivity.
  - left. vm_compute. lia.
Defined.

(** *** The definition lines of the output *)

Lemma fmap_no_definitions {A} (f : A -> string) (l : list A) :
  (forall x, startswith (f x) "BO_ " = false) ->
  message_definitions (f <$> l) = [].
Proof.
  intros Hf. induction l as [|x l IH]; [reflexivity|].
  rewrite fmap_cons, not_definition_skipped by apply Hf. exact IH.
Qed.

Lemma attribute_line_replaced (ln old_id new_id : string) :
  startswith ln "BA_ " = true ->
  startswith (replace ln ("BO_ " +:+ old_id) ("BO_ " +:+ new_id)) "BO_ " = false.
Proof.
  intros [t ->]%startswith_inv. unfold replace.
  change ("BO_ " +:+ old_id) with (String "B" (String "O" ("_ " +:+ old_id))).
  change ("BA_ " +:+ t) with (String "B" (String "A" ("_ " +:+ t))).
  now rewrite !replace_go_step by reflexivity.
Qed.

Lemma attribute_scan_no_definitions num_units ln all_parts parts out :
  startswith ln "BA_ " = true ->
  attribute_scan num_units ln all_parts parts = Ok (Some out) ->
  message_definitions out = [].
Proof.
  intros Hba. induction parts as [|part later IH]; [discriminate|].
  cbn [attribute_scan].
  destruct (String.eqb part "BO_"); [|exact IH].
  destruct later as [|next later']; [exact IH|].
  destruct (int_of_str next) as [cid|e]; [|exact IH].
  destruct (in_dcdc_range cid); [|exact IH].
  destruct (index all_parts 1); [|discriminate]. simpl.
  intros [= <-]. apply fmap_no_definitions. intros unit_id.
  now apply attribute_line_replaced.
Qed.

Lemma on_metadata_no_definitions num_units ln out :
  startswith ln "BO_ " = false ->
  on_metadata num_units ln = Ok out -> message_definitions out = [].
Proof.
  intros Hln. unfold on_metadata.
  assert (message_definitions [ln] = []) as Hkeep
    by now rewrite not_definition_skipped.
  (* message comments *)
  unfold on_message_comment at 1.
  destruct (startswith ln "CM_ BO_ ") eqn:H1.
  2: cbn [rbind].
  1: { destruct (index (split (Some 3%nat) ln) 2) as [id_text|]; [|discriminate].
       cbn [rbind].
       destruct (int_of_str id_text) as [cid|]; [|discriminate]. cbn [rbind].
       destruct (in_dcdc_range cid); cbn [rbind].
       - intros [= <-]. now apply fmap_no_definitions.
       - apply startswith_inv in H1 as [t ->].
         unfold on_signal_comment, on_node_comment, on_station_address,
           on_message_attribute, on_value_table.
         cbn. now intros [= <-]. }
  (* signal comments *)
  unfold on_signal_comment at 1.
  destruct (startswith ln "CM_ SG_ ") eqn:H2.
  2: cbn [rbind].
  1: { destruct (index (split (Some 4%nat) ln) 2) as [id_text|]; [|discriminate].
       cbn [rbind].
       destruct (int_of_str id_text) as [cid|]; [|discriminate]. cbn [rbind].
       destruct (index (split (Some 4%nat) ln) 3) as [sig_name|]; [|discriminate].
       cbn [rbind].
       destruct (in_dcdc_range cid); cbn [rbind].
       - intros [= <-]. now apply fmap_no_definitions.
       - apply startswith_inv in H2 as [t ->].
         unfold on_node_comment, on_station_address,
           on_message_attribute, on_value_table.
         cbn. now intros [= <-]. }
  (* node comments *)
  unfold on_node_comment at 1.
  destruct (startswith ln "CM_ BU_ DCDC_Primary ") eqn:H3.
  2: cbn [rbind].
  1: { destruct (index (split (Some 3%nat) ln) 3); [|discriminate].
       cbn [rbind]. intros [= <-].
       rewrite not_definition_skipped by exact Hln. reflexivity. }
  (* station addresses *)
  unfold on_station_address at 1.
  destruct (startswith ln nm_station_prefix) eqn:H4.
  { intros [= <-]. rewrite not_definition_skipped by exact Hln. reflexivity. }
  (* message attributes *)
  unfold on_message_attribute at 1.
  destruct (startswith ln "BA_ ") eqn:H5.
  2: cbn [andb rbind].
  1: { destruct (contains "BO_ " ln); cbn [andb].
       - destruct (attribute_scan num_units ln (split None ln) (split None ln))
           as [[found|]|] eqn:Hscan; [| |discriminate]; cbn [rbind].
         + intros [= <-]. now apply (attribute_scan_no_definitions _ _ _ _ _ H5 Hscan).
         + now intros [= <-].
       - cbn [rbind]. apply startswith_inv in H5 as [t ->].
         unfold on_value_table. cbn. now intros [= <-]. }
  (* value tables *)
  unfold on_value_table.
  destruct (startswith ln "VAL_ "); cbn [rbind]; [|now intros [= <-]].
  destruct (2 <=? length (split (Some 2%nat) ln))%nat; cbn [rbind];
    [|now intros [= <-]].
  destruct (rbind _ int_of_str) as [cid|]; cbn [rbind]; [|now intros [= <-]].
  destruct (in_dcdc_range cid); cbn [rbind]; [|now intros [= <-]].
  destruct (index (split (Some 2%nat) ln) 2) as [rest_text|]; [|discriminate].
  cbn [rbind]. intros [= <-]. now apply fmap_no_definitions.
Qed.

Lemma bo_header_starts cid nm d snd k :
  startswith (bo_header cid nm d snd k) "BO_ " = true.
Proof. unfold bo_header, startswith. apply prefix_app. Qed.

Lemma new_sig_line_signal sig k :
  0 <= k -> is_signal_line sig = true -> is_signal_line (new_sig_line sig k) = true.
Proof.
  intros Hk H. rewrite new_sig_line_renamed by exact Hk.
  now apply renamed_signal_line.
Qed.

Lemma unit_block_definitions (msg_data : option message) cid nm d snd k :
  0 <= k ->
  (forall m, msg_data = Some m ->
             Forall (fun l => is_signal_line l = true) (signals m)) ->
  message_definitions (unit_block msg_data cid nm d snd k)
  = [bo_header cid nm d snd k].
Proof.
  intros Hk Hsig. unfold unit_block.
  change ([?x] ++ ?l) with (x :: l).
  rewrite definition_kept by apply bo_header_starts. f_equal.
  rewrite message_definitions_app.
  change (message_definitions [LF]) with (@nil string). rewrite List.app_nil_r.
  destruct msg_data as [m|]; [|reflexivity].
  specialize (Hsig m eq_refl).
  destruct (signals m) as [|sig sigs] eqn:Hs; [reflexivity|].
  apply signal_lines_no_definitions. rewrite Forall_fmap.
  eapply Forall_impl; [exact Hsig|]. intros l Hl. now apply new_sig_line_signal.
Qed.

Lemma find_message_In msgs cid m :
  find_message msgs cid = Some m -> In m msgs.
Proof. unfold find_message. intros H. now apply List.find_some in H. Qed.

Lemma unit_blocks_definitions msgs cid nm d snd num_units :
  Forall (fun m => Forall (fun l => is_signal_line l = true) (signals m)) msgs ->
  message_definitions
    (concat (unit_block (find_message msgs cid) cid nm d snd <$> range num_units))
  = bo_header cid nm d snd <$> range num_units.
Proof.
  intros Hmsgs.
  assert (Forall (fun k => 0 <= k) (range num_units)) as Hrange.
  { apply Forall_forall. intros k Hk. now apply (range_nonneg num_units). }
  induction Hrange as [|k ks Hk _ IH]; [reflexivity|].
  rewrite !fmap_cons. cbn [concat]. rewrite message_definitions_app, IH.
  rewrite unit_block_definitions; [reflexivity|exact Hk|].
  intros m Hm. apply find_message_In in Hm.
  rewrite List.Forall_forall in Hmsgs. now apply Hmsgs.
Qed.

(** The definition lines one pass of the main loop appends, and how far
    it walks. *)
Lemma expand_line_definitions msgs num_units ln rest out w :
  Forall (fun m => Forall (fun l => is_signal_line l = true) (signals m)) msgs ->
  expand_line msgs num_units ln rest = Ok (out, w) ->
  (w = 0%nat \/ w = length (signal_run rest))
  /\ message_definitions out
     = if startswith ln "BO_ " then definitions_for num_units ln else [].
Proof.
  intros Hmsgs. unfold expand_line.
  destruct (startswith ln "VERSION") eqn:Hv.
  { cbn [orb]. intros [= <- <-]. split; [now left|].
    apply startswith_inv in Hv as [t ->]. reflexivity. }
  destruct (startswith ln "NS_") eqn:Hn.
  { cbn [orb]. intros [= <- <-]. split; [now left|].
    apply startswith_inv in Hn as [t ->]. reflexivity. }
  destruct (startswith ln "BS_:") eqn:Hb.
  { cbn [orb]. intros [= <- <-]. split; [now left|].
    apply startswith_inv in Hb as [t ->]. reflexivity. }
  cbn [orb].
  destruct (startswith ln "BU_:") eqn:Hu.
  { intros [= <- <-]. split; [now left|].
    apply startswith_inv in Hu as [t ->]. reflexivity. }
  destruct (startswith ln "BO_ ") eqn:Hbo.
  - unfold on_message, definitions_for.
    destruct (bo_fields ln) as [[[[cid nm] d] snd]|e]; [|discriminate].
    cbn [rbind].
    destruct (involves_dcdc snd nm); intros [= <- <-]; (split; [now right|]).
    + now apply unit_blocks_definitions.
    + rewrite definition_kept by exact Hbo. f_equal.
      apply signal_lines_no_definitions, signal_run_Forall.
  - destruct (on_metadata num_units ln) as [o|] eqn:Hmeta; [|discriminate].
    cbn [rbind]. intros [= <- <-]. split; [now left|].
    now apply (on_metadata_no_definitions num_units ln).
Qed.

Lemma expand_walk msgs num_units (lines : list string) (k : nat)
    (out : list string) :
  Forall (fun m => Forall (fun l => is_signal_line l = true) (signals m)) msgs ->
  Forall (fun l => is_signal_line l = true) (take k lines) ->
  walk (expand_line msgs num_units) k lines = Ok out ->
  message_definitions out
  = flat_map (definitions_for num_units) (message_definitions lines).
Proof.
  intros Hmsgs. revert k out.
  induction lines as [|ln rest IH]; intros k out Hk H.
  - now injection H as <-.
  - destruct k as [|k].
    + cbn [walk] in H. apply rbind_Ok in H as ([o w] & Hb & H).
      apply rbind_Ok in H as (more & Hw & H). injection H as <-.
      apply (expand_line_definitions _ _ _ _ _ _ Hmsgs) in Hb as [Hwalked Ho].
      apply IH in Hw.
      2:{ destruct Hwalked as [-> | ->]; [apply Forall_nil_2|].
          rewrite signal_run_take. apply signal_run_Forall. }
      rewrite message_definitions_app, Ho, Hw.
      destruct (startswith ln "BO_ ") eqn:Hbo.
      * now rewrite definition_kept by exact Hbo.
      * now rewrite not_definition_skipped by exact Hbo.
    + cbn [walk] in H. cbn [take] in Hk. apply Forall_cons_1 in Hk as [Hln Hk].
      rewrite not_definition_skipped by now apply signal_line_not_definition.
      now apply (IH k).
Qed.

Lemma expansion_definitions (lines out : list string) (num_units : Z) :
  expand_dbc_for_multiple_units lines num_units = Ok out ->
  message_definitions out
  = flat_map (definitions_for num_units) (message_definitions lines).
Proof.
  unfold expand_dbc_for_multiple_units. intros H.
  apply rbind_Ok in H as (msgs & Hparse & H).
  apply (expand_walk msgs num_units lines 0); [|apply Forall_nil_2|exact H].
  now apply parsed_signals_are_signal_lines in Hparse.
Qed.

(** X19.  The definition lines of the expanded catalog are, in the order
    of the input, those written for each definition line of the input: for
    a message of the converter (a sender containing [DCDC_Primary] or a
    name containing [DCDC]) one rendered line per unit, for any other
    message its own line; no other line of the output begins with [BO_ ]. *)
Theorem definitions_of_the_expansion
    (lines out : list string) (num_units : Z) :
  expand_dbc_for_multiple_units lines num_units = Ok out ->
  message_definitions out
  = flat_map (definitions_for num_units) (message_definitions lines).
Proof. apply expansion_definitions. Qed.

(** The sample catalog for three units: twice three definitions of the
    converter and one of the heartbeat. *)
Lemma definitions_of_the_expansion_witness :
  message_definitions
    (CatalogText.value_of []
       (expand_dbc_for_multiple_units SampleText.catalog 3))
  = flat_map (definitions_for 3) (message_definitions SampleText.catalog).
Proof.
  apply (definitions_of_the_expansion SampleText.catalog).
  vm_compute. reflexivity.
Defined.

(** X20.  With a number of units of zero or less, the expansion drops
    every message of the converter: the definition lines of its output are
    those of the other messages of the input, each as it was. *)
Theorem no_unit_drops_the_converter
    (lines out : list string) (num_units : Z) :
  num_units <= 0 ->
  expand_dbc_for_multiple_units lines num_units = Ok out ->
  message_definitions out = List.filter other_message lines.
Proof.
  intros Hn H. rewrite (expansion_definitions _ _ _ H). clear H.
  assert (range num_units = []) as Hrange.
  { unfold range. now replace (Z.to_nat num_units) with 0%nat by lia. }
  induction lines as [|ln rest IH]; [reflexivity|].
  cbn [List.filter]. unfold other_message at 1.
  destruct (startswith ln "BO_ ") eqn:Hbo.
  - rewrite definition_kept by exact Hbo. cbn [flat_map andb]. rewrite IH.
    unfold definitions_for. rewrite Hrange.
    destruct (bo_fields ln) as [[[[cid nm] d] snd]|e]; [|reflexivity].
    now destruct (involves_dcdc snd nm).
  - rewrite not_definition_skipped by exact Hbo. exact IH.
Qed.

Lemma no_unit_witness :
  message_definitions
    (CatalogText.value_of []
       (expand_dbc_for_multiple_units SampleText.catalog 0))
  = List.filter other_message SampleText.catalog.
Proof.
  apply (no_unit_drops_the_converter SampleText.catalog _ 0); [lia|].
  vm_compute. reflexivity.
Defined.

(** *** Reading back what was written *)

Lemma bo_fields_are_fields ln cid nm d snd :
  bo_fields ln = Ok (cid, nm, d, snd) ->
  nospace nm /\ rstrip_char ":" nm = nm /\ field d /\ field snd.
Proof.
  unfold bo_fields, index. pose proof (split_fields ln) as Hfields.
  destruct (split None ln) as [|p0 [|p1 [|p2 [|p3 [|p4 ps]]]]];
    try discriminate; simpl;
    try (destruct (int_of_str p1); discriminate).
  destruct (int_of_str p1) as [z|]; [|discriminate]. simpl.
  intros [= <- <- <- <-].
  apply Forall_cons in Hfields as [_ Hfields].
  apply Forall_cons in Hfields as [_ Hfields].
  apply Forall_cons in Hfields as [[_ H2] Hfields].
  apply Forall_cons in Hfields as [H3 Hfields].
  apply Forall_cons in Hfields as [[H4 H4'] _].
  split; [now apply rstrip_by_nospace|].
  split; [apply rstrip_by_idem|].
  split; [exact H3|].
  rewrite strip_nospace by exact H4'. now split.
Qed.

Lemma split_field_colon (t r : string) :
  nospace t ->
  split None (t +:+ String ":" (String " " r)) = (t +:+ ":") :: split None r.
Proof.
  intros Ht. rewrite <- (split_field (t +:+ ":") " " r).
  - now rewrite str_app_assoc.
  - split; [now destruct t|].
    apply nospace_app. split; [exact Ht|repeat constructor].
  - reflexivity.
Qed.

Lemma unit_suffix_kept (nm : string) (k : Z) :
  rstrip_char ":" nm = nm ->
  rstrip_char ":" (nm +:+ unit_suffix k) = nm +:+ unit_suffix k.
Proof.
  intros Hnm. destruct (unit_suffix k) as [|c sfx] eqn:Hs.
  - now rewrite str_app_nil_r.
  - apply rstrip_by_app_kept; [discriminate|].
    apply rstrip_by_none. apply Forall_forall. intros a Ha.
    apply list_elem_of_In in Ha. rewrite <- Hs in Ha.
    apply unit_suffix_chars in Ha. revert Ha.
    destruct a as [[] [] [] [] [] [] [] []]; try reflexivity; discriminate.
Qed.

Lemma bo_header_fields (ln : string) (cid : Z) (nm d snd : string) (k : Z) :
  bo_fields ln = Ok (cid, nm, d, snd) ->
  bo_fields (bo_header cid nm d snd k)
  = Ok (cid + k, nm +:+ unit_suffix k, d, new_sender snd k).
Proof.
  intros Hf. apply bo_fields_are_fields in Hf as (Hnm & Hstrip & Hd & Hsnd).
  pose proof (new_sender_field snd k Hsnd) as Hns.
  assert (split None (bo_header cid nm d snd k)
          = ["BO_"; str_of_int (cid + k); (nm +:+ unit_suffix k) +:+ ":"; d;
             new_sender snd k]) as Hsplit.
  { unfold bo_header.
    change (split None
              ("BO_" +:+ String " "
                 (str_of_int (cid + k) +:+ String " "
                    ((nm +:+ unit_suffix k) +:+ String ":" (String " "
                       (d +:+ String " "
                          (new_sender snd k +:+ String "010" EmptyString))))))
            = ["BO_"; str_of_int (cid + k); (nm +:+ unit_suffix k) +:+ ":"; d;
               new_sender snd k]).
    rewrite split_field by (reflexivity || (split; [discriminate|repeat constructor])).
    rewrite split_field
      by (reflexivity
          || (split; [apply str_of_int_nonempty|apply str_of_int_nospace])).
    rewrite split_field_colon
      by (apply nospace_app; split; [exact Hnm|apply unit_suffix_nospace]).
    rewrite split_field by (reflexivity || exact Hd).
    rewrite split_field by (reflexivity || exact Hns).
    reflexivity. }
  unfold bo_fields. rewrite Hsplit. unfold index. cbn [lookup list_lookup].
  cbn [rbind]. rewrite int_of_str_of_int. cbn [rbind].
  unfold rstrip_char at 1. rewrite rstrip_by_snoc by reflexivity.
  fold (rstrip_char ":" (nm +:+ unit_suffix k)).
  rewrite unit_suffix_kept by exact Hstrip.
  now rewrite strip_nospace by apply Hns.
Qed.

(** X21.  A definition line the expansion writes reads back, with the
    reader of [parse_messages] and of the main loop, as what was meant: for
    the fields read from a definition line and any unit [k], the line
    rendered for the unit gives the identifier plus [k], the name with the
    unit suffix, the same length and the renamed sender. *)
Theorem rendered_definition_reads_back
    (ln : string) (cid : Z) (nm d snd : string) (k : Z) :
  bo_fields ln = Ok (cid, nm, d, snd) ->
  bo_fields (bo_header cid nm d snd k)
  = Ok (cid + k, nm +:+ unit_suffix k, d, new_sender snd k).
Proof. apply bo_header_fields. Qed.

(** The errors message of the sample catalog, for unit 2. *)
Lemma rendered_definition_witness :
  bo_fields (bo_header 2164260865 "DCDC_Errors" "8" "DCDC_Primary" 2)
  = Ok (2164260865 + 2, "DCDC_Errors" +:+ unit_suffix 2, "8",
        new_sender "DCDC_Primary" 2).
Proof.
  apply (rendered_definition_reads_back SampleText.errors_line).
  vm_compute. reflexivity.
Defined.

(** *** Reading the expanded catalog *)

Lemma fmap_flat_map {A B C} (f : B -> C) (g : A -> list B) (l : list A) :
  f <$> flat_map g l = flat_map (fun x => f <$> g x) l.
Proof.
  induction l as [|x l IH]; [reflexivity|]. simpl.
  now rewrite fmap_app, IH.
Qed.

Lemma fmap_Ok_inj {A} (l1 l2 : list A) :
  @Ok A <$> l1 = @Ok A <$> l2 -> l1 = l2.
Proof.
  revert l2. induction l1 as [|x l1 IH]; intros [|y l2]; try discriminate;
    [reflexivity|].
  rewrite !fmap_cons. intros [= -> H]. f_equal. now apply IH.
Qed.

Lemma definitions_for_fields num_units ln :
  bo_fields <$> definitions_for num_units ln
  = Ok <$> fields_for num_units ln.
Proof.
  unfold definitions_for, fields_for.
  destruct (bo_fields ln) as [[[[cid nm] d] snd]|e] eqn:Hf; [|reflexivity].
  destruct (involves_dcdc snd nm); [|simpl; now rewrite Hf].
  rewrite <- !list_fmap_compose. apply list_fmap_ext. intros _ k _. simpl.
  now apply (bo_header_fields ln).
Qed.

Lemma expansion_fields (lines out : list string) (num_units : Z) :
  expand_dbc_for_multiple_units lines num_units = Ok out ->
  bo_fields <$> message_definitions out
  = Ok <$> flat_map (fields_for num_units) (message_definitions lines).
Proof.
  intros H. rewrite (expansion_definitions _ _ _ H), !fmap_flat_map.
  induction (message_definitions lines) as [|ln l IH]; [reflexivity|].
  simpl. now rewrite definitions_for_fields, IH.
Qed.

Lemma expansion_parses (lines out : list string) (num_units : Z) :
  expand_dbc_for_multiple_units lines num_units = Ok out ->
  exists msgs,
    parse_messages out = Ok msgs
    /\ fields_of <$> msgs
       = flat_map (fields_for num_units) (message_definitions lines).
Proof.
  intros H. pose proof (expansion_fields _ _ _ H) as Hfields.
  destruct (walk_total parse_line out) with (k := 0%nat) as [msgs Hparse].
  { apply Forall_forall. intros ln Hin rest. unfold parse_line.
    destruct (startswith ln "BO_ ") eqn:Hbo; [|eauto].
    assert (ln ∈ message_definitions out) as Hdef.
    { apply list_elem_of_In, List.filter_In. split; [|exact Hbo].
      now apply list_elem_of_In. }
    apply (list_elem_of_fmap_2 bo_fields) in Hdef. rewrite Hfields in Hdef.
    apply list_elem_of_fmap in Hdef as ([[[cid nm] d] snd] & -> & _).
    simpl. eauto. }
  exists msgs. split; [exact Hparse|].
  apply parse_walk in Hparse as [Hlines Hall]; [|apply Forall_nil_2].
  apply fmap_Ok_inj. rewrite <- Hfields, <- Hlines.
  rewrite <- !list_fmap_compose. apply Forall_fmap_ext_1.
  eapply Forall_impl; [exact Hall|]. intros m [Hm _]. simpl. now rewrite Hm.
Qed.

(** X22.  The expanded catalog can be read again by the reader of the
    tool, and the messages read from it are, in the order of the input:
    for each message of the converter and each unit [k] below the number
    of units, the message with the identifier plus [k], the name with the
    suffix of the unit, the same length and the renamed sender; and every
    other message as it was. *)
Theorem expanded_catalog_reads_back
    (lines out : list string) (num_units : Z) :
  expand_dbc_for_multiple_units lines num_units = Ok out ->
  exists msgs,
    parse_messages out = Ok msgs
    /\ fields_of <$> msgs
       = flat_map (fields_for num_units) (message_definitions lines).
Proof. apply expansion_parses. Qed.

Lemma expanded_catalog_witness :
  exists msgs,
    parse_messages
      (CatalogText.value_of []
         (expand_dbc_for_multiple_units SampleText.request_catalog 3))
    = Ok msgs
    /\ fields_of <$> msgs
       = [(2148532224, "DCDC_ControlRequest", "8", "SUPERVISER");
          (2148532225, "DCDC_ControlRequest_1", "8", "SUPERVISER");
          (2148532226, "DCDC_ControlRequest_2", "8", "SUPERVISER")].
Proof.
  apply (expanded_catalog_reads_back SampleText.request_catalog _ 3).
  vm_compute. reflexivity.
Defined.

Lemma range_elem (n k : Z) : 0 <= k < n -> In k (range n).
Proof.
  intros Hk. unfold range. apply list_elem_of_In, list_elem_of_fmap.
  exists (Z.to_nat k). split; [lia|].
  apply list_elem_of_In, in_seq. lia.
Qed.

(** X23.  The two programs agree on the names: for a message of the
    converter in the input, and every unit [k] below the number of units,
    the expanded catalog holds, as its own reader reads it, a message with
    the very name the controller of unit [k] asks its catalog for (the
    name followed by the unit suffix of the controller), under the
    identifier plus [k]. *)
Theorem expanded_catalog_has_the_names_of_the_unit
    (lines out : list string) (num_units : Z) (ln : string) (cid : Z)
    (nm d snd : string) (k : Z) (catalog : Cantools.database) :
  expand_dbc_for_multiple_units lines num_units = Ok out ->
  In ln lines ->
  startswith ln "BO_ " = true ->
  bo_fields ln = Ok (cid, nm, d, snd) ->
  involves_dcdc snd nm = true ->
  0 <= k < num_units ->
  exists msgs m,
    parse_messages out = Ok msgs
    /\ In m msgs
    /\ name m = nm +:+ Controller.dcdc_suffix (Controller.init catalog k)
    /\ can_id m = cid + k.
Proof.
  intros H Hin Hbo Hf Hinv Hk.
  destruct (expansion_parses _ _ _ H) as (msgs & Hparse & Hfields).
  assert (In (cid + k, nm +:+ unit_suffix k, d, new_sender snd k)
            (fields_of <$> msgs)) as Hm.
  { rewrite Hfields. apply in_flat_map. exists ln. split.
    - apply List.filter_In. now split.
    - unfold fields_for. rewrite Hf, Hinv.
      apply list_elem_of_In, list_elem_of_fmap. exists k.
      split; [reflexivity|]. now apply list_elem_of_In, range_elem. }
  apply list_elem_of_In, list_elem_of_fmap in Hm as (m & Hm & Hmin).
  exists msgs, m. split; [exact Hparse|].
  split; [now apply list_elem_of_In|].
  unfold fields_of in Hm. injection Hm as Hid Hname _ _.
  split; [|now symmetry]. rewrite <- Hname. reflexivity.
Qed.

(** The control request of the sample catalog, for unit 2. *)
Lemma expanded_catalog_names_witness :
  exists msgs m,
    parse_messages
      (CatalogText.value_of []
         (expand_dbc_for_multiple_units SampleText.request_catalog 3))
    = Ok msgs
    /\ In m msgs
    /\ name m = "DCDC_ControlRequest"
                 +:+ Controller.dcdc_suffix
                       (Controller.init Sample.unit_catalog 2)
    /\ can_id m = 2148532224 + 2.
Proof.
  apply (expanded_catalog_has_the_names_of_the_unit
           SampleText.request_catalog _ 3
           ("BO_ 2148532224 DCDC_ControlRequest: 8 SUPERVISER" +:+ LF)
           2148532224 "DCDC_ControlRequest" "8" "SUPERVISER" 2
           Sample.unit_catalog).
  - vm_compute. reflexivity.
  - simpl. tauto.
  - reflexivity.
  - vm_compute. reflexivity.
  - reflexivity.
  - lia.
Defined.

(** *** Expanding an expanded catalog *)

Lemma prefix_app_r (sub s t : string) :
  String.prefix sub s = true -> String.prefix sub (s +:+ t) = true.
Proof.
  intros [u ->]%prefix_inv. rewrite str_app_assoc. apply prefix_app.
Qed.

Lemma contains_app_r (sub s t : string) :
  contains sub s = true -> contains sub (s +:+ t) = true.
Proof.
  induction s as [|c s IH]; cbn [contains]; intros H;
    apply orb_true_iff in H.
  - destruct H as [H|H]; [|discriminate].
    destruct sub; [|discriminate]. now destruct t.
  - rewrite str_app_cons. cbn [contains]. apply orb_true_iff.
    destruct H as [H|H]; [left|right; now apply IH].
    rewrite <- str_app_cons. now apply prefix_app_r.
Qed.

Lemma prefix_contains (sub s : string) :
  String.prefix sub s = true -> contains sub s = true.
Proof. intros H. destruct s; cbn [contains]; now rewrite H. Qed.

(** Replacing a text by one that begins with it leaves it in place. *)
Lemma replace_go_contains (old ext s : string) :
  contains old s = true ->
  contains old (replace_go old (old +:+ ext) 0 s) = true.
Proof.
  induction s as [|c s IH]; cbn [contains]; intros H.
  - rewrite orb_false_r in H. now apply prefix_contains.
  - cbn [replace_go]. destruct (String.prefix old (String c s)) eqn:Hp.
    + apply prefix_contains. rewrite str_app_assoc. apply prefix_app.
    + simpl in H. cbn [contains]. apply orb_true_iff. right. now apply IH.
Qed.

Lemma involves_dcdc_copy (snd nm : string) (k : Z) :
  involves_dcdc snd nm = true ->
  involves_dcdc (new_sender snd k) (nm +:+ unit_suffix k) = true.
Proof.
  unfold involves_dcdc. intros H. apply orb_true_iff in H.
  apply orb_true_iff. destruct H as [H|H]; [left|right].
  - unfold new_sender, replace. destruct (0 <? k).
    + exact (replace_go_contains "DCDC_Primary" (unit_suffix k) snd H).
    + exact (replace_go_contains "DCDC_Primary" EmptyString snd H).
  - now apply contains_app_r.
Qed.

Lemma new_sender_zero (snd : string) : new_sender snd 0 = snd.
Proof. unfold new_sender. simpl. apply replace_same. Qed.

Lemma bo_header_zero (cid : Z) (nm d snd : string) :
  bo_header (cid + 1) (nm +:+ unit_suffix 1) d (new_sender snd 1) 0
  = bo_header cid nm d snd 1
  /\ bo_header (cid + 0) (nm +:+ unit_suffix 0) d (new_sender snd 0) 1
     = bo_header cid nm d snd 1.
Proof.
  unfold bo_header. rewrite !new_sender_zero.
  change (unit_suffix 0) with EmptyString. rewrite !str_app_nil_r.
  now rewrite !Z.add_0_r.
Qed.

Lemma range_two (n : Z) :
  2 <= n -> exists more, range n = 0 :: 1 :: more.
Proof.
  intros Hn. unfold range.
  destruct (Z.to_nat n) as [|[|m]] eqn:Hm; try lia.
  exists (Z.of_nat <$> seq 2 m). reflexivity.
Qed.

Lemma definitions_for_copy num_units ln cid nm d snd k :
  bo_fields ln = Ok (cid, nm, d, snd) ->
  involves_dcdc snd nm = true ->
  definitions_for num_units (bo_header cid nm d snd k)
  = bo_header (cid + k) (nm +:+ unit_suffix k) d (new_sender snd k)
    <$> range num_units.
Proof.
  intros Hf Hinv. unfold definitions_for.
  rewrite (bo_header_fields ln) by exact Hf.
  now rewrite involves_dcdc_copy.
Qed.

Lemma duplicate_split {A} (a b c r0 r1 : list A) (x0 h : A) :
  a ++ ((x0 :: h :: r0) ++ (h :: r1) ++ c) ++ b
  = (a ++ [x0]) ++ h :: r0 ++ h :: r1 ++ c ++ b.
Proof. rewrite <- !List.app_assoc. reflexivity. Qed.

(** X28.  The expansion is not meant for its own output: expanding an
    expanded catalog again, for two units or more, writes the definition
    of unit 1 of every message of the converter twice, once as the copy
    for unit 1 of the original message and once as the copy for unit 0 of
    its copy for unit 1. *)
Theorem expanding_twice_duplicates
    (lines out1 out2 : list string) (num_units : Z) (ln : string) (cid : Z)
    (nm d snd : string) :
  expand_dbc_for_multiple_units lines num_units = Ok out1 ->
  expand_dbc_for_multiple_units out1 num_units = Ok out2 ->
  In ln lines ->
  startswith ln "BO_ " = true ->
  bo_fields ln = Ok (cid, nm, d, snd) ->
  involves_dcdc snd nm = true ->
  2 <= num_units ->
  exists l1 l2 l3,
    message_definitions out2
    = l1 ++ bo_header cid nm d snd 1 :: l2 ++ bo_header cid nm d snd 1 :: l3.
Proof.
  intros H1 H2 Hin Hbo Hf Hinv Hn.
  rewrite (expansion_definitions _ _ _ H2), (expansion_definitions _ _ _ H1).
  assert (In ln (message_definitions lines)) as Hdef
    by (apply List.filter_In; now split).
  apply in_split in Hdef as (a & b & ->).
  rewrite flat_map_app. cbn [flat_map].
  assert (definitions_for num_units ln
          = bo_header cid nm d snd <$> range num_units) as ->
    by (unfold definitions_for; now rewrite Hf, Hinv).
  destruct (range_two num_units Hn) as (more & Hrange).
  rewrite Hrange, !fmap_cons.
  rewrite !flat_map_app. cbn [app flat_map].
  rewrite !(definitions_for_copy num_units ln) by assumption.
  rewrite Hrange, !fmap_cons.
  destruct (bo_header_zero cid nm d snd) as [-> ->].
  eexists _, _, _. apply duplicate_split.
Qed.

(** The control request of the sample catalog, expanded twice for three
    units. *)
Lemma expanding_twice_witness :
  exists l1 l2 l3,
    message_definitions
      (CatalogText.value_of []
         (expand_dbc_for_multiple_units
            (CatalogText.value_of []
               (expand_dbc_for_multiple_units SampleText.request_catalog 3))
            3))
    = l1 ++ bo_header 2148532224 "DCDC_ControlRequest" "8" "SUPERVISER" 1
         :: l2 ++ bo_header 2148532224 "DCDC_ControlRequest" "8" "SUPERVISER" 1
         :: l3.
Proof.
  apply (expanding_twice_duplicates SampleText.request_catalog
           (CatalogText.value_of []
              (expand_dbc_for_multiple_units SampleText.request_catalog 3))
           _ 3 ("BO_ 2148532224 DCDC_ControlRequest: 8 SUPERVISER" +:+ LF)).
  - vm_compute. reflexivity.
  - vm_compute. reflexivity.
  - simpl. tauto.
  - reflexivity.
  - vm_compute. reflexivity.
  - reflexivity.
  - lia.
Defined.

(** *** Two criteria *)

(** X29.  Definitions and metadata are multiplied by different criteria: a
    message by its sender and name, a comment, attribute or value table by
    the range of its identifier.  In a catalog with no message of the
    converter every definition line stays as it is, single, and yet a
    metadata line keyed by an identifier inside the range
    2148532224..2305818624 is written once per unit, for the identifiers
    [id], [id + 1], ..., although no message has been copied. *)
Theorem metadata_follows_the_range_not_the_message
    (before after : list string) (cm : string) (cid : Z)
    (render : Z -> string) (num_units : Z) (out : list string) :
  keyed_line cm cid render ->
  in_dcdc_range cid = true ->
  Forall (fun l => startswith l "BO_ " = true -> other_message l = true)
    (before ++ cm :: after) ->
  expand_dbc_for_multiple_units (before ++ cm :: after) num_units = Ok out ->
  message_definitions out = message_definitions (before ++ cm :: after)
  /\ exists o1 o2,
       out = o1 ++ ((fun k => render (cid + k)) <$> range num_units) ++ o2.
Proof.
  intros Hk Hrange Hother H. split.
  - rewrite (expansion_definitions _ _ _ H). clear H.
    induction (before ++ cm :: after) as [|l ls IH]; [reflexivity|].
    apply Forall_cons in Hother as [Hl Hls].
    destruct (startswith l "BO_ ") eqn:Hbo.
    + rewrite definition_kept by exact Hbo. cbn [flat_map].
      rewrite (IH Hls). specialize (Hl eq_refl).
      unfold other_message in Hl. rewrite Hbo in Hl. cbn [andb] in Hl.
      unfold definitions_for.
      destruct (bo_fields l) as [[[[c nm] d] snd]|e]; [|discriminate].
      apply negb_true_iff in Hl. now rewrite Hl.
    + rewrite not_definition_skipped by exact Hbo. now apply IH.
  - unfold expand_dbc_for_multiple_units in H.
    apply rbind_Ok in H as (msgs & _ & H).
    destruct (keyed_line_kind _ _ _ Hk) as (H1 & H2 & H3 & H4 & H5 & Hsig).
    unfold expand_loop in H.
    apply (walk_at _ (expand_line_local msgs num_units)
             (expand_line_bounded msgs num_units)) in H
      as (o1 & mid & w & o2 & _ & Hb & _ & ->); [|exact Hsig].
    rewrite expand_line_metadata in Hb by assumption.
    rewrite (on_metadata_keyed _ _ _ _ Hk), Hrange in Hb. simpl in Hb.
    injection Hb as <- _. now exists o1, o2.
Qed.

(** The heartbeat message, given an identifier inside the range, and its
    comment. *)
Lemma metadata_follows_the_range_witness :
  message_definitions
    (CatalogText.value_of []
       (expand_dbc_for_multiple_units
          ([ "BO_ 2148532224 Heartbeat: 1 SUPERVISER" +:+ LF ]
           ++ ("CM_ BO_ 2148532224 " +:+ DQ +:+ "Heartbeat" +:+ DQ +:+ ";" +:+ LF)
           :: []) 3))
  = message_definitions
      ([ "BO_ 2148532224 Heartbeat: 1 SUPERVISER" +:+ LF ]
       ++ ("CM_ BO_ 2148532224 " +:+ DQ +:+ "Heartbeat" +:+ DQ +:+ ";" +:+ LF)
       :: [])
  /\ exists o1 o2,
       CatalogText.value_of []
         (expand_dbc_for_multiple_units
            ([ "BO_ 2148532224 Heartbeat: 1 SUPERVISER" +:+ LF ]
             ++ ("CM_ BO_ 2148532224 " +:+ DQ +:+ "Heartbeat" +:+ DQ +:+ ";" +:+ LF)
             :: []) 3)
       = o1 ++ ((fun k => "CM_ BO_ " +:+ str_of_int (2148532224 + k) +:+ " "
                          +:+ (DQ +:+ "Heartbeat" +:+ DQ +:+ ";" +:+ LF))
                <$> range 3) ++ o2.
Proof.
  apply (metadata_follows_the_range_not_the_message
           [ "BO_ 2148532224 Heartbeat: 1 SUPERVISER" +:+ LF ] []
           ("CM_ BO_ 2148532224 " +:+ DQ +:+ "Heartbeat" +:+ DQ +:+ ";" +:+ LF)
           2148532224
           (fun i => "CM_ BO_ " +:+ str_of_int i +:+ " "
                     +:+ (DQ +:+ "Heartbeat" +:+ DQ +:+ ";" +:+ LF))
           3).
  - apply (keyed_message_comment _ "CM_" "BO_" "2148532224"
             (DQ +:+ "Heartbeat" +:+ DQ +:+ ";" +:+ LF));
      vm_compute; reflexivity.
  - reflexivity.
  - repeat (apply Forall_cons_2; [intros _; vm_compute; reflexivity|]).
    apply Forall_cons_2; [discriminate|apply Forall_nil_2].
  - vm_compute. reflexivity.
Defined.

End ExpandMore.

(** * The message log and the send dialog *)

Module DialogMore.

Import CanHandler HandlerOps Dialog TextFacts.

(** The digits [hex] writes. *)
Local Abbreviation digits d := (Py16.lowercase (upper_hex_digits d)).

Lemma hex_digits_acc (d : Hexadecimal.uint) (acc : positive) :
  Py16.hex_digits_go (Z.pos acc) true (digits d)
  = Some (Z.pos (Pos.of_hex_uint_acc d acc)).
Proof.
  revert acc. induction d; intros acc; [reflexivity|..];
    cbn [upper_hex_digits Py16.lowercase Pos.of_hex_uint_acc];
    rewrite <- IHd; cbn [Py16.hex_digits_go];
    match goal with
    | |- context [Py16.hex_digit_of ?c] =>
        change (Py16.hex_digit_of c) with (Some 0)
        || change (Py16.hex_digit_of c) with (Some 1)
        || change (Py16.hex_digit_of c) with (Some 2)
        || change (Py16.hex_digit_of c) with (Some 3)
        || change (Py16.hex_digit_of c) with (Some 4)
        || change (Py16.hex_digit_of c) with (Some 5)
        || change (Py16.hex_digit_of c) with (Some 6)
        || change (Py16.hex_digit_of c) with (Some 7)
        || change (Py16.hex_digit_of c) with (Some 8)
        || change (Py16.hex_digit_of c) with (Some 9)
        || change (Py16.hex_digit_of c) with (Some 10)
        || change (Py16.hex_digit_of c) with (Some 11)
        || change (Py16.hex_digit_of c) with (Some 12)
        || change (Py16.hex_digit_of c) with (Some 13)
        || change (Py16.hex_digit_of c) with (Some 14)
        || change (Py16.hex_digit_of c) with (Some 15)
    end;
    cbv iota; f_equal; lia.
Qed.

Lemma hex_digits_value (d : Hexadecimal.uint) :
  Py16.hex_digits_go 0 true (digits d) = Some (Z.of_N (Pos.of_hex_uint d)).
Proof.
  induction d; [reflexivity|exact IHd|..];
    cbn [upper_hex_digits Py16.lowercase Pos.of_hex_uint];
    exact (hex_digits_acc d _).
Qed.

Lemma hex_digits_first (d : Hexadecimal.uint) :
  d <> Hexadecimal.Nil ->
  Py16.hex_digits_go 0 false (digits d) = Some (Z.of_N (Pos.of_hex_uint d))
  /\ match digits d with
     | String "_" r' => r'
     | _ => digits d
     end = digits d.
Proof.
  intros Hd. split.
  - rewrite <- hex_digits_value. destruct d; [congruence|..]; reflexivity.
  - destruct d; reflexivity.
Qed.

Lemma digits_no_space (d : Hexadecimal.uint) :
  Forall (fun c => Py16.isspace_int c = false)
    (list_ascii_of_string (digits d)).
Proof. induction d; constructor; (reflexivity || exact IHd). Qed.

Lemma strip_int_digits (sign : string) (d : Hexadecimal.uint) :
  sign = "0x" \/ sign = "-0x" ->
  Py16.strip_int (sign +:+ digits d) = sign +:+ digits d.
Proof.
  intros Hsign. unfold Py16.strip_int.
  assert (Py16.lstrip_int (sign +:+ digits d) = sign +:+ digits d) as ->
    by (destruct Hsign as [-> | ->]; reflexivity).
  apply rstrip_by_none. rewrite chars_app. apply Forall_app. split.
  - destruct Hsign as [-> | ->]; repeat constructor.
  - apply digits_no_space.
Qed.

Lemma int_base16_digits (d : Hexadecimal.uint) :
  d <> Hexadecimal.Nil ->
  Py16.int_base16 ("0x" +:+ digits d) = Ok (Z.of_N (Pos.of_hex_uint d))
  /\ Py16.int_base16 ("-0x" +:+ digits d) = Ok (- Z.of_N (Pos.of_hex_uint d)).
Proof.
  intros Hd. destruct (hex_digits_first d Hd) as [Hvalue Hfirst].
  unfold Py16.int_base16. rewrite !strip_int_digits by tauto.
  change ("0x" +:+ digits d) with (String "0" (String "x" (digits d))).
  change ("-0x" +:+ digits d)
    with (String "-" (String "0" (String "x" (digits d)))).
  cbn [fst snd]. rewrite Hfirst, Hvalue. now split.
Qed.

(** [int(hex(n), 16)] is [n]. *)
Lemma int_base16_hex (n : Z) : Py16.int_base16 (hex n) = Ok n.
Proof.
  unfold hex, Z.to_hex_int. destruct n as [|p|p].
  - reflexivity.
  - destruct (int_base16_digits (Pos.to_hex_uint p)) as [-> _].
    + apply HexadecimalPos.Unsigned.to_uint_nonnil.
    + now rewrite HexadecimalPos.Unsigned.of_to.
  - destruct (int_base16_digits (Pos.to_hex_uint p)) as [_ ->].
    + apply HexadecimalPos.Unsigned.to_uint_nonnil.
    + now rewrite HexadecimalPos.Unsigned.of_to.
Qed.

Lemma bytes_fromhex_byte (b : byte) (r : string) :
  Py16.bytes_fromhex
    (String (lower_hex_digit (Byte.to_N b / 16))
       (String (lower_hex_digit (Byte.to_N b mod 16)) r))
  = let* more := Py16.bytes_fromhex r in Ok (b :: more).
Proof. destruct b; reflexivity. Qed.

(** [bytes.fromhex(data.hex())] is [data]. *)
Lemma bytes_fromhex_hex (bs : list byte) :
  Py16.bytes_fromhex (bytes_hex bs) = Ok bs.
Proof.
  induction bs as [|b bs IH]; [reflexivity|].
  cbn [bytes_hex]. now rewrite bytes_fromhex_byte, IH.
Qed.

(** X26.  What the message log shows of a received frame is enough to
    send it again: with the identifier column and the payload column of
    its row typed into the send dialog, [send] hands the bus a frame with
    the identifier and the payload of the frame received.  The frame goes
    out as an extended one exactly when its identifier is above 0x7FF,
    whatever the frame received was. *)
Theorem log_row_resends_the_frame
    (h : handler) (bus : list Can.frame) (frame : Can.frame) (r : CANMessage) :
  connected h = true ->
  receive_message h (Some frame) = Ok (Some r) ->
  send h bus (fst (fst (log_row r))) (snd (log_row r))
  = (Ok tt,
     bus ++ [{| Can.arbitration_id := Can.arbitration_id frame;
                Can.data := Can.data frame;
                Can.is_extended_id := 2047 <? Can.arbitration_id frame;
                Can.timestamp := 0%float |}]).
Proof.
  intros Hconn Hrecv. unfold receive_message in Hrecv.
  rewrite Hconn in Hrecv. cbn [negb] in Hrecv. injection Hrecv as <-.
  unfold log_row, send, send_over. cbn [fst snd can_id data_hex].
  rewrite int_base16_hex, bytes_fromhex_hex.
  unfold send_message_over. now rewrite Hconn.
Qed.

(** A frame of the sample catalog with a standard identifier. *)
Lemma log_row_witness :
  send {| connected := true; db := Some Sample.unit_catalog |} []
    "0x700" "07"
  = (Ok tt,
     [] ++ [{| Can.arbitration_id := 1792; Can.data := ["007"]%byte;
               Can.is_extended_id := false; Can.timestamp := 0%float |}]).
Proof.
  exact (log_row_resends_the_frame
           {| connected := true; db := Some Sample.unit_catalog |} []
           (Sample.received 1792 ["007"]%byte)
           {| can_id := 1792; name := "0x700"; data := ∅;
              data_hex := "07"; timestamp := 0%float |}
           eq_refl eq_refl).
Defined.

(** X27.  A send dialog that fails has put no frame on the bus, and
    fails in one of three ways.  With [ValueError], when the identifier is
    not a hexadecimal numeral or the payload is not a sequence of pairs of
    hexadecimal digits; the texts are checked first, so on a handler that
    is not connected a malformed text is still reported as [ValueError].
    With [ConnectionError], when both texts are well formed and the
    handler is not connected.  With the exception of the transport, when
    both texts are well formed, the handler is connected and the transport
    raises for the frame made of them: [send_message] does not catch
    it. *)
Theorem failed_send_sends_nothing
    (transmit : transport) (h : handler) (bus bus' : list Can.frame)
    (id_text data_text : string) (e : exn) :
  send_over transmit h bus id_text data_text = (Raise e, bus') ->
  bus' = bus
  /\ ((e = ValueError
       /\ (Py16.int_base16 id_text = Raise ValueError
           \/ Py16.bytes_fromhex data_text = Raise ValueError))
      \/ exists can_id payload,
           Py16.int_base16 id_text = Ok can_id
           /\ Py16.bytes_fromhex data_text = Ok payload
           /\ ((e = ConnectionError /\ connected h = false)
               \/ (connected h = true
                   /\ transmit {| Can.arbitration_id := can_id;
                                  Can.data := payload;
                                  Can.is_extended_id := 2047 <? can_id;
                                  Can.timestamp := 0%float |}
                      = Raise e))).
Proof.
  assert (forall s e', Py16.int_base16 s = Raise e' -> e' = ValueError) as Hint.
  { intros s e'. unfold Py16.int_base16.
    destruct (Py16.hex_digits_go _ _ _); [discriminate|now intros [= <-]]. }
  assert (forall s e', Py16.bytes_fromhex s = Raise e' -> e' = ValueError)
    as Hbytes.
  { intros s. remember (String.length s) as n eqn:Hn. revert s Hn.
    induction (lt_wf n) as [n _ IH]. intros s -> e'.
    destruct s as [|c r]; [discriminate|]. cbn [Py16.bytes_fromhex].
    destruct (Py16.isspace_ascii c).
    - apply (IH (String.length r)); [simpl; lia|reflexivity].
    - destruct (Py16.hex_digit_of c) as [top|]; [|now intros [= <-]].
      destruct r as [|c' r']; [now intros [= <-]|].
      destruct (Py16.hex_digit_of c') as [bot|]; [|now intros [= <-]].
      destruct (Py16.bytes_fromhex r') as [more|e''] eqn:Hmore;
        [discriminate|].
      simpl. intros [= <-].
      apply (IH (String.length r')) with (s := r'); [simpl; lia|reflexivity|].
      exact Hmore. }
  unfold send_over.
  destruct (Py16.int_base16 id_text) as [can_id|e1] eqn:H1.
  2:{ intros [= <- <-]. split; [reflexivity|]. left.
      rewrite (Hint _ _ H1). auto. }
  destruct (Py16.bytes_fromhex data_text) as [payload|e2] eqn:H2.
  2:{ intros [= <- <-]. split; [reflexivity|]. left.
      rewrite (Hbytes _ _ H2). auto. }
  unfold send_message_over. destruct (connected h); cbn [negb].
  - destruct (transmit _) as [[]|e3] eqn:H3; [discriminate|].
    intros [= <- <-]. split; [reflexivity|]. right.
    exists can_id, payload. split; [reflexivity|]. split; [reflexivity|].
    right. split; [reflexivity | exact H3].
  - intros [= <- <-]. split; [reflexivity|]. right.
    exists can_id, payload. split; [reflexivity|]. split; [reflexivity|].
    left. split; reflexivity.
Qed.

(** A connected handler and well-formed texts, on a transport that takes
    no frame with more than eight bytes of data: the frame is not sent and
    the exception of the transport is the result. *)
Lemma failed_send_witness :
  send_over
    (fun message =>
       if (8 <? length (Can.data message))%nat then Raise CanOperationError
       else Ok tt)
    {| connected := true; db := None |} [] "0x700" "00 01 02 03 04 05 06 07 08"
  = (Raise CanOperationError, [])
  /\ Py16.int_base16 "0x700" = Ok 1792
  /\ Py16.bytes_fromhex "00 01 02 03 04 05 06 07 08"
     = Ok ["000"; "001"; "002"; "003"; "004"; "005"; "006"; "007"; "008"]%byte.
Proof.
  split; [reflexivity|].
  destruct (failed_send_sends_nothing
              (fun message =>
                 if (8 <? length (Can.data message))%nat
                 then Raise CanOperationError else Ok tt)
              {| connected := true; db := None |} [] []
              "0x700" "00 01 02 03 04 05 06 07 08" CanOperationError eq_refl)
    as [_ [[[=] _] | (can_id & payload & Hid & Hdata & _)]].
  split; reflexivity.
Defined.

End DialogMore.
